(** * A shallow embedding of the go-driver failover connection and of the
      collection document operations

    Sources embedded here:
    - [cluster/cluster.go]: [NewConnection], [clusterConnection] and its
      methods [NewRequest], [Do], [Unmarshal], [getCurrentServer],
      [getNextServer];
    - the collection implementation (package [driver]): [ReadDocument],
      [CreateDocument], [CreateDocuments], [UpdateDocument],
      [UpdateDocuments], [ReplaceDocument], [RemoveDocument],
      [createMergeArray], [parseResponseArray].

    Go values are modelled as follows.  A [(T, error)] result pair is a pair
    of options, or a sum where the code never looks at the value next to a
    non-nil error.  A run-time panic (index out of range, division by zero,
    a [reflect] misuse) is the result [Panicked].  Slices indexed in place
    are lists read with [!!] and written with [<[i:=x]>].  Durations and
    instants are integers (nanoseconds) in [Z]; a [time.Duration] is an
    [int64], and the places where the sources leave its range or go
    through [float64] are written out. *)

From Stdlib Require Import ZArith String Lia.
From Stdlib Require SpecFloat.
From stdpp Require Import base list strings gmap.

(** ** Results of running Go code *)

Inductive outcome (A : Type) : Type :=
| Done (a : A)
| Panicked
| OutOfFuel.
Arguments Done {A} a.
Arguments Panicked {A}.
Arguments OutOfFuel {A}.

(** A statement of a function body with result type [R]: it goes on with a
    value ([Next]), leaves the function ([Return]) or panics. *)
Inductive step (R A : Type) : Type :=
| Next (a : A)
| Return (r : R)
| Panic.
Arguments Next {R A} a.
Arguments Return {R A} r.
Arguments Panic {R A}.

(** ** External collaborators

    The packages below are used by the embedded sources but declared
    elsewhere; each is taken as an interface, so that every theorem holds
    for any implementation of it. *)

(** Go's [context] package, as far as the sources use it. *)
Class ContextPkg := {
  GoContext : Type;
  Background : GoContext;
  (** [ctx.Deadline()]: [Some d] when a deadline is set. *)
  Deadline : GoContext -> option Z;
  (** [context.WithTimeout(ctx, d)]; the cancel function it also returns is
      called right after the attempt and carries no information. *)
  WithTimeout : GoContext -> Z -> GoContext
}.

(** The error values and classifiers of package [driver]. *)
Class ErrorPkg := {
  error : Type;
  WithStack : error -> error;
  InvalidArgumentError : string -> error;
  ResponseError : error -> error;
  newArangoError : Z -> Z -> string -> error;
  IsCanceled : error -> bool;
  IsArangoError : error -> bool
}.

(** ** Data of package [driver] *)

(** [DocumentMeta]: key, identifier and revision of a document. *)
Record DocumentMeta := {
  Key : string;
  ID : string;
  Rev : string
}.

(** [DocumentMeta{}] *)
Definition zeroMeta : DocumentMeta := {| Key := ""; ID := ""; Rev := "" |}.

(** A value passed as [interface{}], by what [reflect] tells of it: the
    untyped nil, a single value (struct, map, pointer, ...), a slice or an
    array of documents.  A document is kept as its text. *)
Inductive iface :=
| Nil
| Obj (d : string)
| Slice (l : list string)
| Array (l : list string).

(** [v == nil] / [v != nil] on an [interface{}] *)
Definition isNil (v : iface) : bool :=
  match v with Nil => true | _ => false end.

(** [contextSettings]: the request options read back from the context.
    Fields as the sources use them ([Silent], [ReturnOld], [ReturnNew],
    [Revisions]) and as the data model lists them ([KeepNull],
    [WaitForSync]). *)
Record contextSettings := {
  Silent : bool;
  WaitForSync : bool;
  KeepNull : option bool;
  ReturnOld : iface;
  ReturnNew : iface;
  Revisions : option (list string)
}.

(** ** Durations: [int64] and [float64], as far as [Do] uses them *)

Definition minInt64 : Z := (- 2 ^ 63)%Z.
Definition maxInt64 : Z := (2 ^ 63 - 1)%Z.

(** [t.Sub(u)] of package [time], on instants in nanoseconds: the
    difference, or the largest or the smallest [time.Duration] when the
    difference does not fit. *)
Definition time_Sub (t u : Z) : Z := Z.max minInt64 (Z.min maxInt64 (t - u)).

(** A finite [float64]: the value [Fnum * 2 ^ Fexp]. *)
Record float64 := {
  Fnum : Z;
  Fexp : Z
}.

(** [a / b] rounded to the nearest integer, a tie to the even one, for
    [0 <= a] and [0 < b]. *)
Definition roundHalfEven (a b : Z) : Z :=
  let q := (a / b)%Z in
  let r := (a mod b)%Z in
  if (2 * r <? b)%Z then q
  else if (b <? 2 * r)%Z then (q + 1)%Z
  else if Z.even q then q else (q + 1)%Z.

(** The [float64] nearest to [a * 2 ^ e / b], for [0 < b]: the rounding
    of IEEE 754 binary64, to nearest with a tie to the even significand.
    The value is scaled by [2 ^ s] so that it lies between [2 ^ 52] and
    [2 ^ 53], and rounded there to an integer, the significand of 53
    bits.  The exponent range of binary64 plays no part: the values met
    in [Do] are whole numbers of at most [2 ^ 63] in absolute value and
    their quotients by 1, 2 and 3, far from its two ends. *)
Definition float64_round (a b e : Z) : float64 :=
  if (a =? 0)%Z then {| Fnum := 0; Fexp := 0 |}
  else
    (* [2 ^ (l - 1) < |a| / b < 2 ^ (l + 1)] *)
    let l := (Z.log2 (Z.abs a) - Z.log2 b)%Z in
    let s := if (b * 2 ^ Z.max 0 l <=? Z.abs a * 2 ^ Z.max 0 (- l))%Z
             then (52 - l)%Z else (53 - l)%Z in
    {| Fnum := Z.sgn a * roundHalfEven (Z.abs a * 2 ^ Z.max 0 s) (b * 2 ^ Z.max 0 (- s));
       Fexp := e - s |}.

(** [float64(z)] for an [int64] *)
Definition float64_of_int64 (z : Z) : float64 := float64_round z 1 0.

(** [x / d] in [float64], for a divisor that is a whole number. *)
Definition float64_quo (x : float64) (d : Z) : float64 :=
  float64_round (Fnum x) d (Fexp x).

(** [int64(x)], here [time.Duration(x)]: the fraction is dropped.  For a
    value out of the range of [int64] the Go specification leaves the
    result to the implementation; it is the smallest [int64] on amd64,
    which is what is taken here. *)
Definition int64_of_float64 (x : float64) : Z :=
  let t := if (0 <=? Fexp x)%Z then (Fnum x * 2 ^ Fexp x)%Z
           else Z.quot (Fnum x) (2 ^ (- Fexp x)) in
  if ((minInt64 <=? t) && (t <=? maxInt64))%Z then t else minInt64.

Section Model.
Context {CP : ContextPkg} {EP : ErrorPkg}.

(** [driver.Response].  A response is what its methods answer:
    [StatusCode()], the error [CheckStatus] decodes from the body when the
    status is rejected, the outcome of [ParseBody("", &meta)], the outcome of
    [ParseBody(field, dst)] for a caller's destination, and the outcome of
    [ParseArrayBody()]. *)
#[warnings="-register-all"]
Inductive Response := mkResponse {
  StatusCode : Z;
  errorResponse : error;
  bodyMeta : DocumentMeta + error;
  bodyField : string -> option error;
  arrayBody : list Response + error
}.

(** [resp.CheckStatus(validStatusCodes...)]: nil when the status is one of
    the given codes, the decoded error response otherwise. *)
Definition CheckStatus (resp : Response) (validStatusCodes : list Z) : option error :=
  if existsb (Z.eqb (StatusCode resp)) validStatusCodes then None
  else Some (errorResponse resp).

(** [driver.Request] with the request shaping of package [driver]. *)
Class RequestPkg := {
  Request : Type;
  (** [req.Written()]: the request has been written to the network. *)
  Written : Request -> bool;
  SetBody : Request -> iface -> Request + error;
  SetBodyArray : Request -> iface -> option (list (gmap string string)) -> Request + error;
  (** [applyContextSettings(ctx, req)]; a nil context is [None]. *)
  applyContextSettings : option GoContext -> Request -> contextSettings * Request;
  (** [cs.okStatus(syncStatus, asyncStatus)] *)
  okStatus : contextSettings -> Z -> Z -> Z;
  (** [path.Join(elem...)] *)
  path_Join : list string -> string
}.
Context {RP : RequestPkg}.

(** [driver.Connection]; a nil context is [None].  [connDo] also gives the
    request back as the call left it: the request is a shared object and
    [Written] reads it after the call. *)
Record Connection := {
  connNewRequest : string -> string -> Request + error;
  connDo : option GoContext -> Request -> (Response + error) * Request;
  connUnmarshal : string -> iface -> option error
}.

(** ** [cluster/cluster.go] *)

Record ConnectionConfig := {
  DefaultTimeout : Z
}.

(** [time.Minute], in nanoseconds *)
Definition defaultTimeout : Z := 60000000000.

(** The mutex of the Go struct guards [current] only; a single call is
    modelled, so it has no counterpart here. *)
Record clusterConnection := {
  servers : list Connection;
  current : nat;
  cc_defaultTimeout : Z
}.

Definition NewConnection (config : ConnectionConfig) (srvs : list Connection)
  : option clusterConnection * option error :=
  if (length srvs =? 0)%nat then
    (None, Some (WithStack (InvalidArgumentError "Must provide at least 1 server")))
  else
    let config :=
      if (DefaultTimeout config =? 0)%Z then {| DefaultTimeout := defaultTimeout |} else config in
    (Some {| servers := srvs; current := 0; cc_defaultTimeout := DefaultTimeout config |}, None).

(** [c.servers[i]]: out of range panics. *)
Definition serverAt (c : clusterConnection) (i : nat) : outcome Connection :=
  match servers c !! i with
  | Some s => Done s
  | None => Panicked
  end.

Definition NewRequest (c : clusterConnection) (method path : string)
  : outcome (Request + error) :=
  match serverAt c 0 with
  | Done s => Done (connNewRequest s method path)
  | _ => Panicked
  end.

Definition Unmarshal (c : clusterConnection) (data : string) (result : iface)
  : outcome (option error) :=
  match serverAt c 0 with
  | Done s =>
      match connUnmarshal s data result with
      | Some err => Done (Some (WithStack err))
      | None => Done None
      end
  | _ => Panicked
  end.

Definition getCurrentServer (c : clusterConnection) : outcome Connection :=
  serverAt c (current c).

(** [c.current = (c.current + 1) % len(c.servers)]; a zero divisor panics. *)
Definition getNextServer (c : clusterConnection) : outcome (clusterConnection * Connection) :=
  if (length (servers c) =? 0)%nat then Panicked
  else
    let c' := {| servers := servers c;
                 current := (current c + 1) mod length (servers c);
                 cc_defaultTimeout := cc_defaultTimeout c |} in
    match serverAt c' (current c') with
    | Done s => Done (c', s)
    | _ => Panicked
    end.

(** [math.Max(1.0, math.Min(3.0, float64(len(c.servers))))]: the three
    possible values 1, 2 and 3 are exact in float64. *)
Definition timeoutDivider (n : nat) : Z := Z.max 1 (Z.min 3 (Z.of_nat n)).

(** [time.Duration(float64(timeout)/timeoutDivider)]: the timeout is
    rounded to a [float64], divided there, and the quotient converted
    back.  See [attemptTimeout_exact] for the timeouts on which this is
    the integer quotient. *)
Definition attemptTimeout (timeout : Z) (divider : Z) : Z :=
  int64_of_float64 (float64_quo (float64_of_int64 timeout) divider).

(** One call of an endpoint's [Do], as [Do] of the cluster made it: the
    cursor the endpoint was read at, the timeout given to
    [context.WithTimeout], the request as it was passed, what the endpoint
    answered, and the request as the call left it. *)
Record attempt := {
  at_server : nat;
  at_timeout : Z;
  at_request : Request;
  at_result : Response + error;
  at_left : Request
}.

(** [req.Written()] after the attempt *)
Definition at_written (a : attempt) : bool := Written (at_left a).

(** What a call of [Do] leaves behind: the returned pair, the connection
    (its cursor), the request, and the attempts made, oldest first. *)
Record DoReturn := {
  dr_resp : option Response;
  dr_err : option error;
  dr_conn : clusterConnection;
  dr_req : Request;
  dr_attempts : list attempt
}.

(** The [for] loop of [Do]; [s] is the endpoint to try, [n] the value of
    [attempt].  One unit of fuel is one iteration. *)
Fixpoint DoLoop (fuel : nat) (ctx : GoContext) (timeout divider : Z)
    (c : clusterConnection) (req : Request) (n : nat) (s : Connection)
    (made : list attempt) : outcome DoReturn :=
  match fuel with
  | O => OutOfFuel
  | S fuel' =>
      let serverCtx := WithTimeout ctx (attemptTimeout timeout divider) in
      let '(res, req') := connDo s (Some serverCtx) req in
      let made := made ++ [{| at_server := current c;
                              at_timeout := attemptTimeout timeout divider;
                              at_request := req;
                              at_result := res;
                              at_left := req' |}] in
      match res with
      | inl resp =>
          Done {| dr_resp := Some resp; dr_err := None;
                  dr_conn := c; dr_req := req'; dr_attempts := made |}
      | inr err =>
          if IsCanceled err then
            Done {| dr_resp := None; dr_err := Some (WithStack err);
                    dr_conn := c; dr_req := req'; dr_attempts := made |}
          else if Written req' then
            if IsArangoError err then
              Done {| dr_resp := None; dr_err := Some (WithStack err);
                      dr_conn := c; dr_req := req'; dr_attempts := made |}
            else
              Done {| dr_resp := None; dr_err := Some (WithStack (ResponseError err));
                      dr_conn := c; dr_req := req'; dr_attempts := made |}
          else
            let n := (n + 1)%nat in
            if (length (servers c) <? n)%nat then
              Done {| dr_resp := None; dr_err := Some (WithStack err);
                      dr_conn := c; dr_req := req'; dr_attempts := made |}
            else
              match getNextServer c with
              | Done (c', s') => DoLoop fuel' ctx timeout divider c' req' n s' made
              | _ => Panicked
              end
      end
  end.

(** [Do]; [now] is what [time.Now()] answers.  The loop runs at most once per
    server, so [length (servers c)] iterations are enough
    (see [Do_terminates]). *)
Definition Do (now : Z) (c : clusterConnection) (ctx : option GoContext) (req : Request)
  : outcome DoReturn :=
  let ctx := match ctx with None => Background | Some ctx => ctx end in
  let timeout :=
    match Deadline ctx with
    | Some deadline => time_Sub deadline now
    | None => cc_defaultTimeout c
    end in
  let divider := timeoutDivider (length (servers c)) in
  match getCurrentServer c with
  | Done s => DoLoop (length (servers c)) ctx timeout divider c req 1 s []
  | _ => Panicked
  end.

(** ** The collection implementation (package [driver]) *)

(** What an operation does to its collaborators, in order: a request built
    with [conn.NewRequest], a request sent with [conn.Do], a body parsed
    with [ParseBody(field, ...)] or with [ParseArrayBody()]. *)
Inductive event :=
| EvNewRequest (method path : string)
| EvDo (req : Request)
| EvParseBody (field : string)
| EvParseArrayBody.

(** A function body: its statements run on the log of events so far and
    append to it. *)
Definition Op (R A : Type) : Type := list event -> step R A * list event.

Definition ret {R A} (a : A) : Op R A := fun log => (Next a, log).

Definition bind {R A B} (m : Op R A) (k : A -> Op R B) : Op R B :=
  fun log =>
    match m log with
    | (Next a, log') => k a log'
    | (Return r, log') => (Return r, log')
    | (Panic, log') => (Panic, log')
    end.

Definition return_ {R A} (r : R) : Op R A := fun log => (Return r, log).

Definition panic {R A} : Op R A := fun log => (Panic, log).

Definition emit {R} (e : event) : Op R unit := fun log => (Next tt, log ++ [e]).

Notation "x <- m ;; k" := (bind m (fun x => k))
  (at level 100, m at next level, right associativity).
Notation "m ;; k" := (bind m (fun _ => k))
  (at level 100, right associativity).

(** A call of a function from another function's body. *)
Definition subcall {R X} (body : Op X X) : Op R X :=
  fun log =>
    match body log with
    | (Next x, log') | (Return x, log') => (Next x, log')
    | (Panic, log') => (Panic, log')
    end.

(** A call from outside, on an empty log. *)
Definition call {R} (body : Op R R) : outcome R * list event :=
  match body [] with
  | (Next r, log) | (Return r, log) => (Done r, log)
  | (Panic, log) => (Panicked, log)
  end.

(** [x, err := e; if err != nil { return f(err) }] *)
Definition orReturn {R A} (x : A + error) (f : error -> R) : Op R A :=
  match x with
  | inl a => ret a
  | inr err => return_ (f err)
  end.

(** [if err := e; err != nil { return f(err) }] *)
Definition failWith {R} (e : option error) (f : error -> R) : Op R unit :=
  match e with
  | Some err => return_ (f err)
  | None => ret tt
  end.

Definition when {R} (b : bool) (m : Op R unit) : Op R unit :=
  if b then m else ret tt.

(** [conn.NewRequest(method, path)] *)
Definition newRequest {R} (conn : Connection) (method path : string)
  : Op R (Request + error) :=
  emit (EvNewRequest method path) ;; ret (connNewRequest conn method path).

(** [conn.Do(ctx, req)] *)
Definition doRequest {R} (conn : Connection) (ctx : option GoContext) (req : Request)
  : Op R (Response + error) :=
  emit (EvDo req) ;; ret (fst (connDo conn ctx req)).

(** [resp.ParseBody("", &meta)] *)
Definition ParseBodyMeta {R} (resp : Response) : Op R (DocumentMeta + error) :=
  emit (EvParseBody "") ;; ret (bodyMeta resp).

(** [resp.ParseBody(field, dst)] *)
Definition ParseBody {R} (resp : Response) (field : string) : Op R (option error) :=
  emit (EvParseBody field) ;; ret (bodyField resp field).

(** [resp.ParseArrayBody()] *)
Definition ParseArrayBody {R} (resp : Response) : Op R (list Response + error) :=
  emit EvParseArrayBody ;; ret (arrayBody resp).

(** [database] and [collection], with their [relPath] *)
Record database := {
  db_name : string;
  db_conn : Connection
}.

Definition db_relPath (d : database) : string := path_Join ["_db"; db_name d].

Record collection := {
  name : string;
  db : database;
  conn : Connection
}.

Definition relPath (c : collection) (apiName : string) : string :=
  path_Join [db_relPath (db c); "_api"; apiName; name c].

(** Modelled from the spec: [validateKey] is declared outside the sources
    at hand.  A blank key fails with InvalidArgument (the test
    [TestUpdateDocumentKeyEmpty] expects as much); every other key is
    accepted. *)
Definition validateKey (key : string) : option error :=
  if decide (key = "") then Some (WithStack (InvalidArgumentError "key is empty"))
  else None.

(** Result of a singular operation: [(DocumentMeta, error)] *)
Definition single : Type := DocumentMeta * option error.

(** Result of a batched operation: [(DocumentMetaSlice, ErrorSlice, error)];
    a nil slice is [None]. *)
Definition batch : Type :=
  option (list DocumentMeta) * option (list (option error)) * option error.

Definition ReadDocument (c : collection) (ctx : option GoContext) (key : string)
    (result : iface) : Op single single :=
  failWith (validateKey key) (fun err => (zeroMeta, Some (WithStack err))) ;;
  req <- (r <- newRequest (conn c) "GET" (path_Join [relPath c "document"; key]) ;;
           orReturn r (fun err => (zeroMeta, Some (WithStack err)))) ;;
  resp <- (r <- doRequest (conn c) ctx req ;;
           orReturn r (fun err => (zeroMeta, Some (WithStack err)))) ;;
  failWith (CheckStatus resp [200%Z]) (fun err => (zeroMeta, Some (WithStack err))) ;;
  meta <- (r <- ParseBodyMeta resp ;;
           orReturn r (fun err => (zeroMeta, Some (WithStack err)))) ;;
  when (negb (isNil result))
    (e <- ParseBody resp "" ;; failWith e (fun err => (meta, Some (WithStack err)))) ;;
  return_ (meta, None).

Definition CreateDocument (c : collection) (ctx : option GoContext) (document : iface)
  : Op single single :=
  when (isNil document)
    (return_ (zeroMeta, Some (WithStack (InvalidArgumentError "document nil")))) ;;
  req <- (r <- newRequest (conn c) "POST" (relPath c "document") ;;
           orReturn r (fun err => (zeroMeta, Some (WithStack err)))) ;;
  req <- orReturn (SetBody req document) (fun err => (zeroMeta, Some (WithStack err))) ;;
  let '(cs, req) := applyContextSettings ctx req in
  resp <- (r <- doRequest (conn c) ctx req ;;
           orReturn r (fun err => (zeroMeta, Some (WithStack err)))) ;;
  failWith (CheckStatus resp [okStatus cs 201 202])
    (fun err => (zeroMeta, Some (WithStack err))) ;;
  when (Silent cs) (return_ (zeroMeta, None)) ;;
  meta <- (r <- ParseBodyMeta resp ;;
           orReturn r (fun err => (zeroMeta, Some (WithStack err)))) ;;
  when (negb (isNil (ReturnNew cs)))
    (e <- ParseBody resp "new" ;; failWith e (fun err => (meta, Some (WithStack err)))) ;;
  return_ (meta, None).

(** [documentsVal.Kind()] is [reflect.Array] or [reflect.Slice], with
    [documentsVal.Len()] *)
Definition seqLen (v : iface) : option nat :=
  match v with
  | Slice l | Array l => Some (length l)
  | _ => None
  end.

(** [returnVal.Index(i).Addr()]: the element must exist and be addressable,
    which an element of a slice is and an element of an array value is not;
    anything else panics. *)
Definition indexAddr {R} (v : iface) (i : nat) : Op R unit :=
  match v with
  | Slice l => if (i <? length l)%nat then ret tt else panic
  | _ => panic
  end.

(** The body of the loop of [parseResponseArray], for index [i].
    [errs[i] = err] and [metas[i] = meta] are in range: both slices have
    [count] elements and [i < count]. *)
Definition parseResponseItem {R} (resps : list Response) (cs : contextSettings)
    (i : nat) (metas : list DocumentMeta) (errs : list (option error))
  : Op R (list DocumentMeta * list (option error)) :=
  resp <- match resps !! i with Some resp => ret resp | None => panic end ;;
  match CheckStatus resp [200%Z; 201%Z; 202%Z] with
  | Some err => ret (metas, <[i:=Some err]> errs)
  | None =>
      r <- ParseBodyMeta resp ;;
      match r with
      | inr err => ret (metas, <[i:=Some err]> errs)
      | inl meta =>
          let metas := <[i:=meta]> metas in
          errs <- (if negb (isNil (ReturnOld cs)) then
                     indexAddr (ReturnOld cs) i ;;
                     e <- ParseBody resp "old" ;;
                     ret (match e with
                          | Some err => <[i:=Some err]> errs
                          | None => errs
                          end)
                   else ret errs) ;;
          errs <- (if negb (isNil (ReturnNew cs)) then
                     indexAddr (ReturnNew cs) i ;;
                     e <- ParseBody resp "new" ;;
                     ret (match e with
                          | Some err => <[i:=Some err]> errs
                          | None => errs
                          end)
                   else ret errs) ;;
          ret (metas, errs)
      end
  end.

(** The loop [for i := 0; i < count; i++], with [n = count - i] iterations
    left. *)
Fixpoint parseResponseItems {R} (resps : list Response) (cs : contextSettings)
    (n i : nat) (metas : list DocumentMeta) (errs : list (option error))
  : Op R (list DocumentMeta * list (option error)) :=
  match n with
  | O => ret (metas, errs)
  | S n' =>
      st <- parseResponseItem resps cs i metas errs ;;
      parseResponseItems resps cs n' (S i) (fst st) (snd st)
  end.

Definition parseResponseArray (resp : Response) (count : nat) (cs : contextSettings)
  : Op batch batch :=
  resps <- (r <- ParseArrayBody resp ;;
            orReturn r (fun err => (None, None, Some (WithStack err)))) ;;
  let metas := replicate count zeroMeta in
  let errs := replicate count None in
  st <- parseResponseItems resps cs count 0 metas errs ;;
  return_ (Some (fst st), Some (snd st), None).

(** The messages built with [fmt.Sprintf] are kept as their format
    strings. *)
Definition CreateDocuments (c : collection) (ctx : option GoContext) (documents : iface)
  : Op batch batch :=
  documentCount <-
    match seqLen documents with
    | Some n => ret n
    | None => return_ (None, None, Some (WithStack (InvalidArgumentError
                         "documents data must be of kind Array, got %s")))
    end ;;
  req <- (r <- newRequest (conn c) "POST" (relPath c "document") ;;
           orReturn r (fun err => (None, None, Some (WithStack err)))) ;;
  req <- orReturn (SetBody req documents) (fun err => (None, None, Some (WithStack err))) ;;
  let '(cs, req) := applyContextSettings ctx req in
  resp <- (r <- doRequest (conn c) ctx req ;;
           orReturn r (fun err => (None, None, Some (WithStack err)))) ;;
  when (negb (StatusCode resp =? okStatus cs 201 202)%Z)
    (return_ (None, None, Some (WithStack (newArangoError (StatusCode resp) 0 "Invalid status")))) ;;
  when (Silent cs) (return_ (None, None, None)) ;;
  parsed <- subcall (parseResponseArray resp documentCount cs) ;;
  let '(metas, errs, err) := parsed in
  failWith err (fun err => (None, None, Some (WithStack err))) ;;
  return_ (metas, errs, None).

Definition UpdateDocument (c : collection) (ctx : option GoContext) (key : string)
    (update : iface) : Op single single :=
  failWith (validateKey key) (fun err => (zeroMeta, Some (WithStack err))) ;;
  when (isNil update)
    (return_ (zeroMeta, Some (WithStack (InvalidArgumentError "update nil")))) ;;
  req <- (r <- newRequest (conn c) "PATCH" (path_Join [relPath c "document"; key]) ;;
           orReturn r (fun err => (zeroMeta, Some (WithStack err)))) ;;
  req <- orReturn (SetBody req update) (fun err => (zeroMeta, Some (WithStack err))) ;;
  let '(cs, req) := applyContextSettings ctx req in
  resp <- (r <- doRequest (conn c) ctx req ;;
           orReturn r (fun err => (zeroMeta, Some (WithStack err)))) ;;
  failWith (CheckStatus resp [okStatus cs 201 202])
    (fun err => (zeroMeta, Some (WithStack err))) ;;
  when (Silent cs) (return_ (zeroMeta, None)) ;;
  meta <- (r <- ParseBodyMeta resp ;;
           orReturn r (fun err => (zeroMeta, Some (WithStack err)))) ;;
  when (negb (isNil (ReturnOld cs)))
    (e <- ParseBody resp "old" ;; failWith e (fun err => (meta, Some (WithStack err)))) ;;
  when (negb (isNil (ReturnNew cs)))
    (e <- ParseBody resp "new" ;; failWith e (fun err => (meta, Some (WithStack err)))) ;;
  return_ (meta, None).

(** [createMergeArray]; a nil slice is [None]. *)
Definition createMergeArray (keys revs : option (list string))
  : option (list (gmap string string)) * option error :=
  match keys, revs with
  | None, None => (None, None)
  | Some keys, None =>
      (Some (map (fun k => {[ "_key" := k ]}) keys), None)
  | None, Some revs =>
      (Some (map (fun r => {[ "_rev" := r ]}) revs), None)
  | Some keys, Some revs =>
      if negb (length keys =? length revs)%nat then
        (None, Some (WithStack (InvalidArgumentError
                       "#keys must be equal to #revs, got %d, %d")))
      else
        (Some (zip_with (fun k r => <[ "_rev" := r ]> {[ "_key" := k ]}) keys revs), None)
  end.

(** [for _, key := range keys { if err := validateKey(key); ... }] *)
Fixpoint validateKeys {R} (keys : list string) (f : error -> R) : Op R unit :=
  match keys with
  | [] => ret tt
  | key :: keys => failWith (validateKey key) f ;; validateKeys keys f
  end.

Definition UpdateDocuments (c : collection) (ctx : option GoContext)
    (keys : option (list string)) (updates : iface) : Op batch batch :=
  updateCount <-
    match seqLen updates with
    | Some n => ret n
    | None => return_ (None, None, Some (WithStack (InvalidArgumentError
                         "updates data must be of kind Array, got %s")))
    end ;;
  when (negb (length (default [] keys) =? updateCount)%nat)
    (return_ (None, None, Some (WithStack (InvalidArgumentError "expected %d keys, got %s")))) ;;
  validateKeys (default [] keys) (fun err => (None, None, Some (WithStack err))) ;;
  req <- (r <- newRequest (conn c) "PATCH" (relPath c "document") ;;
           orReturn r (fun err => (None, None, Some (WithStack err)))) ;;
  let '(cs, req) := applyContextSettings ctx req in
  mergeArray <-
    (let '(mergeArray, err) := createMergeArray keys (Revisions cs) in
     failWith err (fun err => (None, None, Some (WithStack err))) ;; ret mergeArray) ;;
  req <- orReturn (SetBodyArray req updates mergeArray)
           (fun err => (None, None, Some (WithStack err))) ;;
  resp <- (r <- doRequest (conn c) ctx req ;;
           orReturn r (fun err => (None, None, Some (WithStack err)))) ;;
  when (negb (StatusCode resp =? okStatus cs 201 202)%Z)
    (return_ (None, None, Some (WithStack (newArangoError (StatusCode resp) 0 "Invalid status")))) ;;
  when (Silent cs) (return_ (None, None, None)) ;;
  parsed <- subcall (parseResponseArray resp updateCount cs) ;;
  let '(metas, errs, err) := parsed in
  failWith err (fun err => (None, None, Some (WithStack err))) ;;
  return_ (metas, errs, None).

Definition ReplaceDocument (c : collection) (ctx : option GoContext) (key : string)
    (document : iface) : Op single single :=
  failWith (validateKey key) (fun err => (zeroMeta, Some (WithStack err))) ;;
  when (isNil document)
    (return_ (zeroMeta, Some (WithStack (InvalidArgumentError "document nil")))) ;;
  req <- (r <- newRequest (conn c) "PUT" (path_Join [relPath c "document"; key]) ;;
           orReturn r (fun err => (zeroMeta, Some (WithStack err)))) ;;
  req <- orReturn (SetBody req document) (fun err => (zeroMeta, Some (WithStack err))) ;;
  let '(cs, req) := applyContextSettings ctx req in
  resp <- (r <- doRequest (conn c) ctx req ;;
           orReturn r (fun err => (zeroMeta, Some (WithStack err)))) ;;
  failWith (CheckStatus resp [okStatus cs 201 202])
    (fun err => (zeroMeta, Some (WithStack err))) ;;
  when (Silent cs) (return_ (zeroMeta, None)) ;;
  meta <- (r <- ParseBodyMeta resp ;;
           orReturn r (fun err => (zeroMeta, Some (WithStack err)))) ;;
  when (negb (isNil (ReturnOld cs)))
    (e <- ParseBody resp "old" ;; failWith e (fun err => (meta, Some (WithStack err)))) ;;
  when (negb (isNil (ReturnNew cs)))
    (e <- ParseBody resp "new" ;; failWith e (fun err => (meta, Some (WithStack err)))) ;;
  return_ (meta, None).

Definition RemoveDocument (c : collection) (ctx : option GoContext) (key : string)
  : Op single single :=
  failWith (validateKey key) (fun err => (zeroMeta, Some (WithStack err))) ;;
  req <- (r <- newRequest (conn c) "DELETE" (path_Join [relPath c "document"; key]) ;;
           orReturn r (fun err => (zeroMeta, Some (WithStack err)))) ;;
  let '(cs, req) := applyContextSettings ctx req in
  resp <- (r <- doRequest (conn c) ctx req ;;
           orReturn r (fun err => (zeroMeta, Some (WithStack err)))) ;;
  failWith (CheckStatus resp [okStatus cs 200 202])
    (fun err => (zeroMeta, Some (WithStack err))) ;;
  when (Silent cs) (return_ (zeroMeta, None)) ;;
  meta <- (r <- ParseBodyMeta resp ;;
           orReturn r (fun err => (zeroMeta, Some (WithStack err)))) ;;
  when (negb (isNil (ReturnOld cs)))
    (e <- ParseBody resp "old" ;; failWith e (fun err => (meta, Some (WithStack err)))) ;;
  return_ (meta, None).

End Model.

(** * More of package [driver]: databases and collections

    [newCollection], [Name] and [Remove] of the collection implementation,
    and [newDatabase], [Name], [Collection], [CollectionExists] and
    [Collections] of [database_impl.go].  [CreateCollection] and [Query]
    are left out: the options, the query request and the cursor they build
    on are declared outside the sources at hand. *)

(** [CollectionInfo], of which the sources read the name. *)
Record CollectionInfo := {
  info_Name : string
}.

Section Catalog.
Context {CP : ContextPkg} {EP : ErrorPkg} {RP : RequestPkg}.

Notation "x <- m ;; k" := (bind m (fun x => k))
  (at level 100, m at next level, right associativity).
Notation "m ;; k" := (bind m (fun _ => k))
  (at level 100, right associativity).

(** Two more collaborators of [database_impl.go]. *)
Class CatalogPkg := {
  (** [driver.IsNotFound(err)] *)
  IsNotFound : error -> bool;
  (** [resp.ParseBody("", &data)] for a [getCollectionResponse]: the
      [Result] it decodes, or the error. *)
  bodyCollections : Response -> list CollectionInfo + error
}.
Context {KP : CatalogPkg}.

(** [newDatabase]; a nil connection is [None]. *)
Definition newDatabase (name : string) (conn : option Connection)
  : database + error :=
  if decide (name = "") then
    inr (WithStack (InvalidArgumentError "name is empty"))
  else
    match conn with
    | None => inr (WithStack (InvalidArgumentError "conn is nil"))
    | Some conn => inl {| db_name := name; db_conn := conn |}
    end.

(** [database.Name] *)
Definition database_Name (d : database) : string := db_name d.

(** [newCollection]; a nil database is [None]. *)
Definition newCollection (name : string) (db : option database)
  : collection + error :=
  if decide (name = "") then
    inr (WithStack (InvalidArgumentError "name is empty"))
  else
    match db with
    | None => inr (WithStack (InvalidArgumentError "db is nil"))
    | Some db => inl {| name := name; db := db; conn := db_conn db |}
    end.

(** [collection.Name] *)
Definition collection_Name (c : collection) : string := name c.

(** [collection.Remove] *)
Definition Remove (c : collection) (ctx : option GoContext)
  : Op (option error) (option error) :=
  req <- (r <- newRequest (conn c) "DELETE" (relPath c "collection") ;;
          orReturn r (fun err => Some (WithStack err))) ;;
  resp <- (r <- doRequest (conn c) ctx req ;;
           orReturn r (fun err => Some (WithStack err))) ;;
  failWith (CheckStatus resp [200%Z]) (fun err => Some (WithStack err)) ;;
  return_ None.

(** [database.Collection] *)
Definition Collection (d : database) (ctx : option GoContext) (name : string)
  : Op (option collection * option error) (option collection * option error) :=
  req <- (r <- newRequest (db_conn d) "GET"
                 (path_Join [db_relPath d; "_api/collection"; name]) ;;
          orReturn r (fun err => (None, Some (WithStack err)))) ;;
  resp <- (r <- doRequest (db_conn d) ctx req ;;
           orReturn r (fun err => (None, Some (WithStack err)))) ;;
  failWith (CheckStatus resp [200%Z]) (fun err => (None, Some (WithStack err))) ;;
  coll <- orReturn (newCollection name (Some d))
            (fun err => (None, Some (WithStack err))) ;;
  return_ (Some coll, None).

(** [database.CollectionExists] *)
Definition CollectionExists (d : database) (ctx : option GoContext) (name : string)
  : Op (bool * option error) (bool * option error) :=
  req <- (r <- newRequest (db_conn d) "GET"
                 (path_Join [db_relPath d; "_api/collection"; name]) ;;
          orReturn r (fun err => (false, Some (WithStack err)))) ;;
  resp <- (r <- doRequest (db_conn d) ctx req ;;
           orReturn r (fun err => (false, Some (WithStack err)))) ;;
  match CheckStatus resp [200%Z] with
  | None => return_ (true, None)
  | Some err =>
      if IsNotFound err then return_ (false, None)
      else return_ (false, Some (WithStack err))
  end.

(** The loop [for _, info := range data.Result] of [Collections], with
    [result] the slice appended to so far. *)
Fixpoint collectionsOf {R} (d : database) (infos : list CollectionInfo)
    (result : list collection) (f : error -> R) : Op R (list collection) :=
  match infos with
  | [] => ret result
  | info :: infos =>
      col <- orReturn (newCollection (info_Name info) (Some d)) f ;;
      collectionsOf d infos (result ++ [col]) f
  end.

(** [database.Collections]; the slice it returns is never nil. *)
Definition Collections (d : database) (ctx : option GoContext)
  : Op (option (list collection) * option error)
       (option (list collection) * option error) :=
  req <- (r <- newRequest (db_conn d) "GET" (path_Join [db_relPath d; "_api/collection"]) ;;
          orReturn r (fun err => (None, Some (WithStack err)))) ;;
  resp <- (r <- doRequest (db_conn d) ctx req ;;
           orReturn r (fun err => (None, Some (WithStack err)))) ;;
  failWith (CheckStatus resp [200%Z]) (fun err => (None, Some (WithStack err))) ;;
  data <- (emit (EvParseBody "") ;;
           orReturn (bodyCollections resp) (fun err => (None, Some (WithStack err)))) ;;
  result <- collectionsOf d data [] (fun err => (None, Some (WithStack err))) ;;
  return_ (Some result, None).

End Catalog.


(** * Vocabulary for the statements *)

Section Vocabulary.
Context {CP : ContextPkg} {EP : ErrorPkg} {RP : RequestPkg}.

(** ** The failover connection *)

(** The context [Do] works with: [context.Background()] for a nil one. *)
Definition callContext (ctx : option GoContext) : GoContext :=
  match ctx with
  | None => Background
  | Some ctx => ctx
  end.

(** The overall timeout [Do] resolves at time [now]. *)
Definition overallTimeout (now : Z) (c : clusterConnection) (ctx : option GoContext) : Z :=
  match Deadline (callContext ctx) with
  | Some deadline => time_Sub deadline now
  | None => cc_defaultTimeout c
  end.

(** The context [Do] hands to every endpoint it tries. *)
Definition serverContext (now : Z) (c : clusterConnection) (ctx : option GoContext)
  : GoContext :=
  WithTimeout (callContext ctx)
    (attemptTimeout (overallTimeout now c ctx) (timeoutDivider (length (servers c)))).

(** An attempt failed, not by the caller's cancellation, and before the
    request was written. *)
Definition retryable (a : attempt) : bool :=
  match at_result a with
  | inl _ => false
  | inr err => negb (IsCanceled err) && negb (at_written a)
  end.

(** What [Do] returns when it returns after attempt [a]. *)
Definition answer (a : attempt) : option Response * option error :=
  match at_result a with
  | inl resp => (Some resp, None)
  | inr err =>
      if IsCanceled err then (None, Some (WithStack err))
      else if at_written a then
        if IsArangoError err then (None, Some (WithStack err))
        else (None, Some (WithStack (ResponseError err)))
      else (None, Some (WithStack err))
  end.

(** [a] records a call, with context [sctx], of the endpoint of pool [c]
    that its cursor names. *)
Definition answeredBy (c : clusterConnection) (sctx : GoContext) (a : attempt) : Prop :=
  exists s,
    servers c !! at_server a = Some s /\
    connDo s (Some sctx) (at_request a) = (at_result a, at_left a).

(** The attempts [l] pass the request [req] along: the first one gets
    [req], each later one gets the request as the one before left it. *)
Definition handsOn (req : Request) (l : list attempt) : Prop :=
  (forall a, l !! 0 = Some a -> at_request a = req) /\
  (forall j a b, l !! j = Some a -> l !! S j = Some b -> at_request b = at_left a).

(** The shape of a run of the loop on pool [c] that returned [r] after the
    attempts [earlier ++ [last]], with [left] the number of endpoints it
    could still try after the first: the attempts follow the pool from the
    cursor on, each with the same timeout and the request handed on; all
    but the last failed over; a last attempt that would fail over means
    the pool is used up; the cursor, the request and the returned pair are
    those of the last attempt. *)
Definition runOf (c : clusterConnection) (sctx : GoContext) (slice : Z) (req : Request)
    (left : nat) (r : DoReturn) (earlier : list attempt) (last : attempt) : Prop :=
  servers (dr_conn r) = servers c /\
  length earlier <= left /\
  (forall j a, (earlier ++ [last]) !! j = Some a ->
     at_server a = (current c + j) mod length (servers c) /\
     at_timeout a = slice /\
     answeredBy c sctx a) /\
  handsOn req (earlier ++ [last]) /\
  Forall (fun a => retryable a = true) earlier /\
  (retryable last = true -> length earlier = left) /\
  current (dr_conn r) = at_server last /\
  dr_req r = at_left last /\
  (dr_resp r, dr_err r) = answer last.

(** ** The document operations *)

(** An [InvalidArgumentError], possibly under attached stacks. *)
Inductive isInvalidArgument : error -> Prop :=
| invalid_here (msg : string) : isInvalidArgument (InvalidArgumentError msg)
| invalid_stack (err : error) : isInvalidArgument err -> isInvalidArgument (WithStack err).

(** A singular operation returned [DocumentMeta{}] and an InvalidArgument
    error, and called no collaborator. *)
Definition rejectsSingle (run : outcome single * list event) : Prop :=
  exists err, run = (Done (zeroMeta, Some err), []) /\ isInvalidArgument err.

(** A batched operation returned nil slices and an InvalidArgument error,
    and called no collaborator. *)
Definition rejectsBatch (run : outcome batch * list event) : Prop :=
  exists err, run = (Done (None, None, Some err), []) /\ isInvalidArgument err.

(** The destination given with return-old or return-new can take [count]
    elements: there is none, or it is a slice of at least [count]. *)
Definition destFits (v : iface) (count : nat) : Prop :=
  v = Nil \/ exists l, v = Slice l /\ count <= length l.

(** The error left at a position by the requested return-old and
    return-new fields: that of "new" when it fails to decode, else that of
    "old". *)
Definition fieldError (cs : contextSettings) (r : Response) : option error :=
  match (if isNil (ReturnNew cs) then None else bodyField r "new") with
  | Some err => Some err
  | None => if isNil (ReturnOld cs) then None else bodyField r "old"
  end.

(** The metadata [parseResponseArray] stores for an item, if any. *)
Definition itemStored (r : Response) : option DocumentMeta :=
  match CheckStatus r [200%Z; 201%Z; 202%Z] with
  | Some _ => None
  | None => match bodyMeta r with inl meta => Some meta | inr _ => None end
  end.

(** The error [parseResponseArray] stores for an item, if any. *)
Definition itemFailure (cs : contextSettings) (r : Response) : option error :=
  match CheckStatus r [200%Z; 201%Z; 202%Z] with
  | Some err => Some err
  | None => match bodyMeta r with inr err => Some err | inl _ => fieldError cs r end
  end.

End Vocabulary.

(** A finite or zero float of the Standard Library's specification of
    IEEE 754 ([SpecFloat]), as significand and exponent. *)
Definition float64_of_spec (x : SpecFloat.spec_float) : option float64 :=
  match x with
  | SpecFloat.S754_zero _ => Some {| Fnum := 0; Fexp := 0 |}
  | SpecFloat.S754_finite sign m e =>
      Some {| Fnum := if sign then Z.neg m else Z.pos m; Fexp := e |}
  | _ => None
  end.

(** Two floats have the same value. *)
Definition sameValue (x y : float64) : bool :=
  let e := Z.min (Fexp x) (Fexp y) in
  (Fnum x * 2 ^ (Fexp x - e) =? Fnum y * 2 ^ (Fexp y - e))%Z.

(** [float64(timeout) / divider] as computed by [float64_of_int64] and
    [float64_quo] is the binary64 quotient of the Standard Library's
    specification. *)
Definition agreesWithSpecFloat (timeout divider : Z) : bool :=
  match float64_of_spec
          (SpecFloat.SFdiv 53 1024
             (SpecFloat.binary_normalize 53 1024 timeout 0 false)
             (SpecFloat.binary_normalize 53 1024 divider 0 false)) with
  | Some y => sameValue (float64_quo (float64_of_int64 timeout) divider) y
  | None => false
  end.

(** * Vocabulary for further statements *)

Section Lifetime.
Context {CP : ContextPkg} {EP : ErrorPkg} {RP : RequestPkg}.

(** The states of a connection in sequential use: as [NewConnection] made
    it from [config] and the pool [srvs], or as a returning call of [Do]
    left a connection that was in use. *)
Inductive inUse (config : ConnectionConfig) (srvs : list Connection)
  : clusterConnection -> Prop :=
| inUse_new (c : clusterConnection) :
    NewConnection config srvs = (Some c, None) -> inUse config srvs c
| inUse_Do (c : clusterConnection) (now : Z) (ctx : option GoContext) (req : Request)
    (r : DoReturn) :
    inUse config srvs c -> Do now c ctx req = Done r -> inUse config srvs (dr_conn r).

(** The timeouts handed out in a call, added up. *)
Definition timeSpent (l : list attempt) : Z :=
  foldr Z.add 0%Z (map at_timeout l).

End Lifetime.

Section Operations.
Context {CP : ContextPkg} {EP : ErrorPkg} {RP : RequestPkg}.

(** The four singular mutations with their arguments, to state what they
    have in common.  The tables below are read off the four functions. *)
Inductive mutation :=
| MCreate (document : iface)
| MUpdate (key : string) (update : iface)
| MReplace (key : string) (document : iface)
| MRemove (key : string).

Definition runMutation (c : collection) (ctx : option GoContext) (m : mutation)
  : outcome single * list event :=
  match m with
  | MCreate document => call (CreateDocument c ctx document)
  | MUpdate key update => call (UpdateDocument c ctx key update)
  | MReplace key document => call (ReplaceDocument c ctx key document)
  | MRemove key => call (RemoveDocument c ctx key)
  end.

(** The arguments pass the checks made before any request is built. *)
Definition mutationValid (m : mutation) : Prop :=
  match m with
  | MCreate document => isNil document = false
  | MUpdate key update => key <> "" /\ isNil update = false
  | MReplace key document => key <> "" /\ isNil document = false
  | MRemove key => key <> ""
  end.

Definition mutationMethod (m : mutation) : string :=
  match m with
  | MCreate _ => "POST"
  | MUpdate _ _ => "PATCH"
  | MReplace _ _ => "PUT"
  | MRemove _ => "DELETE"
  end.

Definition mutationPath (c : collection) (m : mutation) : string :=
  match m with
  | MCreate _ => relPath c "document"
  | MUpdate key _ | MReplace key _ | MRemove key => path_Join [relPath c "document"; key]
  end.

Definition mutationBody (m : mutation) : option iface :=
  match m with
  | MCreate document | MReplace _ document => Some document
  | MUpdate _ update => Some update
  | MRemove _ => None
  end.

(** The one status the mutation accepts. *)
Definition mutationStatus (cs : contextSettings) (m : mutation) : Z :=
  match m with
  | MRemove _ => okStatus cs 200 202
  | _ => okStatus cs 201 202
  end.

(** The mutation reads the "old", the "new" field of the response. *)
Definition readsOld (cs : contextSettings) (m : mutation) : bool :=
  match m with
  | MCreate _ => false
  | _ => negb (isNil (ReturnOld cs))
  end.

Definition readsNew (cs : contextSettings) (m : mutation) : bool :=
  match m with
  | MRemove _ => false
  | _ => negb (isNil (ReturnNew cs))
  end.

(** The request of the mutation is built: [req] is the request as it is
    passed to [conn.Do], [cs] the settings read from the context. *)
Definition prepared (c : collection) (ctx : option GoContext) (m : mutation)
    (cs : contextSettings) (req : Request) : Prop :=
  exists req0,
    connNewRequest (conn c) (mutationMethod m) (mutationPath c m) = inl req0 /\
    match mutationBody m with
    | Some body =>
        exists req1, SetBody req0 body = inl req1 /\
                     applyContextSettings ctx req1 = (cs, req)
    | None => applyContextSettings ctx req0 = (cs, req)
    end.

(** The error a singular mutation returns for the fields it reads: that of
    "old" when it fails to decode, else that of "new". *)
Definition firstFieldError (cs : contextSettings) (m : mutation) (resp : Response)
  : option error :=
  match (if readsOld cs m then bodyField resp "old" else None) with
  | Some err => Some err
  | None => if readsNew cs m then bodyField resp "new" else None
  end.

(** The two batched operations with their arguments. *)
Inductive batchOp :=
| BCreate (documents : iface)
| BUpdate (keys : option (list string)) (updates : iface).

Definition runBatch (c : collection) (ctx : option GoContext) (b : batchOp)
  : outcome batch * list event :=
  match b with
  | BCreate documents => call (CreateDocuments c ctx documents)
  | BUpdate keys updates => call (UpdateDocuments c ctx keys updates)
  end.

(** The arguments pass the checks made before any request is built, for a
    batch of [n]. *)
Definition batchValid (b : batchOp) (n : nat) : Prop :=
  match b with
  | BCreate documents => seqLen documents = Some n
  | BUpdate keys updates =>
      seqLen updates = Some n /\ length (default [] keys) = n /\ "" ∉ default [] keys
  end.

Definition batchMethod (b : batchOp) : string :=
  match b with
  | BCreate _ => "POST"
  | BUpdate _ _ => "PATCH"
  end.

(** The request of the batch is built. *)
Definition preparedBatch (c : collection) (ctx : option GoContext) (b : batchOp)
    (cs : contextSettings) (req : Request) : Prop :=
  exists req0,
    connNewRequest (conn c) (batchMethod b) (relPath c "document") = inl req0 /\
    match b with
    | BCreate documents =>
        exists req1, SetBody req0 documents = inl req1 /\
                     applyContextSettings ctx req1 = (cs, req)
    | BUpdate keys updates =>
        exists req1 mergeArray,
          applyContextSettings ctx req0 = (cs, req1) /\
          createMergeArray keys (Revisions cs) = (mergeArray, None) /\
          SetBodyArray req1 updates mergeArray = inl req
    end.

End Operations.


(** * A small implementation of the collaborators

    Used to run the embedding on concrete inputs. *)

(** Modelled from the spec: the error kinds of the error handling design as
    an inductive type (the declarations of package [driver] behind
    [ErrorPkg] are outside the sources at hand): InvalidArgument, a
    structured error response of the server, a generic response error, the
    caller's cancellation and deadline, a transport failure, and an error
    with a stack attached. *)
Inductive sampleError :=
| ErrInvalidArgument (msg : string)
| ErrArango (code errorNum : Z) (msg : string)
| ErrResponse (err : sampleError)
| ErrCanceled
| ErrDeadlineExceeded
| ErrNetwork (msg : string)
| ErrStack (err : sampleError).

(** The error below the attached stacks. *)
Fixpoint sampleCause (err : sampleError) : sampleError :=
  match err with
  | ErrStack err => sampleCause err
  | _ => err
  end.

Definition sampleErrors : ErrorPkg := {|
  error := sampleError;
  WithStack := ErrStack;
  InvalidArgumentError := ErrInvalidArgument;
  ResponseError := ErrResponse;
  newArangoError := ErrArango;
  IsCanceled := fun err =>
    match sampleCause err with
    | ErrCanceled | ErrDeadlineExceeded => true
    | _ => false
    end;
  IsArangoError := fun err =>
    match sampleCause err with
    | ErrArango _ _ _ => true
    | _ => false
    end
|}.

Definition noSettings : contextSettings := {|
  Silent := false; WaitForSync := false; KeepNull := None;
  ReturnOld := Nil; ReturnNew := Nil; Revisions := None
|}.

(** A context: its deadline, the request options attached to it, and the
    timeouts stacked on it by [WithTimeout], latest first. *)
Record sampleContext := {
  sc_deadline : option Z;
  sc_settings : contextSettings;
  sc_timeouts : list Z
}.

Definition sampleContexts : ContextPkg := {|
  GoContext := sampleContext;
  Background := {| sc_deadline := None; sc_settings := noSettings; sc_timeouts := [] |};
  Deadline := sc_deadline;
  WithTimeout := fun ctx d =>
    {| sc_deadline := sc_deadline ctx; sc_settings := sc_settings ctx;
       sc_timeouts := d :: sc_timeouts ctx |}
|}.

Record sampleRequest := {
  rq_method : string;
  rq_path : string;
  rq_body : iface;
  rq_merge : option (list (gmap string string));
  rq_written : bool
}.

(** Modelled from the spec: [applyContextSettings] is declared outside the
    sources at hand.  The options attached to the context are read back as
    they are. *)
Definition sampleApplyContextSettings (ctx : option sampleContext) (req : sampleRequest)
  : contextSettings * sampleRequest :=
  (match ctx with Some ctx => sc_settings ctx | None => noSettings end, req).

(** Modelled from the spec: [okStatus] is declared outside the sources at
    hand.  Wait-for-sync selects the first of the two accepted status
    codes. *)
Definition sampleOkStatus (cs : contextSettings) (syncStatus asyncStatus : Z) : Z :=
  if WaitForSync cs then syncStatus else asyncStatus.

Definition sampleRequests : @RequestPkg sampleContexts sampleErrors :=
  @Build_RequestPkg sampleContexts sampleErrors
    sampleRequest
    rq_written
    (fun req body =>
       inl {| rq_method := rq_method req; rq_path := rq_path req; rq_body := body;
              rq_merge := rq_merge req; rq_written := rq_written req |})
    (fun req body mergeArray =>
       inl {| rq_method := rq_method req; rq_path := rq_path req; rq_body := body;
              rq_merge := mergeArray; rq_written := rq_written req |})
    sampleApplyContextSettings
    sampleOkStatus
    (String.concat "/").

Definition sampleConnection : Type :=
  @Connection sampleContexts sampleErrors sampleRequests.

Definition sampleResponse : Type := @Response sampleErrors.

Definition newSampleRequest (method path : string) : sampleRequest + sampleError :=
  inl {| rq_method := method; rq_path := path; rq_body := Nil;
         rq_merge := None; rq_written := false |}.

Definition markWritten (req : sampleRequest) : sampleRequest :=
  {| rq_method := rq_method req; rq_path := rq_path req; rq_body := rq_body req;
     rq_merge := rq_merge req; rq_written := true |}.

Definition mkSampleConnection
    (mkRequest : string -> string -> sampleRequest + sampleError)
    (do : option sampleContext -> sampleRequest ->
          (sampleResponse + sampleError) * sampleRequest)
    (unmarshal : string -> iface -> option sampleError) : sampleConnection :=
  @Build_Connection sampleContexts sampleErrors sampleRequests mkRequest do unmarshal.

(** An endpoint that cannot be reached: its [Do] fails before anything is
    written. *)
Definition unreachable (msg : string) : sampleConnection :=
  mkSampleConnection newSampleRequest
    (fun _ req => (inr (ErrNetwork msg), req))
    (fun _ _ => None).

(** An endpoint that takes the request and fails with [err]. *)
Definition failingAfterWrite (err : sampleError) : sampleConnection :=
  mkSampleConnection newSampleRequest
    (fun _ req => (inr err, markWritten req))
    (fun _ _ => None).

(** An endpoint that takes the request and answers [resp]. *)
Definition answering (resp : sampleResponse) : sampleConnection :=
  mkSampleConnection newSampleRequest
    (fun _ req => (inl resp, markWritten req))
    (fun _ _ => None).

Definition samplePool (srvs : list sampleConnection) (cur : nat)
  : @clusterConnection sampleContexts sampleErrors sampleRequests :=
  @Build_clusterConnection sampleContexts sampleErrors sampleRequests
    srvs cur defaultTimeout.

Definition sampleGet : sampleRequest :=
  {| rq_method := "GET"; rq_path := "_db/test/_api/document/books/1"; rq_body := Nil;
     rq_merge := None; rq_written := false |}.

Definition sampleMeta (key : string) : DocumentMeta :=
  {| Key := key; ID := "books/" ++ key; Rev := "_W1" |}.

(** The response for one item of a batch. *)
Definition itemResponse (status : Z) (meta : DocumentMeta + sampleError)
    (field : string -> option sampleError) : sampleResponse :=
  @mkResponse sampleErrors status (ErrArango status 1200 "rejected") meta field
    (inr (ErrNetwork "not an array")).

(** The response to a batched request. *)
Definition arrayResponse (status : Z) (items : list sampleResponse) : sampleResponse :=
  @mkResponse sampleErrors status (ErrArango status 0 "rejected")
    (inr (ErrNetwork "not an object")) (fun _ => None) (inl items).

Definition sampleCollection (conn : sampleConnection)
  : @collection sampleContexts sampleErrors sampleRequests :=
  @Build_collection sampleContexts sampleErrors sampleRequests "books"
    (@Build_database sampleContexts sampleErrors sampleRequests "test" conn) conn.

(** A context with the silent option attached. *)
Definition silentContext : sampleContext :=
  {| sc_deadline := None;
     sc_settings := {| Silent := true; WaitForSync := false; KeepNull := None;
                       ReturnOld := Nil; ReturnNew := Nil; Revisions := None |};
     sc_timeouts := [] |}.

(** Settings asking for the old documents, into a slice of one. *)
Definition returnOldSettings : contextSettings :=
  {| Silent := false; WaitForSync := false; KeepNull := None;
     ReturnOld := Slice [""]; ReturnNew := Nil; Revisions := None |}.

(** A database on an endpoint. *)
Definition sampleDatabase (conn : sampleConnection)
  : @database sampleContexts sampleErrors sampleRequests :=
  @Build_database sampleContexts sampleErrors sampleRequests "test" conn.

(** Modelled from the spec: [IsNotFound] is declared outside the sources
    at hand.  Not found is the 404 class of the error taxonomy. *)
Definition sampleIsNotFound (err : sampleError) : bool :=
  match sampleCause err with
  | ErrArango 404 _ _ => true
  | _ => false
  end.

(** A stand-in for the JSON decoding of a [getCollectionResponse]: the
    list is read from the items of the response, each collection named by
    the key of its metadata. *)
Definition sampleBodyCollections (resp : sampleResponse)
  : list CollectionInfo + sampleError :=
  match arrayBody resp with
  | inl items =>
      inl (map (fun item =>
                  {| info_Name := match bodyMeta item with
                                  | inl meta => Key meta
                                  | inr _ => ""
                                  end |}) items)
  | inr err => inr err
  end.

Definition sampleCatalog : @CatalogPkg sampleErrors :=
  @Build_CatalogPkg sampleErrors sampleIsNotFound sampleBodyCollections.

(** A context asking for one expected revision. *)
Definition oneRevisionContext : sampleContext :=
  {| sc_deadline := None;
     sc_settings := {| Silent := false; WaitForSync := false; KeepNull := None;
                       ReturnOld := Nil; ReturnNew := Nil; Revisions := Some ["_W1"] |};
     sc_timeouts := [] |}.

(** The request [newSampleRequest] builds, with a body. *)
Definition sampleRequestOf (method path : string) (body : iface) : sampleRequest :=
  {| rq_method := method; rq_path := path; rq_body := body;
     rq_merge := None; rq_written := false |}.

(** * Properties of the timeout arithmetic *)

Section TimeoutArithmetic.
#[local] Open Scope Z_scope.

(** A quotient that is a whole number is not rounded. *)
Lemma roundHalfEven_exact (k b : Z) : 0 < b -> roundHalfEven (k * b) b = k.
Proof.
  intros Hb. unfold roundHalfEven.
  rewrite Z.div_mul by lia. rewrite Z.mod_mul by lia.
  destruct (Z.ltb_spec (2 * 0) b); [reflexivity | lia].
Qed.

(** The rounded quotient is at most one half away from the exact one. *)
Lemma roundHalfEven_near (a b : Z) :
  0 < b -> - b <= 2 * (b * roundHalfEven a b - a) <= b.
Proof.
  intros Hb. unfold roundHalfEven.
  pose proof (Z.div_mod a b ltac:(lia)) as Hdm.
  pose proof (Z.mod_pos_bound a b Hb) as Hr.
  destruct (Z.ltb_spec (2 * (a mod b)) b); [lia|].
  destruct (Z.ltb_spec b (2 * (a mod b))); [lia|].
  destruct (Z.even (a / b)); lia.
Qed.

(** [attemptTimeout] on a timeout of less than [2 ^ 53] in absolute value,
    given as sign and magnitude. *)
Lemma attemptTimeout_small (T d : Z) (sg : Z) :
  0 < T < 2 ^ 53 -> 1 <= d <= 3 -> (sg = 1 \/ sg = -1) ->
  attemptTimeout (sg * T) d = sg * (T / d).
Proof.
  intros HT Hd Hsg.
  assert (Habs : Z.abs (sg * T) = T) by lia.
  assert (Hsgn : Z.sgn (sg * T) = sg) by lia.
  pose proof (Z.log2_spec T ltac:(lia)) as HL.
  pose proof (Z.log2_nonneg T) as HL0.
  set (L := Z.log2 T) in *.
  assert (HL52 : L <= 52).
  { destruct (Z.le_gt_cases L 52) as [|Hgt]; [assumption|].
    assert (2 ^ 53 <= 2 ^ L) by (apply Z.pow_le_mono_r; lia). lia. }
  set (s := 52 - L).
  assert (Hs : 0 <= s) by lia.
  assert (Hpow : 2 ^ L * 2 ^ s = 2 ^ 52).
  { rewrite <- Z.pow_add_r by lia. f_equal. lia. }
  assert (Hps : 0 < 2 ^ s) by (apply Z.pow_pos_nonneg; lia).
  set (M := T * 2 ^ s).
  assert (HM : 2 ^ 52 <= M < 2 ^ 53).
  { subst M. replace (2 ^ 53) with (2 ^ 52 * 2) by reflexivity.
    replace (Z.succ L) with (L + 1) in HL by lia.
    rewrite Z.pow_add_r in HL by lia. change (2 ^ 1) with 2 in HL. nia. }
  assert (Hof : float64_of_int64 (sg * T) = {| Fnum := sg * M; Fexp := - s |}).
  { unfold float64_of_int64, float64_round.
    destruct (Z.eqb_spec (sg * T) 0); [lia|].
    rewrite Habs, Hsgn. change (Z.log2 1) with 0. rewrite Z.sub_0_r. fold L.
    rewrite (Z.max_r 0 L) by lia. rewrite (Z.max_l 0 (- L)) by lia.
    destruct (Z.leb_spec (1 * 2 ^ L) (T * 2 ^ 0)) as [_ | Hno];
      [| change (2 ^ 0) with 1 in Hno; lia].
    fold s. rewrite (Z.max_r 0 s) by lia. rewrite (Z.max_l 0 (- s)) by lia.
    change (2 ^ 0) with 1. rewrite Z.mul_1_r.
    replace (T * 2 ^ s) with (T * 2 ^ s * 1) by lia.
    rewrite roundHalfEven_exact by lia. f_equal; lia. }
  unfold attemptTimeout. rewrite Hof. unfold float64_quo. cbn [Fnum Fexp].
  assert (HabsM : Z.abs (sg * M) = M) by lia.
  assert (HsgnM : Z.sgn (sg * M) = sg) by lia.
  assert (HlogM : Z.log2 M = 52) by (apply Z.log2_unique; [lia | exact HM]).
  assert (Hquot : forall M' P, 0 <= M' -> 0 < P -> Z.quot (sg * M') P = sg * (M' / P)).
  { intros M' P HM' HP. destruct Hsg as [-> | ->].
    - rewrite !Z.mul_1_l. apply Z.quot_div_nonneg; lia.
    - replace (-1 * M') with (- M') by lia. rewrite Z.quot_opp_l by lia.
      rewrite Z.quot_div_nonneg by lia. lia. }
  assert (Hfin : forall M' s', 0 <= M' -> 0 <= s' -> M' / 2 ^ (s + s') = T / d ->
            int64_of_float64 {| Fnum := sg * M'; Fexp := - s - s' |} = sg * (T / d)).
  { intros M' s' HM' Hs' Hdiv. unfold int64_of_float64. cbn [Fnum Fexp].
    assert (Hq : 0 <= T / d <= T).
    { split; [apply Z.div_pos; lia|]. apply Z.div_le_upper_bound; nia. }
    assert (Ht : (if 0 <=? - s - s' then sg * M' * 2 ^ (- s - s')
                  else Z.quot (sg * M') (2 ^ (- (- s - s')))) = sg * (T / d)).
    { destruct (Z.leb_spec 0 (- s - s')).
      - assert (s = 0) by lia. assert (s' = 0) by lia. subst s'.
        replace (- s - 0) with 0 by lia. change (2 ^ 0) with 1.
        rewrite Z.mul_1_r. rewrite <- Hdiv. replace (s + 0) with 0 by lia.
        change (2 ^ 0) with 1. rewrite Z.div_1_r. reflexivity.
      - replace (- (- s - s')) with (s + s') by lia.
        rewrite Hquot; [| lia | apply Z.pow_pos_nonneg; lia]. rewrite Hdiv. reflexivity. }
    rewrite Ht.
    assert (H53 : (2 ^ 53 < 2 ^ 63)) by reflexivity.
    unfold minInt64, maxInt64.
    destruct (Z.leb_spec (- 2 ^ 63) (sg * (T / d))); [|nia].
    destruct (Z.leb_spec (sg * (T / d)) (2 ^ 63 - 1)); [reflexivity|nia]. }
  assert (Hround : forall l s',
            52 - Z.log2 d = l ->
            (d * 2 ^ l <= M /\ s' = 52 - l \/ M < d * 2 ^ l /\ s' = 53 - l) ->
            0 <= l -> 0 <= s' ->
            float64_round (sg * M) d (- s) =
              {| Fnum := sg * roundHalfEven (M * 2 ^ s') d; Fexp := - s - s' |}).
  { intros l s' Hl Hcase Hl0 Hs'. unfold float64_round.
    destruct (Z.eqb_spec (sg * M) 0); [lia|].
    rewrite HabsM, HsgnM, HlogM, Hl.
    rewrite (Z.max_r 0 l) by lia. rewrite (Z.max_l 0 (- l)) by lia.
    rewrite Z.pow_0_r, Z.mul_1_r.
    destruct (Z.leb_spec (d * 2 ^ l) M) as [Hle | Hgt];
      destruct Hcase as [[Hc ->] | [Hc ->]]; try lia;
      rewrite (Z.max_r 0 _) by lia; rewrite (Z.max_l 0 (- _)) by lia;
      rewrite Z.pow_0_r, Z.mul_1_r; reflexivity. }
  assert (Hd3 : d = 1 \/ d = 2 \/ d = 3) by lia.
  destruct Hd3 as [-> | [-> | ->]].
  - rewrite (Hround 52 0); [| reflexivity | left; lia | lia | lia].
    rewrite Z.pow_0_r. rewrite roundHalfEven_exact by lia.
    apply (Hfin M 0); [lia | lia |].
    rewrite Z.add_0_r, Z.div_1_r. subst M. apply Z.div_mul. lia.
  - rewrite (Hround 51 1); [| reflexivity | left; split; [|reflexivity] | lia | lia].
    2:{ change (2 * 2 ^ 51) with (2 ^ 52). lia. }
    change (2 ^ 1) with 2. rewrite roundHalfEven_exact by lia.
    apply (Hfin M 1); [lia | lia |].
    rewrite Z.pow_add_r by lia. change (2 ^ 1) with 2. subst M.
    rewrite (Z.mul_comm (2 ^ s) 2). rewrite Z.div_mul_cancel_r by lia. reflexivity.
  - assert (Hthird : forall s', 1 <= s' ->
              roundHalfEven (M * 2 ^ s') 3 / 2 ^ (s + s') = T / 3 /\
              0 <= roundHalfEven (M * 2 ^ s') 3).
    { intros s' Hs'.
      pose proof (roundHalfEven_near (M * 2 ^ s') 3 ltac:(lia)) as Hnear.
      set (M' := roundHalfEven (M * 2 ^ s') 3) in *.
      assert (HP : 2 <= 2 ^ (s + s')).
      { change 2 with (2 ^ 1) at 1. apply Z.pow_le_mono_r; lia. }
      assert (HMP : M * 2 ^ s' = T * 2 ^ (s + s')).
      { subst M. rewrite Z.pow_add_r by lia. lia. }
      rewrite HMP in Hnear.
      set (P := 2 ^ (s + s')) in *.
      pose proof (Z.div_mod T 3 ltac:(lia)) as Hdm.
      pose proof (Z.mod_pos_bound T 3 ltac:(lia)) as Hr.
      set (k := T / 3) in *. set (r := T mod 3) in *.
      assert (Hk : 0 <= k) by (subst k; apply Z.div_pos; lia).
      assert (Hlow : k * P <= M') by nia.
      assert (Hup : M' < (k + 1) * P) by nia.
      split; [| nia].
      symmetry. apply (Z.div_unique M' P k (M' - k * P)); [lia | lia]. }
    destruct (Z.le_gt_cases (3 * 2 ^ 51) M) as [Hle | Hgt].
    + rewrite (Hround 51 1); [| reflexivity | left; split; [exact Hle | reflexivity] | lia | lia].
      destruct (Hthird 1 ltac:(lia)) as [H1 H2].
      apply (Hfin _ 1); [exact H2 | lia | exact H1].
    + rewrite (Hround 51 2); [| reflexivity | right; split; [exact Hgt | reflexivity] | lia | lia].
      destruct (Hthird 2 ltac:(lia)) as [H1 H2].
      apply (Hfin _ 2); [exact H2 | lia | exact H1].
Qed.

(** For a timeout of at most [2 ^ 53] ns in absolute value (104 days)
    and the three dividers, the attempt timeout is the integer quotient
    truncated toward zero. *)
Lemma attemptTimeout_exact (T d : Z) :
  Z.abs T <= 2 ^ 53 -> 1 <= d <= 3 -> attemptTimeout T d = Z.quot T d.
Proof.
  intros HT Hd.
  assert (Hd3 : d = 1 \/ d = 2 \/ d = 3) by lia.
  destruct (Z.eq_dec T 0) as [-> | Hnz].
  { destruct Hd3 as [-> | [-> | ->]]; reflexivity. }
  destruct (Z.eq_dec (Z.abs T) (2 ^ 53)) as [Hmax | Hlt].
  { assert (HT' : T = 2 ^ 53 \/ T = - 2 ^ 53) by lia.
    destruct HT' as [-> | ->]; destruct Hd3 as [-> | [-> | ->]]; vm_compute; reflexivity. }
  destruct (Z.lt_trichotomy T 0) as [Hneg | [? | Hpos]]; [| lia |].
  - replace T with (-1 * (- T)) by lia.
    rewrite (attemptTimeout_small (- T) d (-1)) by lia.
    replace (-1 * - T) with (- (- T)) by lia.
    rewrite Z.quot_opp_l by lia. rewrite Z.quot_div_nonneg by lia. lia.
  - replace T with (1 * T) at 1 by lia.
    rewrite (attemptTimeout_small T d 1) by lia.
    rewrite Z.quot_div_nonneg by lia. lia.
Qed.

(** Above [2 ^ 53] the rounding to [float64] shows: one too few, one too
    many; at the largest [int64] the quotient by 1 is [2 ^ 63] and the
    conversion back leaves the range. *)
Lemma attemptTimeout_beyond_float64_precision :
  attemptTimeout (2 ^ 53 + 1) 1 = 2 ^ 53 /\
  attemptTimeout (2 ^ 53 + 3) 1 = 2 ^ 53 + 4 /\
  float64_of_int64 maxInt64 = {| Fnum := 2 ^ 53; Fexp := 10 |} /\
  attemptTimeout maxInt64 1 = minInt64 /\
  attemptTimeout maxInt64 3 = 3074457345618258432.
Proof. vm_compute. repeat split. Qed.

(** The rounding and the division agree with the Standard Library's
    specification of binary64 on timeouts around the powers of two where
    the rounding changes, of either sign, and the three dividers. *)
Lemma attemptTimeout_agrees_with_SpecFloat :
  forallb (fun timeout =>
             forallb (fun divider => agreesWithSpecFloat timeout divider &&
                                     agreesWithSpecFloat (- timeout) divider)
                     [1; 2; 3])
          [0; 1; 2; 3; 4; 5; 7; 10; 100; 60000000000;
           2 ^ 52; 2 ^ 52 + 1; 2 ^ 53 - 1; 2 ^ 53; 2 ^ 53 + 1; 2 ^ 53 + 2; 2 ^ 53 + 3;
           2 ^ 53 + 5; 2 ^ 54 + 1; 2 ^ 54 + 2; 2 ^ 54 + 3; 2 ^ 54 + 6;
           2 ^ 60 + 123456789; 2 ^ 62 + 1; 2 ^ 63 - 1025; 2 ^ 63 - 1024; 2 ^ 63 - 513;
           2 ^ 63 - 512; 2 ^ 63 - 511; 2 ^ 63 - 1; 2 ^ 63;
           123456789012345678; 3 ^ 39; 3 ^ 38 + 1; 5 ^ 27; 7 ^ 22]
  = true.
Proof. vm_compute. reflexivity. Qed.

End TimeoutArithmetic.

(** * Properties of the failover connection *)

Section Failover.
Context {CP : ContextPkg} {EP : ErrorPkg} {RP : RequestPkg}.

(** ** The cursor *)

Lemma getNextServer_spec (c : clusterConnection) :
  length (servers c) <> 0 ->
  exists s,
    servers c !! ((current c + 1) mod length (servers c)) = Some s /\
    getNextServer c =
      Done ({| servers := servers c;
               current := (current c + 1) mod length (servers c);
               cc_defaultTimeout := cc_defaultTimeout c |}, s).
Proof.
  intros Hn. unfold getNextServer, serverAt.
  destruct (Nat.eqb_spec (length (servers c)) 0) as [E|_]; [contradiction|].
  cbn [servers current].
  destruct (servers c !! ((current c + 1) mod length (servers c))) as [s|] eqn:E.
  - exists s. split; reflexivity.
  - apply lookup_ge_None in E.
    pose proof (Nat.mod_upper_bound (current c + 1) (length (servers c)) Hn). lia.
Qed.

Lemma cursor_step (cur j n : nat) :
  ((cur + 1) mod n + j) mod n = (cur + S j) mod n.
Proof.
  rewrite Nat.Div0.add_mod_idemp_l. f_equal. lia.
Qed.

(** Shifting a cursor by two offsets below the pool size gives two
    endpoints. *)
Lemma cursor_offsets_inj (cur n x y : nat) :
  x < n -> y < n -> (cur + x) mod n = (cur + y) mod n -> x = y.
Proof.
  intros Hx Hy E.
  pose proof (Nat.div_mod_eq (cur + x) n) as Ex.
  pose proof (Nat.div_mod_eq (cur + y) n) as Ey.
  rewrite E in Ex.
  set (qx := (cur + x) / n) in *. set (qy := (cur + y) / n) in *.
  set (m := (cur + y) mod n) in *.
  destruct (Nat.lt_trichotomy qx qy) as [H|[H|H]]; [nia | nia | nia].
Qed.

Lemma cursor_offsets_NoDup (cur n : nat) :
  NoDup (map (fun j => (cur + j) mod n) (seq 0 n)).
Proof.
  apply NoDup_fmap_2_strong; [|apply NoDup_seq].
  intros x y Hx Hy. rewrite !elem_of_seq in *.
  apply cursor_offsets_inj; lia.
Qed.

(** A list read through [f] is the table of [g] when every element agrees
    with [g] at its index. *)
Lemma map_by_index {A B} (f : A -> B) (g : nat -> B) (l : list A) :
  (forall j a, l !! j = Some a -> f a = g j) ->
  map f l = map g (seq 0 (length l)).
Proof.
  intros H. apply list_eq. intros i.
  change (map f l) with (f <$> l). change (map g (seq 0 (length l))) with (g <$> seq 0 (length l)).
  rewrite !list_lookup_fmap.
  destruct (l !! i) as [a|] eqn:E; cbn.
  - rewrite (lookup_seq_lt _ _ _ (lookup_lt_Some _ _ _ E)). cbn. f_equal. auto.
  - rewrite (lookup_seq_ge _ _ _ (proj1 (lookup_ge_None _ _) E)). reflexivity.
Qed.

(** ** Construction *)

(** [NewConnection] refuses an empty pool with InvalidArgument; for any
    other pool it returns a connection on that pool with the cursor on its
    first endpoint, hence in range, and a timeout that is not zero unless
    the default itself is. *)
Lemma NewConnection_spec (config : ConnectionConfig) (srvs : list Connection) :
  (srvs = [] ->
   NewConnection config srvs =
     (None, Some (WithStack (InvalidArgumentError "Must provide at least 1 server")))) /\
  (srvs <> [] ->
   exists c, NewConnection config srvs = (Some c, None) /\
             servers c = srvs /\ current c = 0 /\ current c < length (servers c) /\
             cc_defaultTimeout c =
               (if (DefaultTimeout config =? 0)%Z then defaultTimeout
                else DefaultTimeout config)).
Proof.
  split.
  - intros ->. reflexivity.
  - intros Hne. unfold NewConnection. destruct srvs as [|s srvs]; [contradiction|].
    cbn. eexists. split; [reflexivity|]. cbn.
    repeat split; [lia|]. destruct (DefaultTimeout config =? 0)%Z; reflexivity.
Qed.

(** ** The loop of [Do] *)

Lemma DoLoop_spec (fuel : nat) :
  forall ctx timeout divider c req n s made,
    servers c !! current c = Some s ->
    1 <= n <= length (servers c) ->
    length (servers c) < fuel + n ->
    exists r earlier last,
      DoLoop fuel ctx timeout divider c req n s made = Done r /\
      dr_attempts r = made ++ earlier ++ [last] /\
      runOf c (WithTimeout ctx (attemptTimeout timeout divider))
        (attemptTimeout timeout divider) req (length (servers c) - n) r earlier last.
Proof.
  induction fuel as [|fuel IH]; intros ctx timeout divider c req n s made Hs Hn Hfuel.
  { lia. }
  pose proof (lookup_lt_Some _ _ _ Hs) as Hcur.
  cbn [DoLoop].
  destruct (connDo s (Some (WithTimeout ctx (attemptTimeout timeout divider))) req)
    as [res req'] eqn:Hdo.
  set (a := {| at_server := current c; at_timeout := attemptTimeout timeout divider;
               at_request := req; at_result := res; at_left := req' |}).
  assert (Hfirst : at_server a = (current c + 0) mod length (servers c) /\
                   at_timeout a = attemptTimeout timeout divider /\
                   answeredBy c (WithTimeout ctx (attemptTimeout timeout divider)) a).
  { cbn. rewrite Nat.add_0_r, Nat.mod_small by lia.
    repeat split. exists s. cbn. auto. }
  assert (Hstop : forall resp err,
            retryable a = false \/ length (servers c) < n + 1 ->
            (resp, err) = answer a ->
            exists r earlier last,
              Done {| dr_resp := resp; dr_err := err; dr_conn := c;
                      dr_req := req'; dr_attempts := made ++ [a] |} = Done r /\
              dr_attempts r = made ++ earlier ++ [last] /\
              runOf c (WithTimeout ctx (attemptTimeout timeout divider))
                (attemptTimeout timeout divider) req (length (servers c) - n) r earlier last).
  { intros resp err Hlast Hans. eexists _, [], a. cbn [app length].
    split; [reflexivity|]. split; [reflexivity|]. unfold runOf. cbn [app length].
    split; [reflexivity|]. split; [lia|].
    split.
    { intros [|j] b Hb; [|destruct j; discriminate]. injection Hb as <-. exact Hfirst. }
    split.
    { split.
      - intros b Hb. injection Hb as <-. reflexivity.
      - intros j b b' _ Hb'. destruct j; discriminate. }
    split; [constructor|]. split; [|split; [reflexivity | split; [reflexivity | exact Hans]]].
    intros Hr. destruct Hlast as [Hlast|Hlast]; [congruence | lia]. }
  destruct res as [resp|err].
  { apply Hstop; [left|]; reflexivity. }
  destruct (IsCanceled err) eqn:Hcan.
  { apply Hstop; [left|]; unfold retryable, answer; cbn; rewrite ?Hcan; reflexivity. }
  destruct (Written req') eqn:Hwr.
  { destruct (IsArangoError err) eqn:Har;
      (apply Hstop; [left|]; unfold retryable, answer, at_written; cbn;
       rewrite ?Hcan, ?Hwr, ?Har; reflexivity). }
  destruct (Nat.ltb_spec (length (servers c)) (n + 1)) as [Hlt|Hge].
  { apply Hstop; [right; exact Hlt|].
    unfold answer, at_written; cbn. rewrite ?Hcan, ?Hwr. reflexivity. }
  destruct (getNextServer_spec c) as (s' & Hs' & ->); [lia|].
  set (c' := {| servers := servers c;
                current := (current c + 1) mod length (servers c);
                cc_defaultTimeout := cc_defaultTimeout c |}).
  destruct (IH ctx timeout divider c' req' (n + 1) s' (made ++ [a]))
    as (r & earlier & last & Hrun & Hatt &
        Hsrv & Hlen & Hall & [Hreq Hchain] & Hretry & Hfull & Hfin & Hleft & Hans);
    [exact Hs' | cbn; lia | cbn; lia |].
  subst c'. cbn [servers current] in *.
  exists r, (a :: earlier), last.
  split; [exact Hrun|].
  split; [rewrite Hatt, <- app_assoc; reflexivity|].
  split; [exact Hsrv|].
  split; [cbn; lia|].
  split.
  { intros [|j] b Hb; cbn in Hb.
    - injection Hb as <-. exact Hfirst.
    - apply Hall in Hb. destruct Hb as (Hb1 & Hb2 & sx & H1 & H2).
      split; [rewrite Hb1; apply cursor_step|]. split; [exact Hb2|].
      exists sx. auto. }
  split.
  { split.
    - intros b Hb. injection Hb as <-. reflexivity.
    - intros [|j] b b' Hb Hb'; cbn in Hb, Hb'.
      + injection Hb as <-. apply (Hreq b' Hb').
      + apply (Hchain j b b' Hb Hb'). }
  split.
  { constructor; [|exact Hretry].
    unfold retryable, at_written; cbn. rewrite ?Hcan, ?Hwr. reflexivity. }
  split; [|split; [exact Hfin | split; [exact Hleft | exact Hans]]].
  intros Hr. cbn. rewrite (Hfull Hr). lia.
Qed.

(** [Do] on a pool whose cursor is in range: it returns, and the attempts
    it made are laid out as [runOf] says. *)
Lemma Do_spec (now : Z) (c : clusterConnection) (ctx : option GoContext) (req : Request) :
  current c < length (servers c) ->
  exists r earlier last,
    Do now c ctx req = Done r /\
    dr_attempts r = earlier ++ [last] /\
    runOf c (serverContext now c ctx)
      (attemptTimeout (overallTimeout now c ctx) (timeoutDivider (length (servers c))))
      req (length (servers c) - 1) r earlier last.
Proof.
  intros Hcur.
  destruct (lookup_lt_is_Some_2 (servers c) (current c) Hcur) as [s Hs].
  assert (Hdo : Do now c ctx req =
                DoLoop (length (servers c)) (callContext ctx) (overallTimeout now c ctx)
                  (timeoutDivider (length (servers c))) c req 1 s []).
  { unfold Do, getCurrentServer, serverAt. rewrite Hs. reflexivity. }
  rewrite Hdo. clear Hdo.
  destruct (DoLoop_spec (length (servers c)) (callContext ctx) (overallTimeout now c ctx)
              (timeoutDivider (length (servers c))) c req 1 s [] Hs)
    as (r & earlier & last & Hrun & Hatt & Hrest); [lia | lia |].
  exists r, earlier, last. auto.
Qed.

(** [Do] never runs out of the iterations its model grants it, and panics
    exactly when the cursor is out of range. *)
Lemma Do_terminates (now : Z) (c : clusterConnection) (ctx : option GoContext) (req : Request) :
  (current c < length (servers c) -> exists r, Do now c ctx req = Done r) /\
  (length (servers c) <= current c -> Do now c ctx req = Panicked).
Proof.
  split.
  - intros Hcur. destruct (Do_spec now c ctx req Hcur) as (r & _ & _ & Hrun & _). eauto.
  - intros Hcur. unfold Do, getCurrentServer, serverAt.
    rewrite (lookup_ge_None_2 _ _ Hcur). reflexivity.
Qed.

Lemma Do_Done_cursor (now : Z) (c : clusterConnection) (ctx : option GoContext)
    (req : Request) (r : DoReturn) :
  Do now c ctx req = Done r -> current c < length (servers c).
Proof.
  intros Hrun. destruct (Nat.lt_ge_cases (current c) (length (servers c))) as [H|H]; [exact H|].
  apply (proj2 (Do_terminates now c ctx req)) in H. congruence.
Qed.

(** A returned call of [Do], read back as [Do_spec] lays it out. *)
Lemma Do_Done_spec (now : Z) (c : clusterConnection) (ctx : option GoContext)
    (req : Request) (r : DoReturn) :
  Do now c ctx req = Done r ->
  exists earlier last,
    dr_attempts r = earlier ++ [last] /\
    runOf c (serverContext now c ctx)
      (attemptTimeout (overallTimeout now c ctx) (timeoutDivider (length (servers c))))
      req (length (servers c) - 1) r earlier last.
Proof.
  intros Hrun.
  destruct (Do_spec now c ctx req (Do_Done_cursor now c ctx req r Hrun))
    as (r' & earlier & last & Hrun' & Hrest).
  rewrite Hrun in Hrun'. injection Hrun' as <-. eauto.
Qed.

(** [Do] leaves the pool as it was and the cursor in range. *)
Lemma Do_keeps_cursor_in_range (now : Z) (c : clusterConnection) (ctx : option GoContext)
    (req : Request) (r : DoReturn) :
  Do now c ctx req = Done r ->
  servers (dr_conn r) = servers c /\ current (dr_conn r) < length (servers (dr_conn r)).
Proof.
  intros Hrun.
  pose proof (Do_Done_cursor now c ctx req r Hrun) as Hcur.
  destruct (Do_Done_spec now c ctx req r Hrun)
    as (earlier & last & Hatt & Hsrv & _ & Hall & _ & _ & _ & Hfin & _).
  split; [exact Hsrv|]. rewrite Hsrv, Hfin.
  destruct (Hall (length earlier) last) as (-> & _);
    [apply list_lookup_middle; reflexivity|].
  apply Nat.mod_upper_bound. lia.
Qed.

(** The first iteration of [Do], when it is the last: the endpoint under
    the cursor answers [res] and the loop returns on it. *)
Lemma Do_first_attempt (now : Z) (c : clusterConnection) (ctx : option GoContext)
    (req : Request) (s : Connection) (res : Response + error) (rq' : Request) :
  servers c !! current c = Some s ->
  connDo s (Some (serverContext now c ctx)) req = (res, rq') ->
  let a := {| at_server := current c;
              at_timeout := attemptTimeout (overallTimeout now c ctx)
                              (timeoutDivider (length (servers c)));
              at_request := req; at_result := res; at_left := rq' |} in
  retryable a = false ->
  Do now c ctx req =
    Done {| dr_resp := fst (answer a); dr_err := snd (answer a);
            dr_conn := c; dr_req := rq'; dr_attempts := [a] |}.
Proof.
  intros Hs Hdo a Hstop.
  pose proof (lookup_lt_Some _ _ _ Hs) as Hcur.
  unfold Do, getCurrentServer, serverAt. rewrite Hs.
  fold (callContext ctx). fold (overallTimeout now c ctx).
  set (fuel := length (servers c)) at 1.
  replace fuel with (S (fuel - 1)) by (subst fuel; lia).
  cbn [DoLoop]. change (WithTimeout _ _) with (serverContext now c ctx).
  rewrite Hdo. fold a.
  unfold retryable, answer, at_written in *. cbn [at_result at_left a] in *.
  destruct res as [resp|err]; [reflexivity|].
  destruct (IsCanceled err); [reflexivity|].
  destruct (Written rq'); [|discriminate].
  destruct (IsArangoError err); reflexivity.
Qed.

(** ** The claims on [Do] *)

(** On a pool whose endpoints all fail an unwritten request before writing
    it, and not by cancellation, every attempt of a run gets an unwritten
    request and fails over. *)
Lemma all_attempts_retryable (c : clusterConnection) (sctx : GoContext) (req : Request)
    (l : list attempt) :
  Written req = false ->
  (forall s rq, s ∈ servers c -> Written rq = false ->
     exists err rq',
       connDo s (Some sctx) rq = (inr err, rq') /\
       IsCanceled err = false /\ Written rq' = false) ->
  handsOn req l ->
  (forall j a, l !! j = Some a -> answeredBy c sctx a) ->
  forall j a, l !! j = Some a ->
    Written (at_request a) = false /\ retryable a = true /\
    exists err, at_result a = inr err /\ IsCanceled err = false.
Proof.
  intros Hreq Hfail [Hfirst Hchain] Hby.
  assert (Hstep : forall j a, l !! j = Some a -> Written (at_request a) = false ->
            retryable a = true /\ Written (at_left a) = false /\
            exists err, at_result a = inr err /\ IsCanceled err = false).
  { intros j a Ha Hunw. destruct (Hby j a Ha) as (s & Hs & Hdo).
    destruct (Hfail s (at_request a) (list_elem_of_lookup_2 _ _ _ Hs) Hunw)
      as (err & rq' & Hdo' & Hcan & Hunw').
    rewrite Hdo in Hdo'. injection Hdo' as Hres Hleft.
    unfold retryable, at_written. rewrite Hres, Hleft, Hcan, Hunw'. eauto. }
  induction j as [|j IHj]; intros a Ha.
  - assert (Hunw : Written (at_request a) = false) by (rewrite (Hfirst a Ha); exact Hreq).
    destruct (Hstep 0 a Ha Hunw) as (H1 & _ & H2). auto.
  - destruct (lookup_lt_is_Some_2 l j) as [b Hb];
      [apply lookup_lt_Some in Ha; lia|].
    destruct (IHj b Hb) as (Hb1 & _).
    destruct (Hstep j b Hb Hb1) as (_ & Hb2 & _).
    assert (Hunw : Written (at_request a) = false)
      by (rewrite (Hchain j b a Hb Ha); exact Hb2).
    destruct (Hstep (S j) a Ha Hunw) as (H1 & _ & H2). auto.
Qed.

(** C1 (amended).  On a pool of N endpoints that all fail the request with
    an error that is not the caller's cancellation and leaves the request
    unwritten, [Do] tries the N endpoints in pool order from the cursor,
    wrapping modulo N, each endpoint once; it moves the cursor to the next
    endpoint after each failure but the last one, so the cursor ends on the
    endpoint tried last, N-1 steps from where it started; and it returns
    the error of the last attempt (with its stack). *)
Theorem Do_fails_over_every_endpoint
    (now : Z) (c : clusterConnection) (ctx : option GoContext) (req : Request) :
  current c < length (servers c) ->
  Written req = false ->
  (forall s rq, s ∈ servers c -> Written rq = false ->
     exists err rq',
       connDo s (Some (serverContext now c ctx)) rq = (inr err, rq') /\
       IsCanceled err = false /\ Written rq' = false) ->
  exists r earlier last err,
    Do now c ctx req = Done r /\
    map at_server (dr_attempts r) =
      map (fun j => (current c + j) mod length (servers c)) (seq 0 (length (servers c))) /\
    NoDup (map at_server (dr_attempts r)) /\
    Forall (fun a => retryable a = true) (dr_attempts r) /\
    servers (dr_conn r) = servers c /\
    current (dr_conn r) = (current c + (length (servers c) - 1)) mod length (servers c) /\
    dr_attempts r = earlier ++ [last] /\
    at_result last = inr err /\
    dr_resp r = None /\
    dr_err r = Some (WithStack err).
Proof.
  intros Hcur Hreq Hfail.
  destruct (Do_spec now c ctx req Hcur)
    as (r & earlier & last & Hrun & Hatt &
        Hsrv & Hlen & Hall & Hhands & _ & Hfull & Hfin & _ & Hans).
  pose proof (all_attempts_retryable c (serverContext now c ctx) req (earlier ++ [last])
                Hreq Hfail Hhands (fun j a Ha => proj2 (proj2 (Hall j a Ha)))) as Hretry.
  assert (Hlast : (earlier ++ [last]) !! length earlier = Some last)
    by apply list_lookup_middle, eq_refl.
  destruct (Hretry _ _ Hlast) as (_ & Hr & err & Hres & Hcan).
  specialize (Hfull Hr).
  assert (Hcount : length (dr_attempts r) = length (servers c)).
  { rewrite Hatt, length_app. cbn. lia. }
  assert (Htable : map at_server (dr_attempts r) =
            map (fun j => (current c + j) mod length (servers c))
                (seq 0 (length (servers c)))).
  { pose proof (map_by_index at_server
                  (fun j => (current c + j) mod length (servers c)) (dr_attempts r)) as Hmap.
    rewrite Hcount in Hmap. apply Hmap. intros j a Ha.
    rewrite Hatt in Ha. apply Hall in Ha. exact (proj1 Ha). }
  exists r, earlier, last, err.
  split; [exact Hrun|]. split; [exact Htable|].
  split; [rewrite Htable; apply cursor_offsets_NoDup|].
  split.
  { rewrite Hatt. apply Forall_lookup_2. intros j a Ha. apply (Hretry j a Ha). }
  split; [exact Hsrv|].
  split.
  { rewrite Hfin, (proj1 (Hall _ _ Hlast)), Hfull. reflexivity. }
  split; [exact Hatt|]. split; [exact Hres|].
  unfold retryable in Hr. unfold answer in Hans. rewrite Hres in Hr, Hans.
  rewrite Hcan in Hr, Hans. cbn in Hr.
  destruct (at_written last); [discriminate|].
  injection Hans as -> ->. split; reflexivity.
Qed.


(** C3 (amended).  When the endpoint under the cursor fails the request
    after it was written, with an error that is not the caller's
    cancellation, [Do] makes that one attempt, leaves the cursor where it
    was and returns the error: an Arango error as it is, any other error
    wrapped in a [ResponseError] (both with a stack).  In any call, an
    attempt that fails in this way is the last one. *)
Theorem Do_written_failure_is_final
    (now : Z) (c : clusterConnection) (ctx : option GoContext) (req : Request) :
  (forall s err rq',
     servers c !! current c = Some s ->
     connDo s (Some (serverContext now c ctx)) req = (inr err, rq') ->
     Written rq' = true ->
     IsCanceled err = false ->
     Do now c ctx req =
       Done {| dr_resp := None;
               dr_err := Some (WithStack (if IsArangoError err then err
                                          else ResponseError err));
               dr_conn := c;
               dr_req := rq';
               dr_attempts :=
                 [{| at_server := current c;
                     at_timeout := attemptTimeout (overallTimeout now c ctx)
                                     (timeoutDivider (length (servers c)));
                     at_request := req;
                     at_result := inr err;
                     at_left := rq' |}] |}) /\
  (forall r a err,
     Do now c ctx req = Done r ->
     a ∈ dr_attempts r ->
     at_result a = inr err ->
     at_written a = true ->
     IsCanceled err = false ->
     exists earlier,
       dr_attempts r = earlier ++ [a] /\
       current (dr_conn r) = at_server a /\
       dr_resp r = None /\
       dr_err r = Some (WithStack (if IsArangoError err then err else ResponseError err))).
Proof.
  split.
  - intros s err rq' Hs Hdo Hwr Hcan.
    rewrite (Do_first_attempt now c ctx req s (inr err) rq' Hs Hdo).
    + unfold answer, at_written. cbn. rewrite Hcan, Hwr.
      destruct (IsArangoError err); reflexivity.
    + unfold retryable, at_written. cbn. rewrite Hcan, Hwr. reflexivity.
  - intros r a err Hrun Ha Hres Hwr Hcan.
    destruct (Do_Done_spec now c ctx req r Hrun)
      as (earlier & last & Hatt & _ & _ & _ & _ & Hretry & _ & Hfin & _ & Hans).
    rewrite Hatt in Ha. apply elem_of_app in Ha. destruct Ha as [Ha|Ha].
    { rewrite Forall_forall in Hretry. apply Hretry in Ha.
      unfold retryable in Ha. rewrite Hres, Hwr, andb_false_r in Ha. discriminate. }
    apply list_elem_of_singleton in Ha. subst last.
    exists earlier. split; [exact Hatt|]. split; [exact Hfin|].
    unfold answer in Hans. rewrite Hres, Hcan, Hwr in Hans.
    destruct (IsArangoError err); injection Hans as -> ->; split; reflexivity.
Qed.

(** C4.  When the endpoint under the cursor fails the request with an error
    classified as the caller's cancellation, [Do] returns that error (with
    its stack) after this one attempt and leaves the cursor where it was.
    In any call, an attempt that ends in such an error is the last one:
    no other endpoint is tried after it and the cursor stays on it. *)
Theorem Do_cancellation_is_final
    (now : Z) (c : clusterConnection) (ctx : option GoContext) (req : Request) :
  (forall s err rq',
     servers c !! current c = Some s ->
     connDo s (Some (serverContext now c ctx)) req = (inr err, rq') ->
     IsCanceled err = true ->
     Do now c ctx req =
       Done {| dr_resp := None;
               dr_err := Some (WithStack err);
               dr_conn := c;
               dr_req := rq';
               dr_attempts :=
                 [{| at_server := current c;
                     at_timeout := attemptTimeout (overallTimeout now c ctx)
                                     (timeoutDivider (length (servers c)));
                     at_request := req;
                     at_result := inr err;
                     at_left := rq' |}] |}) /\
  (forall r a err,
     Do now c ctx req = Done r ->
     a ∈ dr_attempts r ->
     at_result a = inr err ->
     IsCanceled err = true ->
     exists earlier,
       dr_attempts r = earlier ++ [a] /\
       current (dr_conn r) = at_server a /\
       dr_resp r = None /\
       dr_err r = Some (WithStack err)).
Proof.
  split.
  - intros s err rq' Hs Hdo Hcan.
    rewrite (Do_first_attempt now c ctx req s (inr err) rq' Hs Hdo).
    + unfold answer. cbn. rewrite Hcan. reflexivity.
    + unfold retryable. cbn. rewrite Hcan. reflexivity.
  - intros r a err Hrun Ha Hres Hcan.
    destruct (Do_Done_spec now c ctx req r Hrun)
      as (earlier & last & Hatt & _ & _ & _ & _ & Hretry & _ & Hfin & _ & Hans).
    rewrite Hatt in Ha. apply elem_of_app in Ha. destruct Ha as [Ha|Ha].
    { rewrite Forall_forall in Hretry. apply Hretry in Ha.
      unfold retryable in Ha. rewrite Hres, Hcan in Ha. discriminate. }
    apply list_elem_of_singleton in Ha. subst last.
    exists earlier. split; [exact Hatt|]. split; [exact Hfin|].
    unfold answer in Hans. rewrite Hres, Hcan in Hans.
    injection Hans as -> ->. split; reflexivity.
Qed.

(** C9.  When the endpoint under the cursor answers the request, [Do]
    returns its response after this one attempt and the cursor has not
    moved.  In any call that returns no error, the response is the answer
    to the last attempt, every earlier attempt failed over, and the cursor
    is left on the endpoint that answered. *)
Theorem Do_success_keeps_cursor
    (now : Z) (c : clusterConnection) (ctx : option GoContext) (req : Request) :
  (forall s resp rq',
     servers c !! current c = Some s ->
     connDo s (Some (serverContext now c ctx)) req = (inl resp, rq') ->
     Do now c ctx req =
       Done {| dr_resp := Some resp;
               dr_err := None;
               dr_conn := c;
               dr_req := rq';
               dr_attempts :=
                 [{| at_server := current c;
                     at_timeout := attemptTimeout (overallTimeout now c ctx)
                                     (timeoutDivider (length (servers c)));
                     at_request := req;
                     at_result := inl resp;
                     at_left := rq' |}] |}) /\
  (forall r,
     Do now c ctx req = Done r ->
     dr_err r = None ->
     exists earlier last resp,
       dr_attempts r = earlier ++ [last] /\
       Forall (fun a => retryable a = true) earlier /\
       at_result last = inl resp /\
       answeredBy c (serverContext now c ctx) last /\
       dr_resp r = Some resp /\
       servers (dr_conn r) = servers c /\
       current (dr_conn r) = at_server last).
Proof.
  split.
  - intros s resp rq' Hs Hdo.
    rewrite (Do_first_attempt now c ctx req s (inl resp) rq' Hs Hdo); reflexivity.
  - intros r Hrun Hok.
    destruct (Do_Done_spec now c ctx req r Hrun)
      as (earlier & last & Hatt & Hsrv & _ & Hall & _ & Hretry & _ & Hfin & _ & Hans).
    assert (Hlast : (earlier ++ [last]) !! length earlier = Some last)
      by apply list_lookup_middle, eq_refl.
    destruct (Hall _ _ Hlast) as (_ & _ & Hby).
    unfold answer in Hans. rewrite Hok in Hans.
    destruct (at_result last) as [resp|err] eqn:Hres.
    + injection Hans as ->. exists earlier, last, resp. auto 10.
    + destruct (IsCanceled err); [discriminate|].
      destruct (at_written last); [|discriminate].
      destruct (IsArangoError err); discriminate.
Qed.

(** C10.  Whatever the cursor, [NewRequest] and [Unmarshal] of the failover
    connection are those of the first endpoint of the pool ([Unmarshal]
    attaching a stack to the error); [Do] starts at the endpoint under the
    cursor. *)
Theorem NewRequest_Unmarshal_use_first_server
    (s0 : Connection) (rest : list Connection) (cur : nat) (dt : Z) :
  let c := {| servers := s0 :: rest; current := cur; cc_defaultTimeout := dt |} in
  (forall method path,
     NewRequest c method path = Done (connNewRequest s0 method path)) /\
  (forall data result,
     Unmarshal c data result =
       Done (match connUnmarshal s0 data result with
             | Some err => Some (WithStack err)
             | None => None
             end)) /\
  (forall now ctx req r,
     Do now c ctx req = Done r ->
     exists a later,
       dr_attempts r = a :: later /\
       at_server a = cur /\
       at_request a = req /\
       answeredBy c (serverContext now c ctx) a).
Proof.
  intros c. split; [|split].
  - reflexivity.
  - intros data result. unfold Unmarshal. cbn.
    destruct (connUnmarshal s0 data result); reflexivity.
  - intros now ctx req r Hrun.
    pose proof (Do_Done_cursor now c ctx req r Hrun) as Hcur.
    destruct (Do_Done_spec now c ctx req r Hrun)
      as (earlier & last & Hatt & _ & _ & Hall & [Hfirst _] & _).
    destruct (earlier ++ [last]) as [|a later] eqn:E.
    { destruct earlier; discriminate. }
    destruct (Hall 0 a eq_refl) as (Hidx & _ & Hby).
    exists a, later.
    split; [exact Hatt|]. split.
    { rewrite Hidx, Nat.add_0_r. apply Nat.mod_small. exact Hcur. }
    split; [apply Hfirst; reflexivity | exact Hby].
Qed.

End Failover.

(** * Properties of the document operations *)

Section Documents.
Context {CP : ContextPkg} {EP : ErrorPkg} {RP : RequestPkg}.

(** ** Input validation *)

Lemma validateKey_blank : validateKey "" = Some (WithStack (InvalidArgumentError "key is empty")).
Proof. reflexivity. Qed.

Lemma validateKey_nonblank (key : string) : key <> "" -> validateKey key = None.
Proof. intros H. unfold validateKey. destruct (decide (key = "")); [contradiction | reflexivity]. Qed.

Lemma validateKeys_blank {R} (keys : list string) (f : error -> R) (log : list event) :
  "" ∈ keys ->
  validateKeys keys f log = (Return (f (WithStack (InvalidArgumentError "key is empty"))), log).
Proof.
  induction keys as [|key keys IH]; intros Hin.
  - apply elem_of_nil in Hin. contradiction.
  - cbn [validateKeys]. unfold bind, failWith, validateKey.
    destruct (decide (key = "")) as [->|Hne]; [reflexivity|].
    cbn. apply IH. apply elem_of_cons in Hin. destruct Hin as [Hin|Hin]; [congruence | exact Hin].
Qed.

Lemma validateKeys_nonblank {R} (keys : list string) (f : error -> R) (log : list event) :
  "" ∉ keys -> validateKeys keys f log = (Next tt, log).
Proof.
  induction keys as [|key keys IH]; intros Hin; [reflexivity|].
  cbn [validateKeys]. unfold bind, failWith.
  rewrite validateKey_nonblank.
  - cbn. apply IH. intros H. apply Hin. right. exact H.
  - intros ->. apply Hin. left.
Qed.

(** C7.  Each operation, given a blank key, a nil document or update, or
    for the batched update keys that do not number the updates (or hold a
    blank key), returns an InvalidArgument error with zero-value results
    and has asked nothing of its collaborators: no request was built or
    sent. *)
Theorem invalid_input_fails_before_any_request (c : collection) (ctx : option GoContext) :
  (forall result, rejectsSingle (call (ReadDocument c ctx "" result))) /\
  rejectsSingle (call (CreateDocument c ctx Nil)) /\
  rejectsBatch (call (CreateDocuments c ctx Nil)) /\
  (forall update, rejectsSingle (call (UpdateDocument c ctx "" update))) /\
  (forall key, rejectsSingle (call (UpdateDocument c ctx key Nil))) /\
  (forall keys, rejectsBatch (call (UpdateDocuments c ctx keys Nil))) /\
  (forall keys updates n,
     seqLen updates = Some n -> length (default [] keys) <> n ->
     rejectsBatch (call (UpdateDocuments c ctx keys updates))) /\
  (forall keys updates,
     "" ∈ default [] keys ->
     rejectsBatch (call (UpdateDocuments c ctx keys updates))) /\
  (forall document, rejectsSingle (call (ReplaceDocument c ctx "" document))) /\
  (forall key, rejectsSingle (call (ReplaceDocument c ctx key Nil))) /\
  rejectsSingle (call (RemoveDocument c ctx "")).
Proof.
  assert (Hkey : isInvalidArgument (WithStack (WithStack (InvalidArgumentError "key is empty"))))
    by (do 2 constructor; constructor).
  repeat apply conj.
  - intros result. eexists. split; [reflexivity | exact Hkey].
  - eexists. split; [reflexivity | do 2 constructor].
  - eexists. split; [reflexivity | do 2 constructor].
  - intros update. eexists. split; [reflexivity | exact Hkey].
  - intros key. unfold rejectsSingle, call, UpdateDocument, bind, failWith, validateKey.
    destruct (decide (key = "")).
    + eexists. split; [reflexivity | exact Hkey].
    + eexists. split; [reflexivity | do 2 constructor].
  - intros keys. eexists. split; [reflexivity | do 2 constructor].
  - intros keys updates n Hn Hlen.
    unfold rejectsBatch, call, UpdateDocuments, bind. rewrite Hn. cbn.
    destruct (Nat.eqb_spec (length (default [] keys)) n) as [E|_]; [contradiction|].
    eexists. split; [reflexivity | do 2 constructor].
  - intros keys updates Hin.
    unfold rejectsBatch, call, UpdateDocuments, bind.
    destruct (seqLen updates) as [n|]; cbn.
    + destruct (length (default [] keys) =? n); cbn.
      * rewrite (validateKeys_blank _ _ _ Hin).
        eexists. split; [reflexivity | exact Hkey].
      * eexists. split; [reflexivity | do 2 constructor].
    + eexists. split; [reflexivity | do 2 constructor].
  - intros document. eexists. split; [reflexivity | exact Hkey].
  - intros key. unfold rejectsSingle, call, ReplaceDocument, bind, failWith, validateKey.
    destruct (decide (key = "")).
    + eexists. split; [reflexivity | exact Hkey].
    + eexists. split; [reflexivity | do 2 constructor].
  - eexists. split; [reflexivity | exact Hkey].
Qed.

(** ** The silent option *)

(** Runs the statements of an operation on the answers its collaborators
    are known to give. *)
Ltac run_op :=
  unfold bind, when, orReturn, failWith, newRequest, doRequest, emit, ret, return_,
    CheckStatus;
  repeat (cbn;
          first [ match goal with H : _ = _ |- _ => rewrite H end
                | rewrite Z.eqb_refl ]).

(** C8.  A mutation with the silent option set, whose request is built,
    sent and answered with the accepted status, returns zero-value results
    (singular: [DocumentMeta{}] and no error; batched: nil slices and no
    error); of its collaborators it has asked two things, to build the
    request and to send it: the body of the response was never parsed. *)
Theorem silent_mutation_skips_the_body (c : collection) (ctx : option GoContext) :
  (forall document req0 req1 cs req2 resp,
     isNil document = false ->
     connNewRequest (conn c) "POST" (relPath c "document") = inl req0 ->
     SetBody req0 document = inl req1 ->
     applyContextSettings ctx req1 = (cs, req2) ->
     fst (connDo (conn c) ctx req2) = inl resp ->
     StatusCode resp = okStatus cs 201 202 ->
     Silent cs = true ->
     call (CreateDocument c ctx document) =
       (Done (zeroMeta, None), [EvNewRequest "POST" (relPath c "document"); EvDo req2])) /\
  (forall key update req0 req1 cs req2 resp,
     key <> "" -> isNil update = false ->
     connNewRequest (conn c) "PATCH" (path_Join [relPath c "document"; key]) = inl req0 ->
     SetBody req0 update = inl req1 ->
     applyContextSettings ctx req1 = (cs, req2) ->
     fst (connDo (conn c) ctx req2) = inl resp ->
     StatusCode resp = okStatus cs 201 202 ->
     Silent cs = true ->
     call (UpdateDocument c ctx key update) =
       (Done (zeroMeta, None),
        [EvNewRequest "PATCH" (path_Join [relPath c "document"; key]); EvDo req2])) /\
  (forall key document req0 req1 cs req2 resp,
     key <> "" -> isNil document = false ->
     connNewRequest (conn c) "PUT" (path_Join [relPath c "document"; key]) = inl req0 ->
     SetBody req0 document = inl req1 ->
     applyContextSettings ctx req1 = (cs, req2) ->
     fst (connDo (conn c) ctx req2) = inl resp ->
     StatusCode resp = okStatus cs 201 202 ->
     Silent cs = true ->
     call (ReplaceDocument c ctx key document) =
       (Done (zeroMeta, None),
        [EvNewRequest "PUT" (path_Join [relPath c "document"; key]); EvDo req2])) /\
  (forall key req0 cs req2 resp,
     key <> "" ->
     connNewRequest (conn c) "DELETE" (path_Join [relPath c "document"; key]) = inl req0 ->
     applyContextSettings ctx req0 = (cs, req2) ->
     fst (connDo (conn c) ctx req2) = inl resp ->
     StatusCode resp = okStatus cs 200 202 ->
     Silent cs = true ->
     call (RemoveDocument c ctx key) =
       (Done (zeroMeta, None),
        [EvNewRequest "DELETE" (path_Join [relPath c "document"; key]); EvDo req2])) /\
  (forall documents n req0 req1 cs req2 resp,
     seqLen documents = Some n ->
     connNewRequest (conn c) "POST" (relPath c "document") = inl req0 ->
     SetBody req0 documents = inl req1 ->
     applyContextSettings ctx req1 = (cs, req2) ->
     fst (connDo (conn c) ctx req2) = inl resp ->
     StatusCode resp = okStatus cs 201 202 ->
     Silent cs = true ->
     call (CreateDocuments c ctx documents) =
       (Done (None, None, None), [EvNewRequest "POST" (relPath c "document"); EvDo req2])) /\
  (forall keys updates req0 cs req1 mergeArray req2 resp,
     seqLen updates = Some (length (default [] keys)) ->
     "" ∉ default [] keys ->
     connNewRequest (conn c) "PATCH" (relPath c "document") = inl req0 ->
     applyContextSettings ctx req0 = (cs, req1) ->
     createMergeArray keys (Revisions cs) = (mergeArray, None) ->
     SetBodyArray req1 updates mergeArray = inl req2 ->
     fst (connDo (conn c) ctx req2) = inl resp ->
     StatusCode resp = okStatus cs 201 202 ->
     Silent cs = true ->
     call (UpdateDocuments c ctx keys updates) =
       (Done (None, None, None), [EvNewRequest "PATCH" (relPath c "document"); EvDo req2])).
Proof.
  repeat apply conj.
  - intros document req0 req1 cs req2 resp Hdoc Hnew Hbody Hcs Hdo Hst Hsilent.
    unfold call, CreateDocument. run_op. reflexivity.
  - intros key update req0 req1 cs req2 resp Hkey Hdoc Hnew Hbody Hcs Hdo Hst Hsilent.
    unfold call, UpdateDocument. rewrite (validateKey_nonblank key Hkey).
    run_op. reflexivity.
  - intros key document req0 req1 cs req2 resp Hkey Hdoc Hnew Hbody Hcs Hdo Hst Hsilent.
    unfold call, ReplaceDocument. rewrite (validateKey_nonblank key Hkey).
    run_op. reflexivity.
  - intros key req0 cs req2 resp Hkey Hnew Hcs Hdo Hst Hsilent.
    unfold call, RemoveDocument. rewrite (validateKey_nonblank key Hkey).
    run_op. reflexivity.
  - intros documents n req0 req1 cs req2 resp Hn Hnew Hbody Hcs Hdo Hst Hsilent.
    unfold call, CreateDocuments. run_op. reflexivity.
  - intros keys updates req0 cs req1 mergeArray req2 resp Hn Hkeys Hnew Hcs Hmerge Hbody
      Hdo Hst Hsilent.
    unfold call, UpdateDocuments. unfold bind at 1. rewrite Hn. cbn [ret].
    unfold bind at 1. rewrite Nat.eqb_refl. cbn [negb when ret].
    unfold bind at 1. rewrite (validateKeys_nonblank _ _ _ Hkeys).
    run_op. reflexivity.
Qed.

(** ** Decoding a batched response *)

Lemma destFits_le (v : iface) (n m : nat) : destFits v m -> n <= m -> destFits v n.
Proof.
  intros [->|(l & -> & Hl)] Hle; [left; reflexivity|].
  right. exists l. split; [reflexivity | lia].
Qed.

(** Reading a requested field into position [i] of its destination. *)
Lemma returnField_spec {R} (v : iface) (r : Response) (field : string) (i : nat)
    (errs : list (option error)) (log : list event) :
  destFits v (S i) ->
  exists log',
    (if negb (isNil v) then
       bind (indexAddr v i) (fun _ =>
       bind (ParseBody r field) (fun e =>
       ret (match e with Some err => <[i:=Some err]> errs | None => errs end)))
     else ret (R:=R) errs) log
    = (Next (match (if isNil v then None else bodyField r field) with
             | Some err => <[i:=Some err]> errs
             | None => errs
             end), log').
Proof.
  intros [->|(l & -> & Hl)].
  - exists log. reflexivity.
  - cbn [isNil negb]. unfold bind, indexAddr, ParseBody, emit, ret.
    assert (E : (i <? length l) = true) by (apply Nat.ltb_lt; lia).
    rewrite E. eexists. reflexivity.
Qed.

(** One iteration of the loop stores what [itemStored] and [itemFailure]
    say, at position [i] only. *)
Lemma parseResponseItem_spec {R} (resps : list Response) (cs : contextSettings) (i : nat)
    (metas : list DocumentMeta) (errs : list (option error)) (log : list event)
    (r : Response) :
  resps !! i = Some r ->
  destFits (ReturnOld cs) (S i) ->
  destFits (ReturnNew cs) (S i) ->
  exists log',
    parseResponseItem (R:=R) resps cs i metas errs log =
      (Next (match itemStored r with Some meta => <[i:=meta]> metas | None => metas end,
             match itemFailure cs r with Some err => <[i:=Some err]> errs | None => errs end),
       log').
Proof.
  intros Hr Hold Hnew.
  unfold parseResponseItem, itemStored, itemFailure, fieldError.
  unfold bind at 1. rewrite Hr. cbn [ret].
  destruct (CheckStatus r [200%Z; 201%Z; 202%Z]) as [err|].
  { eexists. reflexivity. }
  unfold bind at 1. unfold ParseBodyMeta, bind at 1, emit, ret.
  destruct (bodyMeta r) as [meta|err].
  2: { eexists. reflexivity. }
  unfold bind at 1.
  destruct (returnField_spec (R:=R) (ReturnOld cs) r "old" i errs (log ++ [EvParseBody ""]) Hold)
    as (log1 & H1).
  unfold ret in H1. rewrite H1. clear H1.
  unfold bind at 1.
  destruct (returnField_spec (R:=R) (ReturnNew cs) r "new" i
              (match (if isNil (ReturnOld cs) then None else bodyField r "old") with
               | Some err => <[i:=Some err]> errs
               | None => errs
               end) log1 Hnew)
    as (log2 & H2).
  unfold ret in H2. rewrite H2. clear H2.
  exists log2. unfold ret.
  destruct (if isNil (ReturnNew cs) then None else bodyField r "new") as [enew|];
    [|reflexivity].
  destruct (if isNil (ReturnOld cs) then None else bodyField r "old") as [eold|];
    [rewrite list_insert_insert_eq |]; reflexivity.
Qed.

(** The loop from position [i] on, [n] iterations: positions outside
    [i .. i+n-1] keep their value, the others get what their item says. *)
Lemma parseResponseItems_spec {R} (resps : list Response) (cs : contextSettings) (n : nat) :
  forall (i : nat) (metas : list DocumentMeta) (errs : list (option error)) (log : list event),
    i + n <= length resps ->
    i + n <= length metas ->
    i + n <= length errs ->
    destFits (ReturnOld cs) (i + n) ->
    destFits (ReturnNew cs) (i + n) ->
    exists metas' errs' log',
      parseResponseItems (R:=R) resps cs n i metas errs log = (Next (metas', errs'), log') /\
      length metas' = length metas /\
      length errs' = length errs /\
      (forall j, j < i \/ i + n <= j ->
         metas' !! j = metas !! j /\ errs' !! j = errs !! j) /\
      (forall j r, i <= j < i + n -> resps !! j = Some r ->
         metas' !! j = match itemStored r with
                       | Some meta => Some meta
                       | None => metas !! j
                       end /\
         errs' !! j = match itemFailure cs r with
                      | Some err => Some (Some err)
                      | None => errs !! j
                      end).
Proof.
  induction n as [|n IH]; intros i metas errs log Hresps Hmetas Herrs Hold Hnew.
  { exists metas, errs, log. cbn.
    split; [reflexivity|]. split; [reflexivity|]. split; [reflexivity|].
    split; [auto | intros; lia]. }
  destruct (lookup_lt_is_Some_2 resps i) as [r Hr]; [lia|].
  cbn [parseResponseItems]. unfold bind at 1.
  destruct (parseResponseItem_spec (R:=R) resps cs i metas errs log r Hr)
    as (log1 & ->);
    [eapply destFits_le; [exact Hold | lia] | eapply destFits_le; [exact Hnew | lia] |].
  cbn [fst snd].
  set (metas1 := match itemStored r with Some meta => <[i:=meta]> metas | None => metas end).
  set (errs1 := match itemFailure cs r with Some err => <[i:=Some err]> errs | None => errs end).
  assert (Hlm : length metas1 = length metas)
    by (subst metas1; destruct (itemStored r); [apply length_insert | reflexivity]).
  assert (Hle : length errs1 = length errs)
    by (subst errs1; destruct (itemFailure cs r); [apply length_insert | reflexivity]).
  assert (Hother : forall j, j <> i -> metas1 !! j = metas !! j /\ errs1 !! j = errs !! j).
  { intros j Hj. subst metas1 errs1. split.
    - destruct (itemStored r); [apply list_lookup_insert_ne; lia | reflexivity].
    - destruct (itemFailure cs r); [apply list_lookup_insert_ne; lia | reflexivity]. }
  assert (Hhere : metas1 !! i = match itemStored r with
                                | Some meta => Some meta
                                | None => metas !! i
                                end /\
                  errs1 !! i = match itemFailure cs r with
                               | Some err => Some (Some err)
                               | None => errs !! i
                               end).
  { subst metas1 errs1. split.
    - destruct (itemStored r); [apply list_lookup_insert_eq; lia | reflexivity].
    - destruct (itemFailure cs r); [apply list_lookup_insert_eq; lia | reflexivity]. }
  destruct (IH (S i) metas1 errs1 log1)
    as (metas' & errs' & log' & Hrun & Hlm' & Hle' & Hout & Hin);
    [lia | lia | lia | replace (S i + n) with (i + S n) by lia; exact Hold
     | replace (S i + n) with (i + S n) by lia; exact Hnew |].
  exists metas', errs', log'.
  split; [exact Hrun|]. split; [congruence|]. split; [congruence|]. split.
  - intros j Hj. destruct (Hout j) as [H1 H2]; [lia|].
    destruct (Hother j) as [H3 H4]; [lia|]. split; congruence.
  - intros j rj Hj Hrj. destruct (Nat.eq_dec j i) as [->|Hne].
    + destruct (Hout i) as [H1 H2]; [lia|].
      rewrite Hr in Hrj. injection Hrj as <-.
      destruct Hhere as [H3 H4]. split; congruence.
    + destruct (Hin j rj) as [H1 H2]; [lia | exact Hrj |].
      destruct (Hother j Hne) as [H3 H4]. rewrite H1, H2, H3, H4. split; reflexivity.
Qed.

(** [parseResponseArray] on a response whose array decodes into at least
    [count] items. *)
Lemma parseResponseArray_spec (resp : Response) (count : nat) (cs : contextSettings)
    (resps : list Response) :
  arrayBody resp = inl resps ->
  count <= length resps ->
  destFits (ReturnOld cs) count ->
  destFits (ReturnNew cs) count ->
  exists metas errs log,
    call (parseResponseArray resp count cs) = (Done (Some metas, Some errs, None), log) /\
    length metas = count /\
    length errs = count /\
    (forall i r, i < count -> resps !! i = Some r ->
       metas !! i = Some (default zeroMeta (itemStored r)) /\
       errs !! i = Some (itemFailure cs r)).
Proof.
  intros Harr Hcount Hold Hnew.
  unfold call, parseResponseArray, ParseArrayBody.
  unfold bind at 1. unfold bind at 1. unfold bind at 1. unfold emit, ret.
  rewrite Harr. cbn [orReturn ret].
  unfold bind at 1.
  destruct (parseResponseItems_spec (R:=batch) resps cs count 0
              (replicate count zeroMeta) (replicate count None) ([] ++ [EvParseArrayBody]))
    as (metas & errs & log & Hrun & Hlm & Hle & _ & Hin);
    rewrite ?length_replicate; try lia; try assumption.
  unfold batch in Hrun. rewrite Hrun. clear Hrun.
  rewrite length_replicate in Hlm. rewrite length_replicate in Hle.
  exists metas, errs, log. unfold return_. cbn [fst snd].
  split; [reflexivity|]. split; [exact Hlm|]. split; [exact Hle|].
  intros i r Hi Hr. destruct (Hin i r) as [H1 H2]; [lia | exact Hr |].
  rewrite H1, H2, !lookup_replicate_2 by lia.
  split; [destruct (itemStored r) | destruct (itemFailure cs r)]; reflexivity.
Qed.

(** C5 (amended).  When the response array decodes into at least N items
    (and the return-old and return-new destinations, if given, are slices
    of at least N), [parseResponseArray] returns N metadata and N errors
    and no error of its own, position [i] telling of item [i]: when the
    status of the item is rejected or its metadata does not decode, the
    error is at [errs[i]] and [metas[i]] is the zero value; when the
    metadata decodes it is at [metas[i]], and [errs[i]] is nil unless a
    requested old or new field fails to decode, whose error is then at
    [errs[i]] next to the metadata. *)
Theorem parseResponseArray_positions (resp : Response) (count : nat) (cs : contextSettings)
    (resps : list Response) :
  arrayBody resp = inl resps ->
  count <= length resps ->
  destFits (ReturnOld cs) count ->
  destFits (ReturnNew cs) count ->
  exists metas errs log,
    call (parseResponseArray resp count cs) = (Done (Some metas, Some errs, None), log) /\
    length metas = count /\
    length errs = count /\
    (forall i r, i < count -> resps !! i = Some r ->
       (forall err, CheckStatus r [200%Z; 201%Z; 202%Z] = Some err ->
          metas !! i = Some zeroMeta /\ errs !! i = Some (Some err)) /\
       (forall err, CheckStatus r [200%Z; 201%Z; 202%Z] = None ->
          bodyMeta r = inr err ->
          metas !! i = Some zeroMeta /\ errs !! i = Some (Some err)) /\
       (forall meta, CheckStatus r [200%Z; 201%Z; 202%Z] = None ->
          bodyMeta r = inl meta ->
          metas !! i = Some meta /\ errs !! i = Some (fieldError cs r))).
Proof.
  intros Harr Hcount Hold Hnew.
  destruct (parseResponseArray_spec resp count cs resps Harr Hcount Hold Hnew)
    as (metas & errs & log & Hrun & Hlm & Hle & Hpos).
  exists metas, errs, log.
  split; [exact Hrun|]. split; [exact Hlm|]. split; [exact Hle|].
  intros i r Hi Hr. destruct (Hpos i r Hi Hr) as [-> ->].
  unfold itemStored, itemFailure.
  split; [|split].
  - intros err Hst. rewrite Hst. split; reflexivity.
  - intros err Hst Hmeta. rewrite Hst, Hmeta. split; reflexivity.
  - intros meta Hst Hmeta. rewrite Hst, Hmeta. split; reflexivity.
Qed.

(** C6 (amended).  [parseResponseArray], which decodes the batched response
    of every operation, checks the status of each item against the one set
    200, 201, 202: an item with another status gets its decoded error at
    [errs[i]] and the zero value at [metas[i]], an item with one of the
    three is decoded, and all [count] positions are filled either way. *)
Theorem parseResponseArray_item_status (resp : Response) (count : nat) (cs : contextSettings)
    (resps : list Response) :
  arrayBody resp = inl resps ->
  count <= length resps ->
  destFits (ReturnOld cs) count ->
  destFits (ReturnNew cs) count ->
  exists metas errs log,
    call (parseResponseArray resp count cs) = (Done (Some metas, Some errs, None), log) /\
    length metas = count /\
    length errs = count /\
    (forall i r, i < count -> resps !! i = Some r ->
       (StatusCode r <> 200%Z -> StatusCode r <> 201%Z -> StatusCode r <> 202%Z ->
          errs !! i = Some (Some (errorResponse r)) /\ metas !! i = Some zeroMeta) /\
       (StatusCode r = 200%Z \/ StatusCode r = 201%Z \/ StatusCode r = 202%Z ->
          forall meta, bodyMeta r = inl meta ->
            metas !! i = Some meta /\ errs !! i = Some (fieldError cs r))).
Proof.
  intros Harr Hcount Hold Hnew.
  destruct (parseResponseArray_spec resp count cs resps Harr Hcount Hold Hnew)
    as (metas & errs & log & Hrun & Hlm & Hle & Hpos).
  exists metas, errs, log.
  split; [exact Hrun|]. split; [exact Hlm|]. split; [exact Hle|].
  intros i r Hi Hr. destruct (Hpos i r Hi Hr) as [-> ->].
  unfold itemStored, itemFailure, CheckStatus. cbn [existsb].
  split.
  - intros H0 H1 H2.
    destruct (Z.eqb_spec (StatusCode r) 200); [contradiction|].
    destruct (Z.eqb_spec (StatusCode r) 201); [contradiction|].
    destruct (Z.eqb_spec (StatusCode r) 202); [contradiction|].
    split; reflexivity.
  - intros Hok meta Hmeta.
    assert (E : (StatusCode r =? 200)%Z || ((StatusCode r =? 201)%Z ||
                ((StatusCode r =? 202)%Z || false)) = true).
    { destruct Hok as [E | [E | E]]; rewrite E; reflexivity. }
    rewrite E, Hmeta. split; reflexivity.
Qed.

End Documents.

(** * More on the failover connection *)

Section FailoverInUse.
Context {CP : ContextPkg} {EP : ErrorPkg} {RP : RequestPkg}.

Lemma getNextServer_keeps_defaultTimeout (c c' : clusterConnection) (s : Connection) :
  getNextServer c = Done (c', s) -> cc_defaultTimeout c' = cc_defaultTimeout c.
Proof.
  unfold getNextServer. destruct (length (servers c) =? 0); [discriminate|].
  cbn zeta. destruct (serverAt _ _); [|discriminate..].
  intros H. injection H as <- _. reflexivity.
Qed.

Lemma DoLoop_keeps_defaultTimeout (fuel : nat) :
  forall ctx timeout divider c req n s made r,
    DoLoop fuel ctx timeout divider c req n s made = Done r ->
    cc_defaultTimeout (dr_conn r) = cc_defaultTimeout c.
Proof.
  induction fuel as [|fuel IH]; intros ctx timeout divider c req n s made r; [discriminate|].
  cbn [DoLoop].
  destruct (connDo s _ req) as [[resp|err] req'].
  { intros H. injection H as <-. reflexivity. }
  destruct (IsCanceled err).
  { intros H. injection H as <-. reflexivity. }
  destruct (Written req').
  { destruct (IsArangoError err); intros H; injection H as <-; reflexivity. }
  destruct (length (servers c) <? n + 1).
  { intros H. injection H as <-. reflexivity. }
  destruct (getNextServer c) as [[c' s']| |] eqn:Hnext; [|discriminate..].
  intros H. apply IH in H. rewrite H.
  apply (getNextServer_keeps_defaultTimeout c c' s' Hnext).
Qed.

Lemma Do_keeps_defaultTimeout (now : Z) (c : clusterConnection) (ctx : option GoContext)
    (req : Request) (r : DoReturn) :
  Do now c ctx req = Done r -> cc_defaultTimeout (dr_conn r) = cc_defaultTimeout c.
Proof.
  unfold Do. destruct (getCurrentServer c); [|discriminate..].
  apply DoLoop_keeps_defaultTimeout.
Qed.

(** X1.  [NewConnection] returns a connection exactly for a non-empty pool
    and an InvalidArgument error for the empty one; the connection it
    returns holds the pool as given, has its cursor on the first endpoint
    and a default timeout that is never zero: one minute where the
    configuration leaves it zero. *)
Theorem NewConnection_needs_a_server (config : ConnectionConfig) (srvs : list Connection) :
  ((exists c, NewConnection config srvs = (Some c, None)) <-> srvs <> []) /\
  ((exists err, NewConnection config srvs = (None, Some err) /\ isInvalidArgument err)
   <-> srvs = []) /\
  (forall c, NewConnection config srvs = (Some c, None) ->
     servers c = srvs /\ current c = 0 /\
     cc_defaultTimeout c <> 0%Z /\
     (DefaultTimeout config = 0%Z -> cc_defaultTimeout c = 60000000000%Z) /\
     (DefaultTimeout config <> 0%Z -> cc_defaultTimeout c = DefaultTimeout config)).
Proof.
  unfold NewConnection. destruct srvs as [|s srvs]; cbn.
  - split; [|split].
    + split; [intros [c H]; discriminate | intros H; contradiction].
    + split; [reflexivity|]. intros _. eexists. split; [reflexivity|]. do 2 constructor.
    + intros c H. discriminate.
  - split; [|split].
    + split; [discriminate | intros _; eexists; reflexivity].
    + split; [intros (err & H & _); discriminate | discriminate].
    + intros c H. injection H as <-. cbn.
      destruct (Z.eqb_spec (DefaultTimeout config) 0) as [E|E]; cbn;
        repeat split; try reflexivity; try (intros; congruence).
      unfold defaultTimeout. lia.
Qed.

(** X2.  A connection in sequential use, that is made by [NewConnection]
    and then passed through any number of returning calls of [Do], always
    holds the pool it was made from, a cursor that is a valid index into
    it and its default timeout; so the next call of [Do] on it returns as
    well: it neither panics nor runs out of iterations. *)
Theorem connection_in_use_stays_usable
    (config : ConnectionConfig) (srvs : list Connection) (c : clusterConnection) :
  inUse config srvs c ->
  srvs <> [] /\
  servers c = srvs /\
  current c < length (servers c) /\
  cc_defaultTimeout c =
    (if (DefaultTimeout config =? 0)%Z then defaultTimeout else DefaultTimeout config) /\
  (forall now ctx req, exists r, Do now c ctx req = Done r).
Proof.
  intros Huse.
  assert (H : srvs <> [] /\ servers c = srvs /\ current c < length (servers c) /\
              cc_defaultTimeout c =
                (if (DefaultTimeout config =? 0)%Z then defaultTimeout
                 else DefaultTimeout config)).
  { induction Huse as [c Hnew | c now ctx req r Huse IH Hrun].
    - unfold NewConnection in Hnew. destruct srvs as [|s srvs]; [discriminate|].
      cbn in Hnew. injection Hnew as <-. cbn.
      split; [discriminate|]. split; [reflexivity|]. split; [lia|].
      destruct (DefaultTimeout config =? 0)%Z; reflexivity.
    - destruct IH as (Hne & Hsrv & Hcur & Hdt).
      destruct (Do_keeps_cursor_in_range now c ctx req r Hrun) as [Hsrv' Hcur'].
      split; [exact Hne|]. split; [congruence|]. split; [exact Hcur'|].
      rewrite (Do_keeps_defaultTimeout now c ctx req r Hrun). exact Hdt. }
  destruct H as (Hne & Hsrv & Hcur & Hdt).
  split; [exact Hne|]. split; [exact Hsrv|]. split; [exact Hcur|]. split; [exact Hdt|].
  intros now ctx req. apply (proj1 (Do_terminates now c ctx req) Hcur).
Qed.

(** X3.  In one call [Do] never tries an endpoint twice: the attempts go to
    consecutive endpoints of the pool from the cursor on, wrapping, and
    number at most the endpoints of the pool, however the call ends. *)
Theorem Do_never_repeats_an_endpoint
    (now : Z) (c : clusterConnection) (ctx : option GoContext) (req : Request)
    (r : DoReturn) :
  Do now c ctx req = Done r ->
  NoDup (map at_server (dr_attempts r)) /\
  1 <= length (dr_attempts r) <= length (servers c) /\
  (forall j a, dr_attempts r !! j = Some a ->
     at_server a = (current c + j) mod length (servers c)).
Proof.
  intros Hrun.
  destruct (Do_Done_spec now c ctx req r Hrun)
    as (earlier & last & Hatt & _ & Hlen & Hall & _).
  pose proof (Do_Done_cursor now c ctx req r Hrun) as Hcur.
  assert (Hcount : 1 <= length (dr_attempts r) <= length (servers c)).
  { rewrite Hatt, length_app. cbn. lia. }
  assert (Hidx : forall j a, dr_attempts r !! j = Some a ->
            at_server a = (current c + j) mod length (servers c)).
  { intros j a Ha. rewrite Hatt in Ha. apply (Hall j a Ha). }
  split; [|split; [exact Hcount | exact Hidx]].
  rewrite (map_by_index at_server (fun j => (current c + j) mod length (servers c))
             (dr_attempts r) Hidx).
  apply NoDup_fmap_2_strong; [|apply NoDup_seq].
  intros x y Hx Hy. rewrite !elem_of_seq in *.
  apply cursor_offsets_inj; lia.
Qed.

(** X4.  The cursor is sticky: the next call of [Do] on the connection a
    call left behind starts at the endpoint that call tried last, whether
    it answered or failed there. *)
Theorem Do_resumes_where_it_stopped
    (now now' : Z) (c : clusterConnection) (ctx ctx' : option GoContext)
    (req req' : Request) (r r' : DoReturn) :
  Do now c ctx req = Done r ->
  Do now' (dr_conn r) ctx' req' = Done r' ->
  exists earlier last first later,
    dr_attempts r = earlier ++ [last] /\
    dr_attempts r' = first :: later /\
    at_server first = at_server last /\
    servers (dr_conn r) !! at_server first = servers c !! at_server last.
Proof.
  intros Hrun Hrun'.
  destruct (Do_Done_spec now c ctx req r Hrun)
    as (earlier & last & Hatt & Hsrv & _ & _ & _ & _ & _ & Hfin & _).
  destruct (Do_Done_spec now' (dr_conn r) ctx' req' r' Hrun')
    as (earlier' & last' & Hatt' & _ & _ & Hall' & _).
  pose proof (Do_Done_cursor now' (dr_conn r) ctx' req' r' Hrun') as Hcur'.
  destruct (earlier' ++ [last']) as [|first later] eqn:E.
  { destruct earlier'; discriminate. }
  destruct (Hall' 0 first eq_refl) as (Hidx & _).
  rewrite Nat.add_0_r, Nat.mod_small in Hidx by exact Hcur'.
  exists earlier, last, first, later.
  split; [exact Hatt|]. split; [exact Hatt'|].
  split; [congruence|]. rewrite Hsrv. congruence.
Qed.

(** X5.  A returning call of [Do] gives back either a response and no
    error, or no response and an error, never both and never neither; the
    error is always one of an attempt with a stack attached, possibly
    wrapped in a [ResponseError] first. *)
Theorem Do_returns_response_or_error
    (now : Z) (c : clusterConnection) (ctx : option GoContext) (req : Request)
    (r : DoReturn) :
  Do now c ctx req = Done r ->
  (exists resp, dr_resp r = Some resp /\ dr_err r = None) \/
  (dr_resp r = None /\
   exists a err, a ∈ dr_attempts r /\ at_result a = inr err /\
     (dr_err r = Some (WithStack err) \/ dr_err r = Some (WithStack (ResponseError err)))).
Proof.
  intros Hrun.
  destruct (Do_Done_spec now c ctx req r Hrun)
    as (earlier & last & Hatt & _ & _ & _ & _ & _ & _ & _ & _ & Hans).
  assert (Hin : last ∈ dr_attempts r).
  { rewrite Hatt. apply elem_of_app. right. apply list_elem_of_singleton. reflexivity. }
  unfold answer in Hans.
  destruct (at_result last) as [resp|err] eqn:Hres.
  - left. exists resp. injection Hans as -> ->. split; reflexivity.
  - right.
    destruct (IsCanceled err); [|destruct (at_written last); [destruct (IsArangoError err)|]];
      injection Hans as -> ->; (split; [reflexivity|]); exists last, err; auto.
Qed.

Lemma timeSpent_constant (l : list attempt) (q : Z) :
  Forall (fun a => at_timeout a = q) l -> timeSpent l = (Z.of_nat (length l) * q)%Z.
Proof.
  unfold timeSpent. induction 1 as [|a l Ha _ IH]; [reflexivity|].
  cbn [map foldr length]. rewrite IH, Ha. lia.
Qed.

(** X6.  On a pool of at most three endpoints and with an overall timeout
    that is not negative and at most 2^53 ns (104 days), the timeouts
    [Do] hands to its attempts add up to at most the overall timeout. *)
Theorem Do_stays_within_the_timeout
    (now : Z) (c : clusterConnection) (ctx : option GoContext) (req : Request)
    (r : DoReturn) :
  Do now c ctx req = Done r ->
  length (servers c) <= 3 ->
  (0 <= overallTimeout now c ctx <= 2 ^ 53)%Z ->
  (0 <= timeSpent (dr_attempts r) <= overallTimeout now c ctx)%Z.
Proof.
  intros Hrun Hpool Htime.
  destruct (Do_Done_spec now c ctx req r Hrun)
    as (earlier & last & Hatt & _ & Hlen & Hall & _).
  pose proof (Do_Done_cursor now c ctx req r Hrun) as Hcur.
  set (T := overallTimeout now c ctx) in *.
  set (d := timeoutDivider (length (servers c))).
  assert (Hd : d = Z.of_nat (length (servers c))) by (subst d; unfold timeoutDivider; lia).
  rewrite (timeSpent_constant (dr_attempts r) (Z.quot T d)).
  2: { apply Forall_lookup_2. intros j a Ha. rewrite Hatt in Ha.
       apply Hall in Ha. destruct Ha as (_ & Ha & _). rewrite Ha.
       apply attemptTimeout_exact; lia. }
  assert (Hcount : (1 <= Z.of_nat (length (dr_attempts r)) <= d)%Z).
  { rewrite Hatt, length_app. cbn. lia. }
  rewrite Z.quot_div_nonneg by lia.
  pose proof (Z.mul_div_le T d ltac:(lia)) as Hle.
  assert (Hq : (0 <= T / d)%Z) by (apply Z.div_pos; lia).
  nia.
Qed.

(** On endpoints that fail over up to position [k] of the run and answer
    at position [k], the attempts up to [k] get an unwritten request, fail
    over before [k] and get the answer at [k]. *)
Lemma attempts_up_to_the_answer (now : Z) (c : clusterConnection) (ctx : option GoContext)
    (req : Request) (k : nat) (resp : Response) (sk : Connection) (l : list attempt) :
  Written req = false ->
  (forall j s rq, j < k ->
     servers c !! ((current c + j) mod length (servers c)) = Some s ->
     Written rq = false ->
     exists err rq',
       connDo s (Some (serverContext now c ctx)) rq = (inr err, rq') /\
       IsCanceled err = false /\ Written rq' = false) ->
  servers c !! ((current c + k) mod length (servers c)) = Some sk ->
  (forall rq, Written rq = false ->
     exists rq', connDo sk (Some (serverContext now c ctx)) rq = (inl resp, rq')) ->
  handsOn req l ->
  (forall j a, l !! j = Some a ->
     at_server a = (current c + j) mod length (servers c) /\
     answeredBy c (serverContext now c ctx) a) ->
  forall j a, l !! j = Some a -> j <= k ->
    Written (at_request a) = false /\
    (j < k -> retryable a = true /\ Written (at_left a) = false) /\
    (j = k -> at_result a = inl resp).
Proof.
  intros Hreq Hfail Hsk Hok [Hfirst Hchain] Hby.
  assert (Hstep : forall j a, l !! j = Some a -> j <= k ->
            Written (at_request a) = false ->
            (j < k -> retryable a = true /\ Written (at_left a) = false) /\
            (j = k -> at_result a = inl resp)).
  { intros j a Ha Hj Hunw. destruct (Hby j a Ha) as (Hidx & s & Hs & Hdo).
    rewrite Hidx in Hs. split.
    - intros Hlt.
      destruct (Hfail j s (at_request a) Hlt Hs Hunw) as (err & rq' & Hdo' & Hcan & Hunw').
      rewrite Hdo in Hdo'. injection Hdo' as Hres Hleft.
      unfold retryable, at_written. rewrite Hres, Hleft, Hcan, Hunw'. auto.
    - intros ->. rewrite Hsk in Hs. injection Hs as <-.
      destruct (Hok (at_request a) Hunw) as (rq' & Hdo').
      rewrite Hdo in Hdo'. injection Hdo' as Hres _. exact Hres. }
  induction j as [|j IHj]; intros a Ha Hj.
  - assert (Hunw : Written (at_request a) = false) by (rewrite (Hfirst a Ha); exact Hreq).
    split; [exact Hunw | apply (Hstep 0 a Ha Hj Hunw)].
  - destruct (lookup_lt_is_Some_2 l j) as [b Hb];
      [apply lookup_lt_Some in Ha; lia|].
    destruct (IHj b Hb) as (_ & Hb1 & _); [lia|].
    destruct Hb1 as [_ Hb2]; [lia|].
    assert (Hunw : Written (at_request a) = false)
      by (rewrite (Hchain j b a Hb Ha); exact Hb2).
    split; [exact Hunw | apply (Hstep (S j) a Ha Hj Hunw)].
Qed.

(** X7.  When the [k] endpoints from the cursor on fail the request before
    writing it, and not by cancellation, and the next one answers, [Do]
    returns that answer after [k+1] attempts and leaves the cursor on the
    endpoint that answered, [k] steps on. *)
Theorem Do_fails_over_to_the_first_answer
    (now : Z) (c : clusterConnection) (ctx : option GoContext) (req : Request)
    (k : nat) (resp : Response) (sk : Connection) :
  k < length (servers c) ->
  current c < length (servers c) ->
  Written req = false ->
  (forall j s rq, j < k ->
     servers c !! ((current c + j) mod length (servers c)) = Some s ->
     Written rq = false ->
     exists err rq',
       connDo s (Some (serverContext now c ctx)) rq = (inr err, rq') /\
       IsCanceled err = false /\ Written rq' = false) ->
  servers c !! ((current c + k) mod length (servers c)) = Some sk ->
  (forall rq, Written rq = false ->
     exists rq', connDo sk (Some (serverContext now c ctx)) rq = (inl resp, rq')) ->
  exists r,
    Do now c ctx req = Done r /\
    dr_resp r = Some resp /\
    dr_err r = None /\
    length (dr_attempts r) = S k /\
    current (dr_conn r) = (current c + k) mod length (servers c).
Proof.
  intros Hk Hcur Hreq Hfail Hsk Hok.
  destruct (Do_spec now c ctx req Hcur)
    as (r & earlier & last & Hrun & Hatt &
        _ & Hlen & Hall & Hhands & Hretry & Hfull & Hfin & _ & Hans).
  pose proof (attempts_up_to_the_answer now c ctx req k resp sk (earlier ++ [last])
                Hreq Hfail Hsk Hok Hhands
                (fun j a Ha => conj (proj1 (Hall j a Ha)) (proj2 (proj2 (Hall j a Ha)))))
    as Hupto.
  assert (Hlast : (earlier ++ [last]) !! length earlier = Some last)
    by apply list_lookup_middle, eq_refl.
  assert (Hcount : length earlier = k).
  { destruct (Nat.lt_trichotomy (length earlier) k) as [Hlt|[Heq|Hgt]]; [|exact Heq|].
    - destruct (Hupto _ _ Hlast) as (_ & Hr & _); [lia|].
      destruct (Hr Hlt) as [Hr' _]. specialize (Hfull Hr'). lia.
    - destruct (lookup_lt_is_Some_2 earlier k Hgt) as [a Ha].
      assert (Ha' : (earlier ++ [last]) !! k = Some a)
        by (rewrite lookup_app_l by lia; exact Ha).
      destruct (Hupto _ _ Ha') as (_ & _ & Hres); [lia|]. specialize (Hres eq_refl).
      rewrite Forall_forall in Hretry.
      specialize (Hretry a (list_elem_of_lookup_2 _ _ _ Ha)).
      unfold retryable in Hretry. rewrite Hres in Hretry. discriminate. }
  destruct (Hupto _ _ Hlast) as (_ & _ & Hres); [lia|]. specialize (Hres Hcount).
  unfold answer in Hans. rewrite Hres in Hans. injection Hans as Hresp Herr.
  exists r. split; [exact Hrun|]. split; [exact Hresp|]. split; [exact Herr|].
  split; [rewrite Hatt, length_app; cbn; lia|].
  rewrite Hfin, (proj1 (Hall _ _ Hlast)), Hcount. reflexivity.
Qed.

End FailoverInUse.

(** * More on the document operations *)

Section DocumentsInUse.
Context {CP : ContextPkg} {EP : ErrorPkg} {RP : RequestPkg}.

(** Runs the statements of an operation on the answers its collaborators
    are known to give. *)
Ltac run_op :=
  unfold bind, when, orReturn, failWith, newRequest, doRequest, emit, ret, return_,
    ParseBodyMeta, ParseBody, ParseArrayBody, CheckStatus;
  repeat (cbn;
          first [ match goal with H : _ = _ |- _ => rewrite H end
                | rewrite Z.eqb_refl ]).

(** Opens the hypotheses on a singular mutation. *)
Ltac open_mutation m Hvalid Hprep :=
  destruct m as [document | key update | key document | key];
  cbn [mutationValid mutationMethod mutationPath mutationBody mutationStatus
       readsOld readsNew runMutation] in *;
  unfold prepared in Hprep;
  cbn [mutationMethod mutationPath mutationBody] in Hprep;
  [ destruct Hprep as (req0 & Hnew & req1 & Hbody & Hcs)
  | destruct Hvalid as [Hkey Hvalid]; destruct Hprep as (req0 & Hnew & req1 & Hbody & Hcs)
  | destruct Hvalid as [Hkey Hvalid]; destruct Hprep as (req0 & Hnew & req1 & Hbody & Hcs)
  | destruct Hprep as (req0 & Hnew & Hcs) ].

(** Closes the three statements on the fields of a singular mutation once
    the run is computed. *)
Ltac fields_done Hnotin :=
  split; [reflexivity|]; split;
  [ intros Hnone Hreads;
    first [ discriminate Hnone | discriminate Hreads | repeat constructor ]
  | intros err0 Hreads Herr;
    first [ discriminate Hreads | discriminate Herr
          | apply Hnotin;
            repeat first [ apply List.Forall_nil | apply List.Forall_cons; [discriminate|] ] ] ].

Lemma status_rejected (resp : Response) (code : Z) :
  StatusCode resp <> code -> CheckStatus resp [code] = Some (errorResponse resp).
Proof.
  intros H. unfold CheckStatus. cbn.
  destruct (Z.eqb_spec (StatusCode resp) code); [contradiction | reflexivity].
Qed.

Lemma status_accepted (resp : Response) (code : Z) :
  StatusCode resp = code -> CheckStatus resp [code] = None.
Proof. intros H. unfold CheckStatus. cbn. rewrite H, Z.eqb_refl. reflexivity. Qed.

(** X8.  [createMergeArray] on keys and revisions of equal number gives
    one entry per key, in order, holding that key under [_key], the
    revision of the same position under [_rev] and nothing else; on keys
    alone, entries holding the key only; on differing numbers, an
    InvalidArgument error and no array. *)
Theorem createMergeArray_pairs_keys_and_revisions (keys revs : list string) :
  (length keys = length revs ->
   exists mergeArray,
     createMergeArray (Some keys) (Some revs) = (Some mergeArray, None) /\
     length mergeArray = length keys /\
     (forall i k r, keys !! i = Some k -> revs !! i = Some r ->
        exists entry : gmap string string,
          mergeArray !! i = Some entry /\
          entry !! "_key" = Some k /\ entry !! "_rev" = Some r /\
          (forall field, field <> "_key" -> field <> "_rev" -> entry !! field = None))) /\
  (length keys <> length revs ->
   exists err,
     createMergeArray (Some keys) (Some revs) = (None, Some err) /\
     isInvalidArgument err) /\
  (exists mergeArray,
     createMergeArray (Some keys) None = (Some mergeArray, None) /\
     length mergeArray = length keys /\
     (forall i k, keys !! i = Some k ->
        exists entry : gmap string string,
          mergeArray !! i = Some entry /\
          entry !! "_key" = Some k /\
          (forall field, field <> "_key" -> entry !! field = None))).
Proof.
  split; [|split].
  - intros Hlen. unfold createMergeArray. rewrite Hlen, Nat.eqb_refl. cbn.
    eexists. split; [reflexivity|]. split.
    { rewrite length_zip_with. lia. }
    intros i k r Hk Hr. eexists. split.
    { rewrite lookup_zip_with, Hk, Hr. reflexivity. }
    split; [|split].
    + rewrite lookup_insert_ne by discriminate. apply lookup_singleton_eq.
    + apply lookup_insert_eq.
    + intros field H1 H2. rewrite lookup_insert_ne by congruence.
      apply lookup_singleton_ne. congruence.
  - intros Hlen. unfold createMergeArray.
    destruct (Nat.eqb_spec (length keys) (length revs)) as [E|_]; [contradiction|]. cbn.
    eexists. split; [reflexivity|]. do 2 constructor.
  - cbn. eexists. split; [reflexivity|]. split; [apply length_map|].
    intros i k Hk. eexists. split.
    { change (map ?f keys) with (f <$> keys). rewrite list_lookup_fmap, Hk. reflexivity. }
    split; [apply lookup_singleton_eq|].
    intros field H1. apply lookup_singleton_ne. congruence.
Qed.

(** X9.  When sending the request fails, every mutation, singular or
    batched, returns that error with a stack attached and zero-value
    results; it has built one request and sent it once, and parsed
    nothing. *)
Theorem mutation_returns_the_transport_error (c : collection) (ctx : option GoContext)
    (cs : contextSettings) (req : Request) (err : error) :
  fst (connDo (conn c) ctx req) = inr err ->
  (forall m,
     mutationValid m -> prepared c ctx m cs req ->
     runMutation c ctx m =
       (Done (zeroMeta, Some (WithStack err)),
        [EvNewRequest (mutationMethod m) (mutationPath c m); EvDo req])) /\
  (forall b n,
     batchValid b n -> preparedBatch c ctx b cs req ->
     runBatch c ctx b =
       (Done (None, None, Some (WithStack err)),
        [EvNewRequest (batchMethod b) (relPath c "document"); EvDo req])).
Proof.
  intros Hdo. split.
  - intros m Hvalid Hprep. open_mutation m Hvalid Hprep.
    + unfold call, CreateDocument. run_op. reflexivity.
    + unfold call, UpdateDocument. rewrite (validateKey_nonblank key Hkey).
      run_op. reflexivity.
    + unfold call, ReplaceDocument. rewrite (validateKey_nonblank key Hkey).
      run_op. reflexivity.
    + unfold call, RemoveDocument. rewrite (validateKey_nonblank key Hvalid).
      run_op. reflexivity.
  - intros b n Hvalid Hprep. destruct b as [documents | keys updates];
      unfold preparedBatch in Hprep; cbn [batchValid batchMethod runBatch] in *.
    + destruct Hprep as (req0 & Hnew & req1 & Hbody & Hcs).
      unfold call, CreateDocuments. run_op. reflexivity.
    + destruct Hvalid as (Hn & Hlen & Hkeys).
      destruct Hprep as (req0 & Hnew & req1 & mergeArray & Hcs & Hmerge & Hbody).
      unfold call, UpdateDocuments. unfold bind at 1. rewrite Hn. cbn [ret].
      unfold bind at 1. rewrite Hlen, Nat.eqb_refl. cbn [negb when ret].
      unfold bind at 1. rewrite (validateKeys_nonblank _ _ _ Hkeys).
      run_op. reflexivity.
Qed.

(** X10.  When the response has another status than the one the operation
    accepts, a singular mutation returns the error decoded from the
    response and a batched one an Arango error made of the status, both
    with zero-value results and without parsing the body, the silent
    option set or not. *)
Theorem mutation_returns_the_rejected_status (c : collection) (ctx : option GoContext)
    (cs : contextSettings) (req : Request) (resp : Response) :
  fst (connDo (conn c) ctx req) = inl resp ->
  (forall m,
     mutationValid m -> prepared c ctx m cs req ->
     StatusCode resp <> mutationStatus cs m ->
     runMutation c ctx m =
       (Done (zeroMeta, Some (WithStack (errorResponse resp))),
        [EvNewRequest (mutationMethod m) (mutationPath c m); EvDo req])) /\
  (forall b n,
     batchValid b n -> preparedBatch c ctx b cs req ->
     StatusCode resp <> okStatus cs 201 202 ->
     runBatch c ctx b =
       (Done (None, None,
              Some (WithStack (newArangoError (StatusCode resp) 0 "Invalid status"))),
        [EvNewRequest (batchMethod b) (relPath c "document"); EvDo req])).
Proof.
  intros Hdo. split.
  - intros m Hvalid Hprep Hst. open_mutation m Hvalid Hprep;
      apply status_rejected in Hst.
    + unfold call, CreateDocument.
      unfold bind, when, orReturn, newRequest, doRequest, emit, ret, return_.
      rewrite Hvalid, Hnew. cbn. rewrite Hbody. cbn. rewrite Hcs. cbn. rewrite Hdo. cbn.
      rewrite Hst. reflexivity.
    + unfold call, UpdateDocument. rewrite (validateKey_nonblank key Hkey).
      unfold bind, when, orReturn, newRequest, doRequest, emit, ret, return_.
      cbn. rewrite Hvalid, Hnew. cbn. rewrite Hbody. cbn. rewrite Hcs. cbn. rewrite Hdo. cbn.
      rewrite Hst. reflexivity.
    + unfold call, ReplaceDocument. rewrite (validateKey_nonblank key Hkey).
      unfold bind, when, orReturn, newRequest, doRequest, emit, ret, return_.
      cbn. rewrite Hvalid, Hnew. cbn. rewrite Hbody. cbn. rewrite Hcs. cbn. rewrite Hdo. cbn.
      rewrite Hst. reflexivity.
    + unfold call, RemoveDocument. rewrite (validateKey_nonblank key Hvalid).
      unfold bind, when, orReturn, newRequest, doRequest, emit, ret, return_.
      cbn. rewrite Hnew. cbn. rewrite Hcs. cbn. rewrite Hdo. cbn.
      rewrite Hst. reflexivity.
  - intros b n Hvalid Hprep Hst.
    assert (Hneq : (StatusCode resp =? okStatus cs 201 202)%Z = false)
      by (apply Z.eqb_neq; exact Hst).
    destruct b as [documents | keys updates];
      unfold preparedBatch in Hprep; cbn [batchValid batchMethod runBatch] in *.
    + destruct Hprep as (req0 & Hnew & req1 & Hbody & Hcs).
      unfold call, CreateDocuments. run_op. reflexivity.
    + destruct Hvalid as (Hn & Hlen & Hkeys).
      destruct Hprep as (req0 & Hnew & req1 & mergeArray & Hcs & Hmerge & Hbody).
      unfold call, UpdateDocuments. unfold bind at 1. rewrite Hn. cbn [ret].
      unfold bind at 1. rewrite Hlen, Nat.eqb_refl. cbn [negb when ret].
      unfold bind at 1. rewrite (validateKeys_nonblank _ _ _ Hkeys).
      clear Hst. run_op. reflexivity.
Qed.

(** X11.  A singular mutation that is answered with the status it accepts,
    the silent option not set, returns the metadata decoded from the body.
    When the metadata does not decode it returns that error and the zero
    value.  When a requested old or new field does not decode it returns
    that error next to the decoded metadata, the error of "old" first:
    after a failure on "old" the "new" field is not looked at. *)
Theorem mutation_returns_the_metadata (c : collection) (ctx : option GoContext)
    (cs : contextSettings) (req : Request) (resp : Response) (m : mutation) :
  mutationValid m ->
  prepared c ctx m cs req ->
  fst (connDo (conn c) ctx req) = inl resp ->
  StatusCode resp = mutationStatus cs m ->
  Silent cs = false ->
  (forall err, bodyMeta resp = inr err ->
     runMutation c ctx m =
       (Done (zeroMeta, Some (WithStack err)),
        [EvNewRequest (mutationMethod m) (mutationPath c m); EvDo req; EvParseBody ""])) /\
  (forall meta, bodyMeta resp = inl meta ->
     fst (runMutation c ctx m) =
       Done (meta, option_map WithStack (firstFieldError cs m resp)) /\
     (firstFieldError cs m resp = None ->
      readsOld cs m = true -> EvParseBody "old" ∈ snd (runMutation c ctx m)) /\
     (forall err, readsOld cs m = true -> bodyField resp "old" = Some err ->
        EvParseBody "new" ∉ snd (runMutation c ctx m))).
Proof.
  intros Hvalid Hprep Hdo Hst Hsilent.
  assert (Hnotin : forall (f : string) (l : list event),
            Forall (fun e => e <> EvParseBody f) l -> EvParseBody f ∉ l).
  { intros f l Hl Hin. rewrite Forall_forall in Hl. exact (Hl _ Hin eq_refl). }
  split.
  - intros err Hmeta. open_mutation m Hvalid Hprep.
    + unfold call, CreateDocument. run_op. reflexivity.
    + unfold call, UpdateDocument. rewrite (validateKey_nonblank key Hkey).
      run_op. reflexivity.
    + unfold call, ReplaceDocument. rewrite (validateKey_nonblank key Hkey).
      run_op. reflexivity.
    + unfold call, RemoveDocument. rewrite (validateKey_nonblank key Hvalid).
      run_op. reflexivity.
  - intros meta Hmeta. unfold firstFieldError. open_mutation m Hvalid Hprep.
    + unfold call, CreateDocument. run_op.
      destruct (isNil (ReturnNew cs)); cbn;
        [|destruct (bodyField resp "new"); cbn]; fields_done Hnotin.
    + unfold call, UpdateDocument. rewrite (validateKey_nonblank key Hkey). run_op.
      destruct (isNil (ReturnOld cs)); cbn;
        [|destruct (bodyField resp "old") as [eold|]; cbn];
        (destruct (isNil (ReturnNew cs)); cbn;
         [|destruct (bodyField resp "new") as [enew|]; cbn]); fields_done Hnotin.
    + unfold call, ReplaceDocument. rewrite (validateKey_nonblank key Hkey). run_op.
      destruct (isNil (ReturnOld cs)); cbn;
        [|destruct (bodyField resp "old") as [eold|]; cbn];
        (destruct (isNil (ReturnNew cs)); cbn;
         [|destruct (bodyField resp "new") as [enew|]; cbn]); fields_done Hnotin.
    + unfold call, RemoveDocument. rewrite (validateKey_nonblank key Hvalid). run_op.
      destruct (isNil (ReturnOld cs)); cbn;
        [|destruct (bodyField resp "old") as [eold|]; cbn]; fields_done Hnotin.
Qed.

(** X12.  [ReadDocument] with a key that is not blank builds one GET
    request for the document and sends it.  A transport error, a status
    other than 200 and metadata that does not decode each give that error
    and the zero value.  Otherwise the decoded metadata is returned; with
    a destination for the document the body is parsed a second time, into
    it, and an error of that second parse is returned next to the
    metadata. *)
Theorem ReadDocument_reads_metadata_then_document
    (c : collection) (ctx : option GoContext) (key : string) (result : iface)
    (req : Request) :
  key <> "" ->
  connNewRequest (conn c) "GET" (path_Join [relPath c "document"; key]) = inl req ->
  (forall err, fst (connDo (conn c) ctx req) = inr err ->
     call (ReadDocument c ctx key result) =
       (Done (zeroMeta, Some (WithStack err)),
        [EvNewRequest "GET" (path_Join [relPath c "document"; key]); EvDo req])) /\
  (forall resp, fst (connDo (conn c) ctx req) = inl resp ->
     (StatusCode resp <> 200%Z ->
      call (ReadDocument c ctx key result) =
        (Done (zeroMeta, Some (WithStack (errorResponse resp))),
         [EvNewRequest "GET" (path_Join [relPath c "document"; key]); EvDo req])) /\
     (StatusCode resp = 200%Z ->
      forall err, bodyMeta resp = inr err ->
        call (ReadDocument c ctx key result) =
          (Done (zeroMeta, Some (WithStack err)),
           [EvNewRequest "GET" (path_Join [relPath c "document"; key]); EvDo req;
            EvParseBody ""])) /\
     (StatusCode resp = 200%Z ->
      forall meta, bodyMeta resp = inl meta ->
        call (ReadDocument c ctx key result) =
          if isNil result then
            (Done (meta, None),
             [EvNewRequest "GET" (path_Join [relPath c "document"; key]); EvDo req;
              EvParseBody ""])
          else
            (Done (meta, option_map WithStack (bodyField resp "")),
             [EvNewRequest "GET" (path_Join [relPath c "document"; key]); EvDo req;
              EvParseBody ""; EvParseBody ""]))).
Proof.
  intros Hkey Hnew. split.
  - intros err Hdo. unfold call, ReadDocument. rewrite (validateKey_nonblank key Hkey).
    run_op. reflexivity.
  - intros resp Hdo. split; [|split].
    + intros Hst. apply status_rejected in Hst.
      unfold call, ReadDocument. rewrite (validateKey_nonblank key Hkey).
      unfold bind, when, orReturn, newRequest, doRequest, emit, ret, return_.
      cbn. rewrite Hnew. cbn. rewrite Hdo. cbn. rewrite Hst. reflexivity.
    + intros Hst err Hmeta. apply status_accepted in Hst.
      unfold call, ReadDocument. rewrite (validateKey_nonblank key Hkey).
      unfold bind, when, orReturn, newRequest, doRequest, emit, ret, return_, ParseBodyMeta.
      cbn. rewrite Hnew. cbn. rewrite Hdo. cbn. rewrite Hst. cbn. rewrite Hmeta.
      reflexivity.
    + intros Hst meta Hmeta. apply status_accepted in Hst.
      unfold call, ReadDocument. rewrite (validateKey_nonblank key Hkey).
      unfold bind, when, orReturn, newRequest, doRequest, emit, ret, return_,
        ParseBodyMeta, ParseBody.
      cbn. rewrite Hnew. cbn. rewrite Hdo. cbn. rewrite Hst. cbn. rewrite Hmeta. cbn.
      destruct (isNil result); cbn; [reflexivity|].
      destruct (bodyField resp ""); reflexivity.
Qed.

(** [parseResponseArray] as a statement of a caller, on any log. *)
Lemma parseResponseArray_run (resp : Response) (count : nat) (cs : contextSettings)
    (resps : list Response) (log : list event) :
  arrayBody resp = inl resps ->
  count <= length resps ->
  destFits (ReturnOld cs) count ->
  destFits (ReturnNew cs) count ->
  exists metas errs log',
    parseResponseArray resp count cs log = (Return (Some metas, Some errs, None), log') /\
    length metas = count /\
    length errs = count /\
    (forall i r, i < count -> resps !! i = Some r ->
       metas !! i = Some (default zeroMeta (itemStored r)) /\
       errs !! i = Some (itemFailure cs r)).
Proof.
  intros Harr Hcount Hold Hnew.
  unfold parseResponseArray, ParseArrayBody.
  unfold bind at 1. unfold bind at 1. unfold bind at 1. unfold emit, ret.
  rewrite Harr. cbn [orReturn ret].
  unfold bind at 1.
  destruct (parseResponseItems_spec (R:=batch) resps cs count 0
              (replicate count zeroMeta) (replicate count None) (log ++ [EvParseArrayBody]))
    as (metas & errs & log' & Hrun & Hlm & Hle & _ & Hin);
    rewrite ?length_replicate; try lia; try assumption.
  unfold batch in Hrun. rewrite Hrun. clear Hrun.
  rewrite length_replicate in Hlm. rewrite length_replicate in Hle.
  exists metas, errs, log'. unfold return_. cbn [fst snd].
  split; [reflexivity|]. split; [exact Hlm|]. split; [exact Hle|].
  intros i r Hi Hr. destruct (Hin i r) as [H1 H2]; [lia | exact Hr |].
  rewrite H1, H2, !lookup_replicate_2 by lia.
  split; [destruct (itemStored r) | destruct (itemFailure cs r)]; reflexivity.
Qed.

(** X13.  A batched operation on [n] items that is answered with the
    accepted status, the silent option not set, and whose response array
    decodes into at least [n] items returns [n] metadata, [n] errors and no
    error of its own, whatever the items say: position [i] holds the
    metadata stored and the error recorded for item [i].  When the
    response array does not decode, it returns that error and nil
    slices. *)
Theorem batch_returns_one_result_per_item (c : collection) (ctx : option GoContext)
    (cs : contextSettings) (req : Request) (resp : Response) (b : batchOp) (n : nat) :
  batchValid b n ->
  preparedBatch c ctx b cs req ->
  fst (connDo (conn c) ctx req) = inl resp ->
  StatusCode resp = okStatus cs 201 202 ->
  Silent cs = false ->
  (forall err, arrayBody resp = inr err ->
     runBatch c ctx b =
       (Done (None, None, Some (WithStack (WithStack err))),
        [EvNewRequest (batchMethod b) (relPath c "document"); EvDo req; EvParseArrayBody])) /\
  (forall resps,
     arrayBody resp = inl resps ->
     n <= length resps ->
     destFits (ReturnOld cs) n ->
     destFits (ReturnNew cs) n ->
     exists metas errs log,
       runBatch c ctx b = (Done (Some metas, Some errs, None), log) /\
       length metas = n /\
       length errs = n /\
       (forall i r, i < n -> resps !! i = Some r ->
          metas !! i = Some (default zeroMeta (itemStored r)) /\
          errs !! i = Some (itemFailure cs r))).
Proof.
  intros Hvalid Hprep Hdo Hst Hsilent.
  assert (Hreach : forall k : nat -> Op batch batch,
            exists log0,
              log0 = [EvNewRequest (batchMethod b) (relPath c "document"); EvDo req] /\
              runBatch c ctx b =
                match
                  bind (subcall (parseResponseArray resp n cs))
                    (fun parsed =>
                       let '(metas, errs, err) := parsed in
                       bind (failWith err (fun err => (None, None, Some (WithStack err))))
                         (fun _ => return_ (metas, errs, None))) log0
                with
                | (Next r, log) | (Return r, log) => (Done r, log)
                | (Panic, log) => (Panicked, log)
                end).
  { intros _. eexists. split; [reflexivity|].
    destruct b as [documents | keys updates];
      unfold preparedBatch in Hprep; cbn [batchValid batchMethod runBatch] in *.
    - destruct Hprep as (req0 & Hnew & req1 & Hbody & Hcs).
      unfold call, CreateDocuments.
      unfold bind at 1. rewrite Hvalid. cbn [ret].
      unfold bind at 1. unfold bind at 1. unfold newRequest, bind at 1, emit, ret.
      rewrite Hnew. cbn [orReturn ret].
      unfold bind at 1. rewrite Hbody. cbn [orReturn ret]. rewrite Hcs.
      unfold bind at 1. unfold bind at 1. unfold doRequest, bind at 1, emit, ret.
      rewrite Hdo. cbn [orReturn ret].
      unfold bind at 1. rewrite Hst, Z.eqb_refl. cbn [negb when ret].
      unfold bind at 1. rewrite Hsilent. cbn [when ret]. reflexivity.
    - destruct Hvalid as (Hn & Hlen & Hkeys).
      destruct Hprep as (req0 & Hnew & req1 & mergeArray & Hcs & Hmerge & Hbody).
      unfold call, UpdateDocuments.
      unfold bind at 1. rewrite Hn. cbn [ret].
      unfold bind at 1. rewrite Hlen, Nat.eqb_refl. cbn [negb when ret].
      unfold bind at 1. rewrite (validateKeys_nonblank _ _ _ Hkeys).
      unfold bind at 1. unfold bind at 1. unfold newRequest, bind at 1, emit, ret.
      rewrite Hnew. cbn [orReturn ret]. rewrite Hcs.
      unfold bind at 1. rewrite Hmerge. unfold bind at 1. cbn [failWith ret].
      unfold bind at 1. rewrite Hbody. cbn [orReturn ret].
      unfold bind at 1. unfold bind at 1. unfold doRequest, bind at 1, emit, ret.
      rewrite Hdo. cbn [orReturn ret].
      unfold bind at 1. rewrite Hst, Z.eqb_refl. cbn [negb when ret].
      unfold bind at 1. rewrite Hsilent. cbn [when ret]. reflexivity. }
  destruct (Hreach (fun _ => ret (None, None, None))) as (log0 & Hlog0 & Hrun).
  split.
  - intros err Harr. rewrite Hrun, Hlog0.
    unfold bind, subcall, parseResponseArray, ParseArrayBody, bind, emit, ret, orReturn.
    rewrite Harr. reflexivity.
  - intros resps Harr Hn Hold Hnew.
    destruct (parseResponseArray_run resp n cs resps log0 Harr Hn Hold Hnew)
      as (metas & errs & log' & Hparse & Hrest).
    exists metas, errs, log'. split; [|exact Hrest].
    rewrite Hrun. unfold bind at 1. unfold subcall. rewrite Hparse. reflexivity.
Qed.

(** X14.  A batched update whose keys pass the checks but whose expected
    revisions do not number the keys fails with an InvalidArgument error
    and nil slices; by then the request has been built, and it is never
    sent. *)
Theorem UpdateDocuments_needs_a_revision_per_key
    (c : collection) (ctx : option GoContext) (keys revs : list string) (updates : iface)
    (req0 req1 : Request) (cs : contextSettings) :
  seqLen updates = Some (length keys) ->
  "" ∉ keys ->
  connNewRequest (conn c) "PATCH" (relPath c "document") = inl req0 ->
  applyContextSettings ctx req0 = (cs, req1) ->
  Revisions cs = Some revs ->
  length revs <> length keys ->
  exists err,
    call (UpdateDocuments c ctx (Some keys) updates) =
      (Done (None, None, Some err), [EvNewRequest "PATCH" (relPath c "document")]) /\
    isInvalidArgument err.
Proof.
  intros Hn Hkeys Hnew Hcs Hrevs Hlen.
  unfold call, UpdateDocuments.
  unfold bind at 1. rewrite Hn. cbn [ret].
  unfold bind at 1. cbn [default]. rewrite Nat.eqb_refl. cbn [negb when ret].
  unfold bind at 1. rewrite (validateKeys_nonblank _ _ _ Hkeys).
  unfold bind at 1. unfold bind at 1. unfold newRequest, bind at 1, emit, ret.
  rewrite Hnew. cbn [orReturn ret]. rewrite Hcs.
  unfold bind at 1. unfold createMergeArray. rewrite Hrevs.
  destruct (Nat.eqb_spec (length keys) (length revs)) as [E|_]; [congruence|].
  cbn. eexists. split; [reflexivity|]. do 3 constructor.
Qed.

(** X15.  An empty batch is sent like any other; answered with the accepted
    status, the silent option not set, it returns empty slices that are
    not nil and no error, whatever the response array holds and whatever
    the return-old and return-new destinations are. *)
Theorem empty_batch_is_sent (c : collection) (ctx : option GoContext)
    (cs : contextSettings) (req : Request) (resp : Response) (b : batchOp)
    (resps : list Response) :
  batchValid b 0 ->
  preparedBatch c ctx b cs req ->
  fst (connDo (conn c) ctx req) = inl resp ->
  StatusCode resp = okStatus cs 201 202 ->
  Silent cs = false ->
  arrayBody resp = inl resps ->
  runBatch c ctx b =
    (Done (Some [], Some [], None),
     [EvNewRequest (batchMethod b) (relPath c "document"); EvDo req; EvParseArrayBody]).
Proof.
  intros Hvalid Hprep Hdo Hst Hsilent Harr.
  destruct b as [documents | keys updates];
    unfold preparedBatch in Hprep; cbn [batchValid batchMethod runBatch] in *.
  - destruct Hprep as (req0 & Hnew & req1 & Hbody & Hcs).
    unfold call, CreateDocuments, subcall, parseResponseArray. run_op. reflexivity.
  - destruct Hvalid as (Hn & Hlen & Hkeys).
    destruct Hprep as (req0 & Hnew & req1 & mergeArray & Hcs & Hmerge & Hbody).
    unfold call, UpdateDocuments. unfold bind at 1. rewrite Hn. cbn [ret].
    unfold bind at 1. rewrite Hlen, Nat.eqb_refl. cbn [negb when ret].
    unfold bind at 1. rewrite (validateKeys_nonblank _ _ _ Hkeys).
    unfold subcall, parseResponseArray. run_op. reflexivity.
Qed.

(** X16.  A request that cannot be built is never sent: when
    [NewRequest], [SetBody] or [SetBodyArray] fails, the read and every
    mutation, singular or batched, return that error with a stack attached
    and zero-value results, having called [NewRequest] once and [Do] not
    at all. *)
Theorem unbuilt_request_is_never_sent (c : collection) (ctx : option GoContext)
    (err : error) :
  (forall key result,
     key <> "" ->
     connNewRequest (conn c) "GET" (path_Join [relPath c "document"; key]) = inr err ->
     call (ReadDocument c ctx key result) =
       (Done (zeroMeta, Some (WithStack err)),
        [EvNewRequest "GET" (path_Join [relPath c "document"; key])])) /\
  (forall m,
     mutationValid m ->
     connNewRequest (conn c) (mutationMethod m) (mutationPath c m) = inr err ->
     runMutation c ctx m =
       (Done (zeroMeta, Some (WithStack err)),
        [EvNewRequest (mutationMethod m) (mutationPath c m)])) /\
  (forall m req0 body,
     mutationValid m ->
     connNewRequest (conn c) (mutationMethod m) (mutationPath c m) = inl req0 ->
     mutationBody m = Some body ->
     SetBody req0 body = inr err ->
     runMutation c ctx m =
       (Done (zeroMeta, Some (WithStack err)),
        [EvNewRequest (mutationMethod m) (mutationPath c m)])) /\
  (forall b n,
     batchValid b n ->
     connNewRequest (conn c) (batchMethod b) (relPath c "document") = inr err ->
     runBatch c ctx b =
       (Done (None, None, Some (WithStack err)),
        [EvNewRequest (batchMethod b) (relPath c "document")])) /\
  (forall documents n req0,
     seqLen documents = Some n ->
     connNewRequest (conn c) "POST" (relPath c "document") = inl req0 ->
     SetBody req0 documents = inr err ->
     call (CreateDocuments c ctx documents) =
       (Done (None, None, Some (WithStack err)),
        [EvNewRequest "POST" (relPath c "document")])) /\
  (forall keys updates n req0 req1 cs mergeArray,
     batchValid (BUpdate keys updates) n ->
     connNewRequest (conn c) "PATCH" (relPath c "document") = inl req0 ->
     applyContextSettings ctx req0 = (cs, req1) ->
     createMergeArray keys (Revisions cs) = (mergeArray, None) ->
     SetBodyArray req1 updates mergeArray = inr err ->
     call (UpdateDocuments c ctx keys updates) =
       (Done (None, None, Some (WithStack err)),
        [EvNewRequest "PATCH" (relPath c "document")])).
Proof.
  repeat apply conj.
  - intros key result Hkey Hnew.
    unfold call, ReadDocument. rewrite (validateKey_nonblank key Hkey). run_op. reflexivity.
  - intros m Hvalid Hnew.
    destruct m as [document | key update | key document | key];
      cbn [mutationValid mutationMethod mutationPath runMutation] in *.
    + unfold call, CreateDocument. run_op. reflexivity.
    + destruct Hvalid as [Hkey Hvalid].
      unfold call, UpdateDocument. rewrite (validateKey_nonblank key Hkey). run_op. reflexivity.
    + destruct Hvalid as [Hkey Hvalid].
      unfold call, ReplaceDocument. rewrite (validateKey_nonblank key Hkey). run_op. reflexivity.
    + unfold call, RemoveDocument. rewrite (validateKey_nonblank key Hvalid). run_op. reflexivity.
  - intros m req0 body Hvalid Hnew Hm Hbody.
    destruct m as [document | key update | key document | key];
      cbn [mutationValid mutationMethod mutationPath mutationBody runMutation] in *;
      [ | | | discriminate Hm ]; injection Hm as ->.
    + unfold call, CreateDocument. run_op. reflexivity.
    + destruct Hvalid as [Hkey Hvalid].
      unfold call, UpdateDocument. rewrite (validateKey_nonblank key Hkey). run_op. reflexivity.
    + destruct Hvalid as [Hkey Hvalid].
      unfold call, ReplaceDocument. rewrite (validateKey_nonblank key Hkey). run_op. reflexivity.
  - intros b n Hvalid Hnew.
    destruct b as [documents | keys updates]; cbn [batchValid batchMethod runBatch] in *.
    + unfold call, CreateDocuments. run_op. reflexivity.
    + destruct Hvalid as (Hn & Hlen & Hkeys).
      unfold call, UpdateDocuments. unfold bind at 1. rewrite Hn. cbn [ret].
      unfold bind at 1. rewrite Hlen, Nat.eqb_refl. cbn [negb when ret].
      unfold bind at 1. rewrite (validateKeys_nonblank _ _ _ Hkeys).
      run_op. reflexivity.
  - intros documents n req0 Hn Hnew Hbody.
    unfold call, CreateDocuments. run_op. reflexivity.
  - intros keys updates n req0 req1 cs mergeArray (Hn & Hlen & Hkeys) Hnew Hcs Hmerge Hbody.
    unfold call, UpdateDocuments. unfold bind at 1. rewrite Hn. cbn [ret].
    unfold bind at 1. rewrite Hlen, Nat.eqb_refl. cbn [negb when ret].
    unfold bind at 1. rewrite (validateKeys_nonblank _ _ _ Hkeys).
    run_op. reflexivity.
Qed.

End DocumentsInUse.

(** * Properties of databases and collections *)

Section CatalogInUse.
Context {CP : ContextPkg} {EP : ErrorPkg} {RP : RequestPkg} {KP : CatalogPkg}.

Lemma newCollection_named (n : string) (d : database) :
  n <> "" ->
  newCollection n (Some d) = inl {| name := n; db := d; conn := db_conn d |}.
Proof.
  intros Hn. unfold newCollection. destruct (decide (n = "")); [contradiction | reflexivity].
Qed.

Lemma newCollection_unnamed (d : option database) :
  newCollection "" d = inr (WithStack (InvalidArgumentError "name is empty")).
Proof. reflexivity. Qed.

(** The loop of [Collections]: it appends one collection per name, in
    order, and stops at the first empty name. *)
Lemma collectionsOf_spec {R} (d : database) (f : error -> R) (infos : list CollectionInfo) :
  forall (result : list collection) (log : list event),
    (Forall (fun info => info_Name info <> "") infos ->
     collectionsOf d infos result f log =
       (Next (result ++
              map (fun info => {| name := info_Name info; db := d; conn := db_conn d |}) infos),
        log)) /\
    (Exists (fun info => info_Name info = "") infos ->
     collectionsOf d infos result f log =
       (Return (f (WithStack (InvalidArgumentError "name is empty"))), log)).
Proof.
  induction infos as [|info infos IH]; intros result log; split.
  - intros _. cbn. unfold ret. rewrite app_nil_r. reflexivity.
  - intros H. inversion H.
  - intros H. inversion H as [|? ? Hn Hrest]; subst.
    cbn [collectionsOf]. unfold bind. rewrite (newCollection_named _ d Hn).
    cbn [orReturn ret]. destruct (IH (result ++ [{| name := info_Name info; db := d; conn := db_conn d |}]) log) as [IH1 _].
    rewrite (IH1 Hrest). rewrite <- app_assoc. reflexivity.
  - intros H. cbn [collectionsOf]. unfold bind.
    destruct (decide (info_Name info = "")) as [E|Hn].
    + rewrite E, newCollection_unnamed. reflexivity.
    + rewrite (newCollection_named _ d Hn). cbn [orReturn ret].
      inversion H as [? ? E|? ? Hrest]; subst; [contradiction|].
      destruct (IH (result ++ [{| name := info_Name info; db := d; conn := db_conn d |}]) log) as [_ IH2].
      exact (IH2 Hrest).
Qed.

(** X17.  [Remove] always returns.  It returns nil exactly when the
    DELETE request for the collection could be built, was answered, and
    the answer has status 200; it never reads the body of the answer. *)
Theorem Remove_succeeds_on_status_200_only (c : collection) (ctx : option GoContext) :
  exists (r : option error) (log : list event),
    call (Remove c ctx) = (Done r, log) /\
    (r = None <->
     exists req resp,
       connNewRequest (conn c) "DELETE" (relPath c "collection") = inl req /\
       fst (connDo (conn c) ctx req) = inl resp /\
       StatusCode resp = 200%Z) /\
    (forall e, e ∈ log ->
       e = EvNewRequest "DELETE" (relPath c "collection") \/ exists req, e = EvDo req).
Proof.
  unfold call, Remove, bind, newRequest, doRequest, emit, ret, bind, CheckStatus.
  cbn [app].
  destruct (connNewRequest (conn c) "DELETE" (relPath c "collection")) as [req|err] eqn:Hnew;
    cbn [orReturn ret return_].
  2:{ do 2 eexists. split; [reflexivity|]. split.
      - split; [discriminate|]. intros (req & resp & H & _). discriminate.
      - intros e He. apply list_elem_of_singleton in He. left. exact He. }
  destruct (fst (connDo (conn c) ctx req)) as [resp|err] eqn:Hdo; cbn [orReturn ret return_].
  2:{ do 2 eexists. split; [reflexivity|]. split.
      - split; [discriminate|]. intros (req' & resp & H & Hdo' & _).
        injection H as <-. rewrite Hdo in Hdo'. discriminate.
      - intros e He. apply elem_of_cons in He as [He|He]; [left; exact He|].
        apply list_elem_of_singleton in He. right. eexists. exact He. }
  assert (Hlog : forall e, e ∈ [EvNewRequest "DELETE" (relPath c "collection"); EvDo req] ->
            e = EvNewRequest "DELETE" (relPath c "collection") \/ exists req, e = EvDo req).
  { intros e He. apply elem_of_cons in He as [He|He]; [left; exact He|].
    apply list_elem_of_singleton in He. right. eexists. exact He. }
  cbn [existsb]. rewrite orb_false_r.
  destruct (Z.eqb_spec (StatusCode resp) 200) as [Hst|Hst]; cbn [failWith ret return_].
  - do 2 eexists. split; [reflexivity|]. split; [|exact Hlog].
    split; [|reflexivity]. intros _. exists req, resp. auto.
  - do 2 eexists. split; [reflexivity|]. split; [|exact Hlog].
    split; [discriminate|]. intros (req' & resp' & H & Hdo' & Hst').
    injection H as <-. rewrite Hdo in Hdo'. injection Hdo' as <-. contradiction.
Qed.

(** X18.  A database made by [newDatabase] and a collection opened in it
    by [Collection]: when the server answers the lookup with status 200,
    the collection carries the name asked for and the connection of the
    database, its paths lie under [_db/<database>/_api], and [Remove] sends
    its DELETE request over the connection given to [newDatabase]. *)
Theorem Collection_opens_under_the_database
    (dbname : string) (cn : Connection) (d : database) (ctx : option GoContext)
    (n : string) (req : Request) (resp : Response) :
  newDatabase dbname (Some cn) = inl d ->
  n <> "" ->
  connNewRequest cn "GET" (path_Join [path_Join ["_db"; dbname]; "_api/collection"; n])
    = inl req ->
  fst (connDo cn ctx req) = inl resp ->
  StatusCode resp = 200%Z ->
  exists coll,
    call (Collection d ctx n) =
      (Done (Some coll, None),
       [EvNewRequest "GET" (path_Join [path_Join ["_db"; dbname]; "_api/collection"; n]);
        EvDo req]) /\
    collection_Name coll = n /\
    database_Name (db coll) = dbname /\
    (forall apiName,
       relPath coll apiName = path_Join [path_Join ["_db"; dbname]; "_api"; apiName; n]) /\
    (forall ctx' req',
       connNewRequest cn "DELETE" (path_Join [path_Join ["_db"; dbname]; "_api"; "collection"; n])
         = inl req' ->
       exists r,
         call (Remove coll ctx') =
           (Done r,
            [EvNewRequest "DELETE"
               (path_Join [path_Join ["_db"; dbname]; "_api"; "collection"; n]);
             EvDo req']) /\
         (r = None <->
          exists resp', fst (connDo cn ctx' req') = inl resp' /\ StatusCode resp' = 200%Z)).
Proof.
  intros Hdb Hn Hnew Hdo Hst.
  unfold newDatabase in Hdb. destruct (decide (dbname = "")); [discriminate|].
  injection Hdb as <-.
  exists {| name := n; db := {| db_name := dbname; db_conn := cn |}; conn := cn |}.
  split; [|split; [reflexivity|split; [reflexivity|split; [reflexivity|]]]].
  - unfold call, Collection, bind, newRequest, doRequest, emit, ret, bind, CheckStatus,
      db_relPath.
    cbn [db_name db_conn app]. rewrite Hnew. cbn [orReturn ret]. rewrite Hdo.
    cbn [orReturn ret existsb]. rewrite Hst. cbn [Z.eqb Pos.eqb orb failWith ret].
    rewrite (newCollection_named n _ Hn). reflexivity.
  - intros ctx' req' Hnew'.
    unfold call, Remove, bind, newRequest, doRequest, emit, ret, bind, CheckStatus,
      relPath, db_relPath.
    cbn [name db conn db_name db_conn app]. rewrite Hnew'. cbn [orReturn ret].
    destruct (fst (connDo cn ctx' req')) as [resp'|err]; cbn [orReturn ret return_].
    2:{ eexists. split; [reflexivity|]. split; [discriminate|].
        intros (resp' & H & _). discriminate. }
    cbn [existsb]. rewrite orb_false_r.
    destruct (Z.eqb_spec (StatusCode resp') 200) as [Hst'|Hst']; cbn [failWith ret return_].
    + eexists. split; [reflexivity|]. split; [|reflexivity]. intros _. exists resp'. auto.
    + eexists. split; [reflexivity|]. split; [discriminate|].
      intros (resp'' & H & Hst''). injection H as <-. contradiction.
Qed.

(** X19.  [CollectionExists] always returns, and never both true and an
    error.  It reports true exactly when the lookup could be built, was
    answered, and the answer has status 200; a rejected status whose error
    classifies as not found gives false without an error, any other
    rejected status gives false with that error. *)
Theorem CollectionExists_outcomes (d : database) (ctx : option GoContext) (n : string) :
  exists (b : bool) (e : option error) (log : list event),
    call (CollectionExists d ctx n) = (Done (b, e), log) /\
    (b = true <->
     exists req resp,
       connNewRequest (db_conn d) "GET" (path_Join [db_relPath d; "_api/collection"; n])
         = inl req /\
       fst (connDo (db_conn d) ctx req) = inl resp /\
       StatusCode resp = 200%Z) /\
    (b = true -> e = None) /\
    (forall req resp,
       connNewRequest (db_conn d) "GET" (path_Join [db_relPath d; "_api/collection"; n])
         = inl req ->
       fst (connDo (db_conn d) ctx req) = inl resp ->
       StatusCode resp <> 200%Z ->
       e = if IsNotFound (errorResponse resp) then None
           else Some (WithStack (errorResponse resp))).
Proof.
  unfold call, CollectionExists, bind, newRequest, doRequest, emit, ret, bind, CheckStatus.
  cbn [app].
  destruct (connNewRequest (db_conn d) "GET" (path_Join [db_relPath d; "_api/collection"; n]))
    as [req|err] eqn:Hnew; cbn [orReturn ret return_].
  2:{ do 3 eexists. split; [reflexivity|]. split; [|split].
      - split; [discriminate|]. intros (req & resp & H & _). discriminate.
      - discriminate.
      - intros req resp H. discriminate. }
  destruct (fst (connDo (db_conn d) ctx req)) as [resp|err] eqn:Hdo; cbn [orReturn ret return_].
  2:{ do 3 eexists. split; [reflexivity|]. split; [|split].
      - split; [discriminate|]. intros (req' & resp & H & Hdo' & _).
        injection H as <-. rewrite Hdo in Hdo'. discriminate.
      - discriminate.
      - intros req' resp H Hdo'. injection H as <-. rewrite Hdo in Hdo'. discriminate. }
  cbn [existsb]. rewrite orb_false_r.
  destruct (Z.eqb_spec (StatusCode resp) 200) as [Hst|Hst].
  - do 3 eexists. split; [reflexivity|]. split; [|split].
    + split; [|reflexivity]. intros _. exists req, resp. auto.
    + reflexivity.
    + intros req' resp' H Hdo' Hst'. injection H as <-. rewrite Hdo in Hdo'.
      injection Hdo' as <-. contradiction.
  - destruct (IsNotFound (errorResponse resp)) eqn:Hnf.
    + do 3 eexists. split; [reflexivity|]. split; [|split].
      * split; [discriminate|]. intros (req' & resp' & H & Hdo' & Hst').
        injection H as <-. rewrite Hdo in Hdo'. injection Hdo' as <-. contradiction.
      * discriminate.
      * intros req' resp' H Hdo' _. injection H as <-. rewrite Hdo in Hdo'.
        injection Hdo' as <-. rewrite Hnf. reflexivity.
    + do 3 eexists. split; [reflexivity|]. split; [|split].
      * split; [discriminate|]. intros (req' & resp' & H & Hdo' & Hst').
        injection H as <-. rewrite Hdo in Hdo'. injection Hdo' as <-. contradiction.
      * discriminate.
      * intros req' resp' H Hdo' _. injection H as <-. rewrite Hdo in Hdo'.
        injection Hdo' as <-. rewrite Hnf. reflexivity.
Qed.

(** X20.  For a name that is not empty, [CollectionExists] reports true
    without an error exactly when [Collection] opens the collection.  For
    the empty name they part: answered with status 200, [CollectionExists]
    reports true while [Collection], after the same request, fails with an
    InvalidArgument error. *)
Theorem CollectionExists_and_Collection (d : database) (ctx : option GoContext) :
  (forall n, n <> "" ->
     (fst (call (CollectionExists d ctx n)) = Done (true, None) <->
      exists coll, fst (call (Collection d ctx n)) = Done (Some coll, None))) /\
  (forall req resp,
     connNewRequest (db_conn d) "GET" (path_Join [db_relPath d; "_api/collection"; ""])
       = inl req ->
     fst (connDo (db_conn d) ctx req) = inl resp ->
     StatusCode resp = 200%Z ->
     exists log err,
       call (CollectionExists d ctx "") = (Done (true, None), log) /\
       call (Collection d ctx "") = (Done (None, Some err), log) /\
       isInvalidArgument err).
Proof.
  split.
  - intros n Hn.
    unfold call, CollectionExists, Collection, bind, newRequest, doRequest, emit, ret, bind,
      CheckStatus.
    cbn [app].
    destruct (connNewRequest (db_conn d) "GET" (path_Join [db_relPath d; "_api/collection"; n]))
      as [req|err]; cbn [orReturn ret return_ fst].
    2:{ split; [discriminate|]. intros (coll & H). discriminate. }
    destruct (fst (connDo (db_conn d) ctx req)) as [resp|err]; cbn [orReturn ret return_ fst].
    2:{ split; [discriminate|]. intros (coll & H). discriminate. }
    cbn [existsb]. rewrite orb_false_r.
    destruct (Z.eqb_spec (StatusCode resp) 200) as [Hst|Hst]; cbn [failWith ret return_ fst].
    + rewrite (newCollection_named n d Hn). cbn [orReturn ret return_ fst].
      split; [|reflexivity]. intros _. eexists. reflexivity.
    + split.
      * destruct (IsNotFound (errorResponse resp)); discriminate.
      * intros (coll & H). discriminate.
  - intros req resp Hnew Hdo Hst.
    unfold call, CollectionExists, Collection, bind, newRequest, doRequest, emit, ret, bind,
      CheckStatus.
    cbn [app]. rewrite Hnew. cbn [orReturn ret]. rewrite Hdo. cbn [orReturn ret existsb].
    rewrite Hst. cbn [Z.eqb Pos.eqb orb failWith ret return_].
    do 2 eexists. split; [reflexivity|]. split; [reflexivity|].
    do 3 constructor.
Qed.

(** X21.  [Collections], answered with status 200 and a list that
    decodes: when no name in the list is empty it returns one collection
    per entry, in the order of the list, each with its entry's name, in
    this database and on its connection; when a name is empty the whole
    call fails with an InvalidArgument error and returns no collection. *)
Theorem Collections_lists_in_order (d : database) (ctx : option GoContext)
    (req : Request) (resp : Response) (infos : list CollectionInfo) :
  connNewRequest (db_conn d) "GET" (path_Join [db_relPath d; "_api/collection"]) = inl req ->
  fst (connDo (db_conn d) ctx req) = inl resp ->
  StatusCode resp = 200%Z ->
  bodyCollections resp = inl infos ->
  (Forall (fun info => info_Name info <> "") infos ->
   exists colls,
     call (Collections d ctx) =
       (Done (Some colls, None),
        [EvNewRequest "GET" (path_Join [db_relPath d; "_api/collection"]); EvDo req;
         EvParseBody ""]) /\
     map collection_Name colls = map info_Name infos /\
     Forall (fun c => db c = d /\ conn c = db_conn d) colls) /\
  (Exists (fun info => info_Name info = "") infos ->
   exists err,
     call (Collections d ctx) =
       (Done (None, Some err),
        [EvNewRequest "GET" (path_Join [db_relPath d; "_api/collection"]); EvDo req;
         EvParseBody ""]) /\
     isInvalidArgument err).
Proof.
  intros Hnew Hdo Hst Hbody.
  assert (Hrun : forall log0,
            log0 = [EvNewRequest "GET" (path_Join [db_relPath d; "_api/collection"]); EvDo req;
                    EvParseBody ""] ->
            call (Collections d ctx) =
              match
                bind (collectionsOf d infos [] (fun err => (None, Some (WithStack err))))
                  (fun result => return_ (Some result, None)) log0
              with
              | (Next r, log) | (Return r, log) => (Done r, log)
              | (Panic, log) => (Panicked, log)
              end).
  { intros log0 ->.
    unfold call, Collections.
    unfold bind at 1. unfold bind at 1. unfold newRequest, bind at 1, emit, ret.
    rewrite Hnew. cbn [orReturn ret app].
    unfold bind at 1. unfold bind at 1. unfold doRequest, bind at 1, emit, ret.
    rewrite Hdo. cbn [orReturn ret app].
    unfold bind at 1. unfold CheckStatus. cbn [existsb]. rewrite Hst.
    cbn [Z.eqb Pos.eqb orb failWith ret].
    unfold bind at 1. unfold bind at 1. unfold emit. rewrite Hbody. cbn [orReturn ret app].
    reflexivity. }
  split.
  - intros Hall.
    destruct (collectionsOf_spec d (fun err => (@None (list collection), Some (WithStack err)))
                infos []
                [EvNewRequest "GET" (path_Join [db_relPath d; "_api/collection"]); EvDo req;
                 EvParseBody ""]) as [Hok _].
    eexists. split; [|split].
    + rewrite (Hrun _ eq_refl). unfold bind. rewrite (Hok Hall). reflexivity.
    + cbn [app]. rewrite map_map. reflexivity.
    + cbn [app]. apply List.Forall_map. apply List.Forall_forall. intros; split; reflexivity.
  - intros Hsome.
    destruct (collectionsOf_spec d (fun err => (@None (list collection), Some (WithStack err)))
                infos []
                [EvNewRequest "GET" (path_Join [db_relPath d; "_api/collection"]); EvDo req;
                 EvParseBody ""]) as [_ Hko].
    eexists. split.
    + rewrite (Hrun _ eq_refl). unfold bind. rewrite (Hko Hsome). reflexivity.
    + do 3 constructor.
Qed.

End CatalogInUse.

(** * The embedding at work: concrete calls *)

Section Samples.
#[local] Existing Instance sampleContexts.
#[local] Existing Instance sampleErrors.
#[local] Existing Instance sampleRequests.

(** ** The failover connection *)

(** Three endpoints that cannot be reached, the cursor on the second: the
    cursor ends on the first, two steps on. *)
Lemma Do_fails_over_every_endpoint_witness :
  exists r earlier last err,
    Do 0 (samplePool [unreachable "a"; unreachable "b"; unreachable "c"] 1) None sampleGet
      = Done r /\
    map at_server (dr_attempts r) = map (fun j => (1 + j) mod 3) (seq 0 3) /\
    NoDup (map at_server (dr_attempts r)) /\
    Forall (fun a => retryable a = true) (dr_attempts r) /\
    servers (dr_conn r) = [unreachable "a"; unreachable "b"; unreachable "c"] /\
    current (dr_conn r) = (1 + (3 - 1)) mod 3 /\
    dr_attempts r = earlier ++ [last] /\
    at_result last = inr err /\
    dr_resp r = None /\
    dr_err r = Some (WithStack err).
Proof.
  apply (Do_fails_over_every_endpoint 0
           (samplePool [unreachable "a"; unreachable "b"; unreachable "c"] 1) None sampleGet).
  - simpl. lia.
  - reflexivity.
  - intros s rq Hs Hrq. apply list_elem_of_In in Hs. simpl in Hs.
    destruct Hs as [<-|[<-|[<-|[]]]]; eexists _, _;
      (split; [reflexivity | split; [reflexivity | exact Hrq]]).
Defined.

(** C1, as stated, fails on two endpoints that cannot be reached: both
    attempts fail before the request is written and not by cancellation,
    yet the cursor has moved once, not twice; it is left on the second
    endpoint instead of being back on the first. *)
Lemma Do_last_failure_keeps_cursor :
  exists r,
    Do 0 (samplePool [unreachable "a"; unreachable "b"] 0) None sampleGet = Done r /\
    Forall (fun a => retryable a = true) (dr_attempts r) /\
    length (dr_attempts r) = 2 /\
    current (dr_conn r) = 1 /\
    current (dr_conn r) <> (0 + 2) mod 2.
Proof.
  eexists. split; [reflexivity|]. simpl.
  split; [repeat constructor|]. split; [reflexivity|]. split; [reflexivity|]. discriminate.
Qed.



(** A connection reset after the request was written: one attempt, the
    second endpoint is not tried. *)
Lemma Do_written_failure_is_final_witness :
  exists r,
    Do 0 (samplePool [failingAfterWrite (ErrNetwork "reset"); unreachable "b"] 0)
       None sampleGet = Done r /\
    length (dr_attempts r) = 1 /\
    current (dr_conn r) = 0 /\
    dr_err r = Some (ErrStack (ErrResponse (ErrNetwork "reset"))).
Proof.
  eexists. split.
  - apply (proj1 (Do_written_failure_is_final 0
             (samplePool [failingAfterWrite (ErrNetwork "reset"); unreachable "b"] 0)
             None sampleGet)
             (failingAfterWrite (ErrNetwork "reset")) (ErrNetwork "reset")
             (markWritten sampleGet));
      reflexivity.
  - split; [reflexivity|]. split; reflexivity.
Defined.

(** C3, as stated, fails when the caller cancels after the request was
    written: the attempt fails after the request was written, the error is
    no Arango error, and it is returned as it is, not wrapped in a
    [ResponseError]. *)
Lemma Do_returns_late_cancellation_unwrapped :
  exists r a,
    Do 0 (samplePool [failingAfterWrite ErrCanceled; unreachable "b"] 0) None sampleGet
      = Done r /\
    dr_attempts r = [a] /\
    at_result a = inr ErrCanceled /\
    at_written a = true /\
    IsArangoError ErrCanceled = false /\
    dr_err r = Some (WithStack ErrCanceled) /\
    dr_err r <> Some (WithStack (ResponseError ErrCanceled)).
Proof.
  eexists _, _. split; [reflexivity|]. simpl.
  repeat (split; [reflexivity|]). discriminate.
Qed.

(** The caller's deadline passes on the first endpoint: one attempt, the
    second endpoint is not tried. *)
Lemma Do_cancellation_is_final_witness :
  exists r,
    Do 0 (samplePool [failingAfterWrite ErrDeadlineExceeded; unreachable "b"] 0)
       None sampleGet = Done r /\
    length (dr_attempts r) = 1 /\
    current (dr_conn r) = 0 /\
    dr_err r = Some (ErrStack ErrDeadlineExceeded).
Proof.
  eexists. split.
  - apply (proj1 (Do_cancellation_is_final 0
             (samplePool [failingAfterWrite ErrDeadlineExceeded; unreachable "b"] 0)
             None sampleGet)
             (failingAfterWrite ErrDeadlineExceeded) ErrDeadlineExceeded
             (markWritten sampleGet));
      reflexivity.
  - split; [reflexivity|]. split; reflexivity.
Defined.

(** The endpoint under the cursor answers: the cursor stays on it. *)
Lemma Do_success_keeps_cursor_witness :
  exists r,
    Do 0 (samplePool [unreachable "a"; answering (arrayResponse 200 [])] 1) None sampleGet
      = Done r /\
    dr_resp r = Some (arrayResponse 200 []) /\
    length (dr_attempts r) = 1 /\
    current (dr_conn r) = 1.
Proof.
  eexists. split.
  - apply (proj1 (Do_success_keeps_cursor 0
             (samplePool [unreachable "a"; answering (arrayResponse 200 [])] 1)
             None sampleGet)
             (answering (arrayResponse 200 [])) (arrayResponse 200 [])
             (markWritten sampleGet));
      reflexivity.
  - split; [reflexivity|]. split; reflexivity.
Defined.

(** With the cursor on the second endpoint, [Do] starts there. *)
Lemma NewRequest_Unmarshal_use_first_server_witness :
  exists r a later,
    Do 0 (samplePool [unreachable "a"; answering (arrayResponse 200 [])] 1) None sampleGet
      = Done r /\
    dr_attempts r = a :: later /\
    at_server a = 1 /\
    at_request a = sampleGet.
Proof.
  eexists.
  destruct (proj2 (proj2 (NewRequest_Unmarshal_use_first_server
              (unreachable "a") [answering (arrayResponse 200 [])] 1 defaultTimeout))
              0%Z None sampleGet _ eq_refl)
    as (a & later & Hatt & Hidx & Hreq & _).
  exists a, later. split; [reflexivity|]. split; [exact Hatt|]. split; [exact Hidx | exact Hreq].
Defined.

(** ** The document operations *)

(** A batch of two: the first item is stored, the second is not found. *)
Lemma parseResponseArray_positions_witness :
  exists metas errs log,
    call (parseResponseArray
            (arrayResponse 202
               [itemResponse 202 (inl (sampleMeta "1")) (fun _ => None);
                itemResponse 404 (inr (ErrNetwork "no metadata")) (fun _ => None)])
            2 noSettings)
      = (Done (Some metas, Some errs, None), log) /\
    metas = [sampleMeta "1"; zeroMeta] /\
    errs = [None; Some (ErrArango 404 1200 "rejected")].
Proof.
  destruct (parseResponseArray_positions
              (arrayResponse 202
                 [itemResponse 202 (inl (sampleMeta "1")) (fun _ => None);
                  itemResponse 404 (inr (ErrNetwork "no metadata")) (fun _ => None)])
              2 noSettings
              [itemResponse 202 (inl (sampleMeta "1")) (fun _ => None);
               itemResponse 404 (inr (ErrNetwork "no metadata")) (fun _ => None)])
    as (metas & errs & log & Hrun & _); [reflexivity | simpl; lia | left; reflexivity
                                         | left; reflexivity |].
  exists metas, errs, log. split; [exact Hrun|].
  vm_compute in Hrun. injection Hrun as <- <- _. split; reflexivity.
Defined.

(** C5, as stated, fails when the old document is asked for and does not
    decode: position 0 holds both the decoded metadata, not the zero
    value, and an error. *)
Lemma parseResponseArray_keeps_meta_next_to_error :
  exists metas errs log meta err,
    call (parseResponseArray
            (arrayResponse 202
               [itemResponse 202 (inl (sampleMeta "1"))
                  (fun field => if String.eqb field "old"
                                then Some (ErrNetwork "cannot decode old") else None)])
            1 returnOldSettings)
      = (Done (Some metas, Some errs, None), log) /\
    length metas = 1 /\ length errs = 1 /\
    errs !! 0 = Some (Some err) /\
    metas !! 0 = Some meta /\
    meta <> zeroMeta.
Proof.
  eexists _, _, _, _, _. split; [reflexivity|].
  repeat (split; [reflexivity|]). discriminate.
Qed.

(** A response array shorter than the batch, or a destination that is no
    slice of the batch's length: reading [resps[i]] or the destination
    element panics. *)
Lemma parseResponseArray_out_of_range_panics :
  fst (call (parseResponseArray (arrayResponse 202 []) 1 noSettings)) = Panicked /\
  fst (call (parseResponseArray
               (arrayResponse 202
                  [itemResponse 202 (inl (sampleMeta "1")) (fun _ => None);
                   itemResponse 202 (inl (sampleMeta "2")) (fun _ => None)])
               2 returnOldSettings)) = Panicked.
Proof. split; reflexivity. Qed.

(** A batch of two, the second item answered with status 412. *)
Lemma parseResponseArray_item_status_witness :
  exists metas errs log,
    call (parseResponseArray
            (arrayResponse 202
               [itemResponse 201 (inl (sampleMeta "1")) (fun _ => None);
                itemResponse 412 (inl (sampleMeta "2")) (fun _ => None)])
            2 noSettings)
      = (Done (Some metas, Some errs, None), log) /\
    metas = [sampleMeta "1"; zeroMeta] /\
    errs = [None; Some (ErrArango 412 1200 "rejected")].
Proof.
  destruct (parseResponseArray_item_status
              (arrayResponse 202
                 [itemResponse 201 (inl (sampleMeta "1")) (fun _ => None);
                  itemResponse 412 (inl (sampleMeta "2")) (fun _ => None)])
              2 noSettings
              [itemResponse 201 (inl (sampleMeta "1")) (fun _ => None);
               itemResponse 412 (inl (sampleMeta "2")) (fun _ => None)])
    as (metas & errs & log & Hrun & _); [reflexivity | simpl; lia | left; reflexivity
                                         | left; reflexivity |].
  exists metas, errs, log. split; [exact Hrun|].
  vm_compute in Hrun. injection Hrun as <- <- _. split; reflexivity.
Defined.

(** C6, as stated, fails on a batched create whose item is answered with
    status 200: 200 is not one of 201 and 202, the set given for Create,
    yet no error is recorded for the item and its metadata is decoded. *)
Lemma CreateDocuments_accepts_item_status_200 :
  exists metas errs log item,
    call (CreateDocuments
            (sampleCollection
               (answering (arrayResponse 202
                  [itemResponse 200 (inl (sampleMeta "1")) (fun _ => None)])))
            None (Slice ["{}"]))
      = (Done (Some metas, Some errs, None), log) /\
    arrayBody (arrayResponse 202 [itemResponse 200 (inl (sampleMeta "1")) (fun _ => None)])
      = inl [item] /\
    StatusCode item = 200%Z /\
    CheckStatus item [201%Z; 202%Z] = Some (errorResponse item) /\
    errs !! 0 = Some None /\
    metas !! 0 = Some (sampleMeta "1").
Proof.
  eexists _, _, _, _. split; [reflexivity|].
  repeat (split; [reflexivity|]). reflexivity.
Qed.

(** Two updates for one key. *)
Lemma invalid_input_fails_before_any_request_witness :
  rejectsBatch
    (call (UpdateDocuments (sampleCollection (unreachable "a")) None
             (Some ["1"]) (Slice ["{}"; "{}"]))) /\
  rejectsSingle
    (call (UpdateDocument (sampleCollection (unreachable "a")) None "" (Obj "{}"))).
Proof.
  destruct (invalid_input_fails_before_any_request (sampleCollection (unreachable "a")) None)
    as (_ & _ & _ & Hupdate & _ & _ & Hcount & _).
  split.
  - apply (Hcount (Some ["1"]) (Slice ["{}"; "{}"]) 2); [reflexivity | simpl; lia].
  - apply Hupdate.
Defined.

(** The six mutations, silent, on an endpoint that accepts them. *)
Lemma silent_mutation_skips_the_body_witness :
  let c := sampleCollection (answering (arrayResponse 202 [])) in
  (exists req, call (CreateDocument c (Some silentContext) (Obj "{}"))
               = (Done (zeroMeta, None),
                  [EvNewRequest "POST" "_db/test/_api/document/books"; EvDo req])) /\
  (exists req, call (UpdateDocument c (Some silentContext) "1" (Obj "{}"))
               = (Done (zeroMeta, None),
                  [EvNewRequest "PATCH" "_db/test/_api/document/books/1"; EvDo req])) /\
  (exists req, call (ReplaceDocument c (Some silentContext) "1" (Obj "{}"))
               = (Done (zeroMeta, None),
                  [EvNewRequest "PUT" "_db/test/_api/document/books/1"; EvDo req])) /\
  (exists req, call (RemoveDocument c (Some silentContext) "1")
               = (Done (zeroMeta, None),
                  [EvNewRequest "DELETE" "_db/test/_api/document/books/1"; EvDo req])) /\
  (exists req, call (CreateDocuments c (Some silentContext) (Slice ["{}"; "{}"]))
               = (Done (None, None, None),
                  [EvNewRequest "POST" "_db/test/_api/document/books"; EvDo req])) /\
  (exists req, call (UpdateDocuments c (Some silentContext) (Some ["1"; "2"])
                       (Slice ["{}"; "{}"]))
               = (Done (None, None, None),
                  [EvNewRequest "PATCH" "_db/test/_api/document/books"; EvDo req])).
Proof.
  intros c.
  destruct (silent_mutation_skips_the_body c (Some silentContext))
    as (Hcreate & Hupdate & Hreplace & Hremove & Hcreates & Hupdates).
  split; [|split; [|split; [|split; [|split]]]]; eexists.
  - eapply Hcreate; reflexivity.
  - eapply Hupdate; [discriminate | reflexivity ..].
  - eapply Hreplace; [discriminate | reflexivity ..].
  - eapply Hremove; [discriminate | reflexivity ..].
  - eapply Hcreates; reflexivity.
  - eapply Hupdates; [reflexivity | | reflexivity ..].
    simpl. intros H. apply list_elem_of_In in H. simpl in H.
    destruct H as [H|[H|[]]]; discriminate.
Defined.

End Samples.

(** * The embedding at work: more concrete calls *)

Section SamplesInUse.
#[local] Existing Instance sampleContexts.
#[local] Existing Instance sampleErrors.
#[local] Existing Instance sampleRequests.
#[local] Existing Instance sampleCatalog.

(** ** The failover connection *)

(** A connection made of two endpoints, after a call that failed over to
    the second. *)
Lemma connection_in_use_stays_usable_witness :
  let srvs := [unreachable "a"; answering (arrayResponse 200 [])] in
  servers (samplePool srvs 1) = srvs /\
  current (samplePool srvs 1) < 2 /\
  exists r, Do 7 (samplePool srvs 1) None sampleGet = Done r.
Proof.
  intros srvs.
  assert (Hnew : inUse {| DefaultTimeout := 0 |} srvs (samplePool srvs 0))
    by (apply inUse_new; reflexivity).
  assert (Hrun : exists r, Do 0 (samplePool srvs 0) None sampleGet = Done r /\
                           dr_conn r = samplePool srvs 1)
    by (eexists; split; reflexivity).
  destruct Hrun as (r & Hr & Hconn).
  pose proof (inUse_Do _ _ _ _ _ _ r Hnew Hr) as Hdo. rewrite Hconn in Hdo.
  destruct (connection_in_use_stays_usable {| DefaultTimeout := 0 |} srvs (samplePool srvs 1) Hdo)
    as (_ & Hsrvs & Hcur & _ & Hnext).
  split; [exact Hsrvs|]. split; [exact Hcur|]. exact (Hnext 7%Z None sampleGet).
Defined.

(** Three endpoints that cannot be reached, the cursor on the second. *)
Lemma Do_never_repeats_an_endpoint_witness :
  exists r,
    Do 0 (samplePool [unreachable "a"; unreachable "b"; unreachable "c"] 1) None sampleGet
      = Done r /\
    map at_server (dr_attempts r) = [1; 2; 0] /\
    NoDup (map at_server (dr_attempts r)).
Proof.
  eexists. split; [reflexivity|]. split; [reflexivity|].
  exact (proj1 (Do_never_repeats_an_endpoint 0
                  (samplePool [unreachable "a"; unreachable "b"; unreachable "c"] 1)
                  None sampleGet _ eq_refl)).
Defined.

(** A call that fails over to the second endpoint, and the next call. *)
Lemma Do_resumes_where_it_stopped_witness :
  exists r r' earlier last first later,
    Do 0 (samplePool [unreachable "a"; answering (arrayResponse 200 [])] 0) None sampleGet
      = Done r /\
    Do 5 (dr_conn r) None sampleGet = Done r' /\
    dr_attempts r = earlier ++ [last] /\
    dr_attempts r' = first :: later /\
    at_server first = at_server last.
Proof.
  eexists _, _.
  destruct (Do_resumes_where_it_stopped 0 5
              (samplePool [unreachable "a"; answering (arrayResponse 200 [])] 0)
              None None sampleGet sampleGet _ _ eq_refl eq_refl)
    as (earlier & last & first & later & H1 & H2 & H3 & _).
  exists earlier, last, first, later.
  split; [reflexivity|]. split; [reflexivity|]. split; [exact H1|]. split; [exact H2 | exact H3].
Defined.

(** Both endpoints fail before the request is written: an error, no
    response. *)
Lemma Do_returns_response_or_error_witness :
  exists r,
    Do 0 (samplePool [unreachable "a"; unreachable "b"] 0) None sampleGet = Done r /\
    ((exists resp, dr_resp r = Some resp /\ dr_err r = None) \/
     (dr_resp r = None /\
      exists a err, a ∈ dr_attempts r /\ at_result a = inr err /\
        (dr_err r = Some (WithStack err) \/
         dr_err r = Some (WithStack (ResponseError err))))).
Proof.
  eexists. split; [reflexivity|].
  exact (Do_returns_response_or_error 0
           (samplePool [unreachable "a"; unreachable "b"] 0) None sampleGet _ eq_refl).
Defined.

(** Three endpoints and the default timeout of one minute. *)
Lemma Do_stays_within_the_timeout_witness :
  exists r,
    Do 0 (samplePool [unreachable "a"; unreachable "b"; unreachable "c"] 0) None sampleGet
      = Done r /\
    (0 <= timeSpent (dr_attempts r) <= 60000000000)%Z.
Proof.
  eexists. split; [reflexivity|].
  apply (Do_stays_within_the_timeout 0
           (samplePool [unreachable "a"; unreachable "b"; unreachable "c"] 0)
           None sampleGet _ eq_refl).
  - simpl. lia.
  - vm_compute. split; discriminate.
Defined.

(** The bound of 2^53 ns is needed.  With a deadline 2^53 + 3 ns away, the
    one attempt on a pool of one gets a timeout of 2^53 + 4 ns; with the
    largest duration as default timeout it gets a negative one. *)
Lemma Do_timeout_beyond_float64_precision :
  (exists r,
     Do 0 (samplePool [unreachable "a"] 0)
        (Some {| sc_deadline := Some (2 ^ 53 + 3)%Z; sc_settings := noSettings;
                 sc_timeouts := [] |})
        sampleGet = Done r /\
     timeSpent (dr_attempts r) = (2 ^ 53 + 4)%Z) /\
  (exists r,
     Do 0 (@Build_clusterConnection sampleContexts sampleErrors sampleRequests
             [unreachable "a"] 0 maxInt64)
        None sampleGet = Done r /\
     timeSpent (dr_attempts r) = minInt64).
Proof. split; eexists; split; reflexivity. Qed.

(** The first endpoint cannot be reached, the second answers. *)
Lemma Do_fails_over_to_the_first_answer_witness :
  exists r,
    Do 0 (samplePool [unreachable "a"; answering (arrayResponse 200 [])] 0) None sampleGet
      = Done r /\
    dr_resp r = Some (arrayResponse 200 []) /\
    dr_err r = None /\
    length (dr_attempts r) = 2 /\
    current (dr_conn r) = 1.
Proof.
  apply (Do_fails_over_to_the_first_answer 0
           (samplePool [unreachable "a"; answering (arrayResponse 200 [])] 0)
           None sampleGet 1 (arrayResponse 200 []) (answering (arrayResponse 200 []))).
  - simpl. lia.
  - simpl. lia.
  - reflexivity.
  - intros j s rq Hj Hs Hw. assert (j = 0) as -> by lia.
    vm_compute in Hs. injection Hs as <-.
    exists (ErrNetwork "a"), rq. split; [reflexivity|]. split; [reflexivity | exact Hw].
  - reflexivity.
  - intros rq _. eexists. reflexivity.
Defined.

(** ** The document operations *)

(** A removal and a batched create on an endpoint that cannot be
    reached. *)
Lemma mutation_returns_the_transport_error_witness :
  call (RemoveDocument (sampleCollection (unreachable "a")) None "1") =
    (Done (zeroMeta, Some (ErrStack (ErrNetwork "a"))),
     [EvNewRequest "DELETE" "_db/test/_api/document/books/1";
      EvDo (sampleRequestOf "DELETE" "_db/test/_api/document/books/1" Nil)]).
Proof.
  apply (proj1 (mutation_returns_the_transport_error
                  (sampleCollection (unreachable "a")) None noSettings
                  (sampleRequestOf "DELETE" "_db/test/_api/document/books/1" Nil)
                  (ErrNetwork "a") eq_refl) (MRemove "1")).
  - simpl. discriminate.
  - eexists. split; reflexivity.
Defined.

(** A removal answered with status 404. *)
Lemma mutation_returns_the_rejected_status_witness :
  call (RemoveDocument (sampleCollection (answering (arrayResponse 404 []))) None "1") =
    (Done (zeroMeta, Some (ErrStack (ErrArango 404 0 "rejected"))),
     [EvNewRequest "DELETE" "_db/test/_api/document/books/1";
      EvDo (sampleRequestOf "DELETE" "_db/test/_api/document/books/1" Nil)]).
Proof.
  apply (proj1 (mutation_returns_the_rejected_status
                  (sampleCollection (answering (arrayResponse 404 []))) None noSettings
                  (sampleRequestOf "DELETE" "_db/test/_api/document/books/1" Nil)
                  (arrayResponse 404 []) eq_refl) (MRemove "1")).
  - simpl. discriminate.
  - eexists. split; reflexivity.
  - vm_compute. discriminate.
Defined.

(** A create answered with status 202 and the metadata of the document. *)
Lemma mutation_returns_the_metadata_witness :
  fst (call (CreateDocument
               (sampleCollection
                  (answering (itemResponse 202 (inl (sampleMeta "1")) (fun _ => None))))
               None (Obj "{}")))
    = Done (sampleMeta "1", None).
Proof.
  refine (proj1 (proj2 (mutation_returns_the_metadata
                   (sampleCollection
                      (answering (itemResponse 202 (inl (sampleMeta "1")) (fun _ => None))))
                   None noSettings
                   (sampleRequestOf "POST" "_db/test/_api/document/books" (Obj "{}"))
                   (itemResponse 202 (inl (sampleMeta "1")) (fun _ => None))
                   (MCreate (Obj "{}")) _ _ eq_refl eq_refl eq_refl)
                 (sampleMeta "1") eq_refl)).
  - reflexivity.
  - eexists. split; [reflexivity|]. eexists. split; reflexivity.
Defined.

(** A read into a destination: the body is parsed twice. *)
Lemma ReadDocument_reads_metadata_then_document_witness :
  call (ReadDocument
          (sampleCollection
             (answering (itemResponse 200 (inl (sampleMeta "1")) (fun _ => None))))
          None "1" (Obj "dst"))
    = (Done (sampleMeta "1", None),
       [EvNewRequest "GET" "_db/test/_api/document/books/1"; EvDo sampleGet;
        EvParseBody ""; EvParseBody ""]).
Proof.
  assert (Hkey : "1" <> "") by discriminate.
  exact (proj2 (proj2 (proj2 (ReadDocument_reads_metadata_then_document
                   (sampleCollection
                      (answering (itemResponse 200 (inl (sampleMeta "1")) (fun _ => None))))
                   None "1" (Obj "dst") sampleGet Hkey eq_refl)
                 (itemResponse 200 (inl (sampleMeta "1")) (fun _ => None)) eq_refl))
           eq_refl (sampleMeta "1") eq_refl).
Defined.

(** A batched create of two: the first item is stored, the second
    rejected. *)
Lemma batch_returns_one_result_per_item_witness :
  exists metas errs log,
    call (CreateDocuments
            (sampleCollection
               (answering (arrayResponse 202
                  [itemResponse 202 (inl (sampleMeta "1")) (fun _ => None);
                   itemResponse 409 (inr (ErrNetwork "no metadata")) (fun _ => None)])))
            None (Slice ["{}"; "{}"]))
      = (Done (Some metas, Some errs, None), log) /\
    length metas = 2 /\
    length errs = 2.
Proof.
  destruct (proj2 (batch_returns_one_result_per_item
              (sampleCollection
                 (answering (arrayResponse 202
                    [itemResponse 202 (inl (sampleMeta "1")) (fun _ => None);
                     itemResponse 409 (inr (ErrNetwork "no metadata")) (fun _ => None)])))
              None noSettings
              (sampleRequestOf "POST" "_db/test/_api/document/books" (Slice ["{}"; "{}"]))
              (arrayResponse 202
                 [itemResponse 202 (inl (sampleMeta "1")) (fun _ => None);
                  itemResponse 409 (inr (ErrNetwork "no metadata")) (fun _ => None)])
              (BCreate (Slice ["{}"; "{}"])) 2
              eq_refl
              (ex_intro _ _ (conj eq_refl (ex_intro _ _ (conj eq_refl eq_refl))))
              eq_refl eq_refl eq_refl)
             [itemResponse 202 (inl (sampleMeta "1")) (fun _ => None);
              itemResponse 409 (inr (ErrNetwork "no metadata")) (fun _ => None)]
             eq_refl (le_n 2) (or_introl eq_refl) (or_introl eq_refl))
    as (metas & errs & log & Hrun & Hlm & Hle & _).
  exists metas, errs, log. split; [exact Hrun|]. split; [exact Hlm | exact Hle].
Defined.

(** Two keys, one expected revision. *)
Lemma UpdateDocuments_needs_a_revision_per_key_witness :
  exists err,
    call (UpdateDocuments (sampleCollection (unreachable "a")) (Some oneRevisionContext)
            (Some ["1"; "2"]) (Slice ["{}"; "{}"]))
      = (Done (None, None, Some err), [EvNewRequest "PATCH" "_db/test/_api/document/books"]) /\
    isInvalidArgument err.
Proof.
  apply (UpdateDocuments_needs_a_revision_per_key
           (sampleCollection (unreachable "a")) (Some oneRevisionContext)
           ["1"; "2"] ["_W1"] (Slice ["{}"; "{}"])
           (sampleRequestOf "PATCH" "_db/test/_api/document/books" Nil)
           (sampleRequestOf "PATCH" "_db/test/_api/document/books" Nil)
           (sc_settings oneRevisionContext)).
  - reflexivity.
  - intros H. apply list_elem_of_In in H. simpl in H.
    destruct H as [H|[H|[]]]; discriminate.
  - reflexivity.
  - reflexivity.
  - reflexivity.
  - simpl. lia.
Defined.

(** A batched create of nothing. *)
Lemma empty_batch_is_sent_witness :
  call (CreateDocuments (sampleCollection (answering (arrayResponse 202 []))) None (Slice []))
    = (Done (Some [], Some [], None),
       [EvNewRequest "POST" "_db/test/_api/document/books";
        EvDo (sampleRequestOf "POST" "_db/test/_api/document/books" (Slice []));
        EvParseArrayBody]).
Proof.
  apply (empty_batch_is_sent (sampleCollection (answering (arrayResponse 202 []))) None
           noSettings (sampleRequestOf "POST" "_db/test/_api/document/books" (Slice []))
           (arrayResponse 202 []) (BCreate (Slice [])) []).
  - reflexivity.
  - eexists. split; [reflexivity|]. eexists. split; reflexivity.
  - reflexivity.
  - reflexivity.
  - reflexivity.
  - reflexivity.
Defined.

(** ** Databases and collections *)

(** The collection [books] of the database [test]. *)
Lemma Collection_opens_under_the_database_witness :
  exists coll,
    fst (call (Collection (sampleDatabase (answering (arrayResponse 200 []))) None "books"))
      = Done (Some coll, None) /\
    collection_Name coll = "books" /\
    relPath coll "document" = "_db/test/_api/document/books".
Proof.
  destruct (Collection_opens_under_the_database "test" (answering (arrayResponse 200 []))
              (sampleDatabase (answering (arrayResponse 200 []))) None "books"
              (sampleRequestOf "GET" "_db/test/_api/collection/books" Nil)
              (arrayResponse 200 []))
    as (coll & Hrun & Hname & _ & Hpath & _);
    [reflexivity | discriminate | reflexivity | reflexivity | reflexivity |].
  exists coll. split; [rewrite Hrun; reflexivity|]. split; [exact Hname|].
  exact (Hpath "document").
Defined.

(** A database of two collections. *)
Lemma Collections_lists_in_order_witness :
  exists colls,
    fst (call (Collections
                 (sampleDatabase
                    (answering (arrayResponse 200
                       [itemResponse 200 (inl (sampleMeta "books")) (fun _ => None);
                        itemResponse 200 (inl (sampleMeta "films")) (fun _ => None)])))
                 None))
      = Done (Some colls, None) /\
    map collection_Name colls = ["books"; "films"].
Proof.
  destruct (proj1 (Collections_lists_in_order (KP:=sampleCatalog)
              (sampleDatabase
                 (answering (arrayResponse 200
                    [itemResponse 200 (inl (sampleMeta "books")) (fun _ => None);
                     itemResponse 200 (inl (sampleMeta "films")) (fun _ => None)])))
              None
              (sampleRequestOf "GET" "_db/test/_api/collection" Nil)
              (arrayResponse 200
                 [itemResponse 200 (inl (sampleMeta "books")) (fun _ => None);
                  itemResponse 200 (inl (sampleMeta "films")) (fun _ => None)])
              [{| info_Name := "books" |}; {| info_Name := "films" |}]
              eq_refl eq_refl eq_refl eq_refl))
    as (colls & Hrun & Hnames & _).
  - repeat constructor; discriminate.
  - exists colls. split; [rewrite Hrun; reflexivity | exact Hnames].
Defined.

End SamplesInUse.
